(** * stealth_tool: the state-tracked reversible-action manager

    A shallow embedding of [src/stealth_tool.py] and the properties of its
    persisted record.

    The Python functions are embedded one for one, under their own names, as
    computations in a state-and-exception monad over a [World]: the state
    directory and state file, the shell commands issued so far, the lines
    the operator has still to type, and a position in the stream of random
    draws.  Everything the host decides (which helpers are installed, what a
    command answers, whether the file system refuses a mutation, the random
    draws, the JSON codec of the standard library) is a field of [Env], over
    which the theorems quantify.

    The embedding covers the state store ([load_state], [save_state],
    [clear_state]), the inventory ([detect_wireless_interfaces],
    [choose_interface], [get_current_mac]), the generator
    ([generate_random_mac]) and the four operations on the record
    ([stealth_mode], [mac_spoof], [restore_changes],
    [restore_monitor_only]).  [clear_logs], [check_root] and [menu] neither
    read nor write the record; they are embedded over a [Machine], which
    adds to the world the files of the logs and the commands of the journal,
    with [sys.exit] as a third way for a computation to end.  The handler of
    [KeyboardInterrupt] around [menu] is not embedded.

    Modelling conventions.
    - A Python [str] is a [string]; its characters are read as the code
      points below 256.
    - A value produced by [json.loads] is a [json]; a Python dict is the
      association list of its items in insertion order, with distinct keys
      ([wf_json]).  JSON numbers are the integers: a record of this tool
      never holds a number.
    - A shell command is a constructor of [cmd] carrying the values the
      source interpolates into the command line.
    - [print] has no effect on the record or on the host and is left out. *)

From Stdlib Require Import ZArith String List Ascii Bool Lia.
From stdpp Require Import base countable strings list gmap.
Import ListNotations.

#[local] Open Scope string_scope.
#[local] Open Scope list_scope.
#[local] Open Scope nat_scope.
#[local] Set Warnings "-register-all".

(* ===================================================================== *)
(** ** Python strings *)
(* ===================================================================== *)

Module PyStr.

(** [str.isspace] on one character, which is also the class [\s] of [re]
    for a [str] pattern. *)
Definition isspace (c : ascii) : bool :=
  let n := nat_of_ascii c in
  ((9 <=? n) && (n <=? 13)) || ((28 <=? n) && (n <=? 32))
  || (n =? 133) || (n =? 160).

(** The longest prefix of [s] whose characters satisfy [p], and the rest. *)
Fixpoint span (p : ascii -> bool) (s : string) : string * string :=
  match s with
  | EmptyString => (EmptyString, EmptyString)
  | String c r =>
      if p c then let '(a, b) := span p r in (String c a, b)
      else (EmptyString, s)
  end.

Definition lstrip (s : string) : string := snd (span isspace s).

Fixpoint rev_string (acc s : string) : string :=
  match s with
  | EmptyString => acc
  | String c r => rev_string (String c acc) r
  end.

Definition rstrip (s : string) : string :=
  rev_string EmptyString (lstrip (rev_string EmptyString s)).

(** [s.strip()] *)
Definition strip (s : string) : string := rstrip (lstrip s).

(** [s.lower()] on the code points below 256: the letters A-Z and the
    capital letters of Latin-1 (0xC0-0xDE without the sign 0xD7). *)
Definition lower_char (c : ascii) : ascii :=
  let n := nat_of_ascii c in
  if ((65 <=? n) && (n <=? 90))
     || ((192 <=? n) && (n <=? 222) && negb (n =? 215))
  then ascii_of_nat (n + 32) else c.

Fixpoint lower (s : string) : string :=
  match s with
  | EmptyString => EmptyString
  | String c r => String (lower_char c) (lower r)
  end.

(** [s[len(p):]] when [s.startswith(p)] *)
Fixpoint strip_prefix (p s : string) : option string :=
  match p with
  | EmptyString => Some s
  | String a p' =>
      match s with
      | EmptyString => None
      | String b s' => if Ascii.eqb a b then strip_prefix p' s' else None
      end
  end.

Definition startswith (s p : string) : bool :=
  match strip_prefix p s with Some _ => true | None => false end.

(** [needle in hay], for two strings *)
Fixpoint contains (needle hay : string) : bool :=
  startswith hay needle ||
  match hay with
  | EmptyString => false
  | String _ r => contains needle r
  end.

(** [s.split()[0]]; [None] stands for the [IndexError] of an empty split. *)
Definition first_token (s : string) : option string :=
  let r := lstrip s in
  match r with
  | EmptyString => None
  | String _ _ => Some (fst (span (fun c => negb (isspace c)) r))
  end.

(** The line boundaries of [str.splitlines] below 256. *)
Definition is_linebreak (c : ascii) : bool :=
  let n := nat_of_ascii c in
  ((10 <=? n) && (n <=? 13)) || ((28 <=? n) && (n <=? 30)) || (n =? 133).

(** [s.splitlines()]: [cur] is the line being read, [after_cr] says that
    the previous character was a carriage return, so that a line feed
    right after it belongs to the same boundary. *)
Fixpoint splitlines_from (after_cr : bool) (cur s : string) : list string :=
  match s with
  | EmptyString =>
      match cur with EmptyString => [] | String _ _ => [cur] end
  | String c r =>
      if after_cr && (nat_of_ascii c =? 10) then splitlines_from false cur r
      else if is_linebreak c
           then cur :: splitlines_from (nat_of_ascii c =? 13) EmptyString r
           else splitlines_from false (String.append cur (String c EmptyString)) r
  end.

Definition splitlines (s : string) : list string :=
  splitlines_from false EmptyString s.

Definition is_digit (c : ascii) : bool :=
  let n := nat_of_ascii c in (48 <=? n) && (n <=? 57).

(** The digits of an [int] literal after its sign: decimal digits, with
    single underscores allowed between two digits.  [prev_digit] says that
    the character just read was a digit. *)
Fixpoint digits_value (acc : Z) (prev_digit : bool) (s : string) : option Z :=
  match s with
  | EmptyString => if prev_digit then Some acc else None
  | String c r =>
      if is_digit c
      then digits_value (10 * acc + Z.of_nat (nat_of_ascii c - 48)) true r
      else if (nat_of_ascii c =? 95) && prev_digit
           then match r with
                | EmptyString => None
                | String d _ =>
                    if is_digit d then digits_value acc false r else None
                end
           else None
  end.

(** [int(s)] in base ten, for a string with no white space at either end
    (the tool only converts the result of a [strip]); [None] stands for
    [ValueError]. *)
Definition to_int (s : string) : option Z :=
  match s with
  | String "-" r => option_map Z.opp (digits_value 0 false r)
  | String "+" r => digits_value 0 false r
  | r => digits_value 0 false r
  end.

Definition hex_digit (n : Z) : ascii :=
  if (n <? 10)%Z then ascii_of_nat (48 + Z.to_nat n)
  else ascii_of_nat (87 + Z.to_nat n).

(** [f"{b:02x}"] for [0 <= b <= 255], the range of every octet the tool
    formats. *)
Definition format_02x (b : Z) : string :=
  String (hex_digit (b / 16)) (String (hex_digit (b mod 16)) EmptyString).

(** [int(s, 16)] restricted to one lower-case hexadecimal digit. *)
Definition hex_value (c : ascii) : option Z :=
  let n := nat_of_ascii c in
  if (48 <=? n) && (n <=? 57) then Some (Z.of_nat (n - 48))
  else if (97 <=? n) && (n <=? 102) then Some (Z.of_nat (n - 87))
  else None.

(** [sep.join(parts)] *)
Fixpoint join (sep : string) (parts : list string) : string :=
  match parts with
  | [] => EmptyString
  | [p] => p
  | p :: ps => String.append p (String.append sep (join sep ps))
  end.

(** [list(dict.fromkeys(l))]: the first occurrence of each element, in
    order. *)
Fixpoint dedup_from (seen l : list string) : list string :=
  match l with
  | [] => []
  | x :: r =>
      if existsb (String.eqb x) seen then dedup_from seen r
      else x :: dedup_from (x :: seen) r
  end.

Definition dedup (l : list string) : list string := dedup_from [] l.

End PyStr.

(* ===================================================================== *)
(** ** JSON values and Python's operations on them *)
(* ===================================================================== *)

(** What [json.loads] returns.  [JObj] is a Python dict with string keys:
    its items, in insertion order. *)
Inductive json : Type :=
| JNull
| JBool (b : bool)
| JNum (n : Z)
| JStr (s : string)
| JArr (l : list json)
| JObj (m : list (string * json)).

(** The exceptions of the model. *)
Inductive exn : Type :=
| AttributeError | TypeError | KeyError | IndexError | EOFError | OSError
| JSONDecodeError.

Inductive outcome (A : Type) : Type :=
| Ok (a : A)
| Raise (e : exn).
Arguments Ok {A} a.
Arguments Raise {A} e.

(** [d.get(k)], as an option *)
Fixpoint dict_get (k : string) (m : list (string * json)) : option json :=
  match m with
  | [] => None
  | (k', v) :: r => if String.eqb k k' then Some v else dict_get k r
  end.

(** [d[k] = v]: an existing key keeps its place, a new key goes last. *)
Fixpoint dict_set (k : string) (v : json) (m : list (string * json))
  : list (string * json) :=
  match m with
  | [] => [(k, v)]
  | (k', v') :: r =>
      if String.eqb k k' then (k, v) :: r else (k', v') :: dict_set k v r
  end.

Fixpoint distinct (l : list string) : bool :=
  match l with
  | [] => true
  | x :: r => negb (existsb (String.eqb x) r) && distinct r
  end.

(** A [json] that stands for a Python value: the keys of every dict are
    distinct. *)
Fixpoint wf_json (v : json) : bool :=
  match v with
  | JArr l => forallb wf_json l
  | JObj m => distinct (map fst m) && forallb (fun kv => wf_json (snd kv)) m
  | _ => true
  end.

(** [bool(v)] *)
Definition py_truthy (v : json) : bool :=
  match v with
  | JNull => false
  | JBool b => b
  | JNum n => negb (n =? 0)%Z
  | JStr s => negb (String.eqb s EmptyString)
  | JArr l => match l with [] => false | _ => true end
  | JObj m => match m with [] => false | _ => true end
  end.

Definition is_str (k : string) (v : json) : bool :=
  match v with JStr s => String.eqb k s | _ => false end.

(** [k in v] for a string [k] *)
Definition py_in (k : string) (v : json) : outcome bool :=
  match v with
  | JObj m => Ok (match dict_get k m with Some _ => true | None => false end)
  | JArr l => Ok (existsb (is_str k) l)
  | JStr s => Ok (PyStr.contains k s)
  | _ => Raise TypeError
  end.

(** [v[k]] for a string [k] *)
Definition py_getitem (v : json) (k : string) : outcome json :=
  match v with
  | JObj m => match dict_get k m with Some x => Ok x | None => Raise KeyError end
  | _ => Raise TypeError
  end.

(** [v[k] = x] for a string [k] *)
Definition py_setitem (v : json) (k : string) (x : json) : outcome json :=
  match v with
  | JObj m => Ok (JObj (dict_set k x m))
  | _ => Raise TypeError
  end.

(** [v.get(k, default)] *)
Definition py_get (v : json) (k : string) (default : json) : outcome json :=
  match v with
  | JObj m => Ok (match dict_get k m with Some x => x | None => default end)
  | _ => Raise AttributeError
  end.

(** [v.setdefault(k, default)]: the container afterwards and the value
    returned. *)
Definition py_setdefault (v : json) (k : string) (default : json)
  : outcome (json * json) :=
  match v with
  | JObj m =>
      match dict_get k m with
      | Some x => Ok (v, x)
      | None => Ok (JObj (dict_set k default m), default)
      end
  | _ => Raise AttributeError
  end.

(** [v.items()] *)
Definition py_items (v : json) : outcome (list (string * json)) :=
  match v with
  | JObj m => Ok m
  | _ => Raise AttributeError
  end.

(* ===================================================================== *)
(** ** The host: commands, files, operator, randomness *)
(* ===================================================================== *)

(** The command lines given to [run], one constructor per command text of
    the source, with the interpolated values as arguments.  A value read
    back from the record is a [json]; an interface name chosen by the
    operator or a key of a dict is a [string]. *)
Inductive cmd : Type :=
| IwDev                                   (* iw dev *)
| IpBriefLink                             (* ip -brief link *)
| IpLinkShow (iface : string)             (* ip link show {iface} *)
| SystemctlStop                           (* systemctl stop NetworkManager *)
| SystemctlStart                          (* systemctl start NetworkManager *)
| AirmonCheckKill                         (* airmon-ng check kill *)
| AirmonStart (iface : string)            (* airmon-ng start {iface} *)
| AirmonStop (mon : json)                 (* airmon-ng stop {mon} *)
| IpLinkSetDown (iface : string)          (* ip link set {iface} down *)
| IpLinkSetUp (iface : string)            (* ip link set {iface} up *)
| IwSetTypeMonitor (iface : string)       (* iw dev {iface} set type monitor *)
| Macchanger (mac : json) (iface : string) (* macchanger -m {mac} {iface} *)
| MacchangerPermanent (iface : string)    (* macchanger -p {iface} *)
| IpLinkSetAddress (iface : string) (mac : json)
                                 (* ip link set dev {iface} address {mac} *)
| IpLinkSetDevDown (iface : json)         (* ip link set dev {iface} down *)
| IwSetTypeManaged (iface : json)         (* iw dev {iface} set type managed *)
| IpLinkSetDevUp (iface : json).          (* ip link set dev {iface} up *)

(** [STATE_FILE] on disk: absent, present with content that [read_text]
    cannot decode, or present with a text. *)
Inductive node : Type :=
| NoFile
| Undecodable
| File (text : string).

Record World : Type := mkWorld {
  state_dir : bool;        (* STATE_DIR exists *)
  state_file : node;       (* STATE_FILE *)
  fs_clock : nat;          (* file-system mutations attempted so far *)
  trace : list cmd;        (* commands given to [run], oldest first *)
  stdin : list string;     (* the lines the operator is going to type *)
  rng_pos : nat            (* random draws used so far *)
}.

Record Env : Type := mkEnv {
  which : string -> bool;                    (* shutil.which(name) is not None *)
  host : list cmd -> cmd -> option string;   (* exit status 0 and stdout *)
  fs_fault : nat -> bool;                    (* the n-th mutation is refused *)
  rng : nat -> Z;                            (* the source of random.randint *)
  json_dumps : json -> string;               (* json.dumps(v, indent=2) *)
  json_loads : string -> option json         (* json.loads(text) *)
}.

(** What the tool relies on from the [json] module: a value that was
    dumped loads back unchanged, and a loaded value is a Python value. *)
Definition lawful_codec (env : Env) : Prop :=
  (forall v, wf_json v = true -> json_loads env (json_dumps env v) = Some v)
  /\ (forall t v, json_loads env t = Some v -> wf_json v = true).

(** No mutation of the file system is refused. *)
Definition fs_reliable (env : Env) : Prop := forall n, fs_fault env n = false.

(* ===================================================================== *)
(** ** The monad of the operations *)
(* ===================================================================== *)

Definition M (A : Type) : Type := World -> outcome A * World.

Definition ret {A} (a : A) : M A := fun w => (Ok a, w).

Definition raise {A} (e : exn) : M A := fun w => (Raise e, w).

Definition bind {A B} (c : M A) (k : A -> M B) : M B :=
  fun w =>
    match c w with
    | (Ok a, w') => k a w'
    | (Raise e, w') => (Raise e, w')
    end.

(** [try: c  except Exception: h] *)
Definition try_except {A} (c : M A) (h : M A) : M A :=
  fun w =>
    match c w with
    | (Ok a, w') => (Ok a, w')
    | (Raise _, w') => h w'
    end.

(** A pure Python operation that may raise. *)
Definition lift {A} (o : outcome A) : M A := fun w => (o, w).

Notation "'let*' x ':=' c 'in' k" := (bind c (fun x => k))
  (at level 10, x name, c at level 100, k at level 200).
Notation "'let*' ' p ':=' c 'in' k" :=
  (bind c (fun x => match x with p => k end))
  (at level 10, p pattern, c at level 100, k at level 200).
Notation "c ;; k" := (bind c (fun _ => k))
  (at level 100, k at level 200, right associativity).

(** [for x in l: body x] *)
Fixpoint for_each {A} (l : list A) (body : A -> M unit) : M unit :=
  match l with
  | [] => ret tt
  | x :: r => body x ;; for_each r body
  end.

(* ===================================================================== *)
(** ** The two regular expressions of the inventory *)
(* ===================================================================== *)

Module Re.

(** A match of [Interface\s+(\S+)] at the start of [s]: the group and the
    text after the match.  Both repetitions are greedy and the two classes
    are complementary, so the match takes the whole run of white space and
    the whole run that follows it. *)
Definition interface_at (s : string) : option (string * string) :=
  match PyStr.strip_prefix "Interface" s with
  | None => None
  | Some r =>
      let '(ws, r1) := PyStr.span PyStr.isspace r in
      match ws with
      | EmptyString => None
      | String _ _ =>
          let '(name, r2) := PyStr.span (fun c => negb (PyStr.isspace c)) r1 in
          match name with
          | EmptyString => None
          | String _ _ => Some (name, r2)
          end
      end
  end.

(** The matches of the text, left to right and without overlap; a match
    is shorter than the text it is found in, so [fuel] counts characters. *)
Fixpoint findall_interface_fuel (fuel : nat) (s : string) : list string :=
  match fuel with
  | O => []
  | S fuel' =>
      match s with
      | EmptyString => []
      | String _ r =>
          match interface_at s with
          | Some (name, rest) => name :: findall_interface_fuel fuel' rest
          | None => findall_interface_fuel fuel' r
          end
      end
  end.

(** [re.findall(r"Interface\s+(\S+)", text)] *)
Definition findall_interface (text : string) : list string :=
  findall_interface_fuel (String.length text) text.

Definition is_mac_char (c : ascii) : bool :=
  let n := nat_of_ascii c in
  ((48 <=? n) && (n <=? 58)) || ((97 <=? n) && (n <=? 102)).

(** The first [n] characters of [s], when all of them are in
    [[0-9a-f:]]. *)
Fixpoint take_mac_chars (n : nat) (s : string) : option string :=
  match n with
  | O => Some EmptyString
  | S n' =>
      match s with
      | EmptyString => None
      | String c r =>
          if is_mac_char c
          then option_map (String c) (take_mac_chars n' r)
          else None
      end
  end.

(** A match of [link/ether\s+([0-9a-f:]{17})] at the start of [s]. *)
Definition ether_at (s : string) : option string :=
  match PyStr.strip_prefix "link/ether" s with
  | None => None
  | Some r =>
      let '(ws, r1) := PyStr.span PyStr.isspace r in
      match ws with
      | EmptyString => None
      | String _ _ => take_mac_chars 17 r1
      end
  end.

(** [re.search(r"link/ether\s+([0-9a-f:]{17})", text)], as the group of
    the leftmost match. *)
Fixpoint search_ether (text : string) : option string :=
  match ether_at text with
  | Some g => Some g
  | None =>
      match text with
      | EmptyString => None
      | String _ r => search_ether r
      end
  end.

End Re.

Definition set_trace (t : list cmd) (w : World) : World :=
  mkWorld (state_dir w) (state_file w) (fs_clock w) t (stdin w) (rng_pos w).

Definition set_stdin (i : list string) (w : World) : World :=
  mkWorld (state_dir w) (state_file w) (fs_clock w) (trace w) i (rng_pos w).

Definition set_rng_pos (n : nat) (w : World) : World :=
  mkWorld (state_dir w) (state_file w) (fs_clock w) (trace w) (stdin w) n.

(** One attempted mutation of the file system: the clock advances, and the
    directory and the file become [d] and [f]. *)
Definition set_disk (d : bool) (f : node) (w : World) : World :=
  mkWorld d f (S (fs_clock w)) (trace w) (stdin w) (rng_pos w).

Section Model.

Variable env : Env.

(* --------------------------------------------------------------------- *)
(** *** Primitives of the host *)

(** [STATE_DIR.mkdir(parents=True, exist_ok=True)] *)
Definition mkdir : M unit := fun w =>
  if fs_fault env (fs_clock w)
  then (Raise OSError, set_disk (state_dir w) (state_file w) w)
  else (Ok tt, set_disk true (state_file w) w).

(** [STATE_FILE.exists()], for a path the process may examine (the tool
    runs as root) *)
Definition exists_ : M bool := fun w =>
  (Ok (match state_file w with NoFile => false | _ => true end), w).

(** [STATE_FILE.read_text()] *)
Definition read_text : M string := fun w =>
  match state_file w with
  | File t => (Ok t, w)
  | _ => (Raise OSError, w)
  end.

(** [STATE_FILE.write_text(t)] *)
Definition write_text (t : string) : M unit := fun w =>
  if fs_fault env (fs_clock w) || negb (state_dir w)
  then (Raise OSError, set_disk (state_dir w) (state_file w) w)
  else (Ok tt, set_disk (state_dir w) (File t) w).

(** [STATE_FILE.unlink()] *)
Definition unlink : M unit := fun w =>
  if fs_fault env (fs_clock w)
  then (Raise OSError, set_disk (state_dir w) (state_file w) w)
  else (Ok tt, set_disk (state_dir w) NoFile w).

(** [input(prompt)]: the next line of the operator, [EOFError] when there
    is none. *)
Definition input : M string := fun w =>
  match stdin w with
  | [] => (Raise EOFError, w)
  | l :: r => (Ok l, set_stdin r w)
  end.

(** [random.randint(lo, hi)] *)
Definition randint (lo hi : Z) : M Z := fun w =>
  (Ok (lo + rng env (rng_pos w) mod (hi - lo + 1))%Z,
   set_rng_pos (S (rng_pos w)) w).

(* --------------------------------------------------------------------- *)
(** *** helpers *)

Definition ensure_state_dir : M unit :=
  try_except mkdir (ret tt).

Definition load_state : M json :=
  ensure_state_dir ;;
  let* present := exists_ in
  if present then
    try_except
      (let* t := read_text in
       match json_loads env t with
       | Some v => ret v
       | None => raise JSONDecodeError
       end)
      (ret (JObj []))
  else ret (JObj []).

Definition save_state (state : json) : M unit :=
  ensure_state_dir ;;
  try_except (write_text (json_dumps env state)) (ret tt).

Definition clear_state : M unit :=
  try_except
    (let* present := exists_ in
     if present then unlink else ret tt)
    (ret tt).

(** [run(cmd, capture)]: [None] when the command exits with an error, the
    captured standard output otherwise.  Without [capture] no field of the
    result is ever read. *)
Definition run (c : cmd) (capture : bool) : M (option string) := fun w =>
  (Ok (host env (trace w) c), set_trace (trace w ++ [c]) w).

(* --------------------------------------------------------------------- *)
(** *** network/wifi helpers *)

(** The loop over the lines of [ip -brief link]: the names that start with
    [wlan], [wlp] or [wl]. *)
Fixpoint wireless_names (lines : list string) : outcome (list string) :=
  match lines with
  | [] => Ok []
  | line :: r =>
      match PyStr.first_token line with
      | None => Raise IndexError
      | Some name =>
          match wireless_names r with
          | Ok l =>
              Ok (if PyStr.startswith name "wlan"
                     || PyStr.startswith name "wlp"
                     || PyStr.startswith name "wl"
                  then name :: l else l)
          | Raise e => Raise e
          end
      end
  end.

Definition detect_wireless_interfaces : M (list string) :=
  let* out := run IwDev true in
  match out with
  | None => ret []
  | Some text =>
      let ifaces := Re.findall_interface text in
      let* ifaces :=
        match ifaces with
        | [] =>
            let* out2 := run IpBriefLink true in
            match out2 with
            | Some text2 => lift (wireless_names (PyStr.splitlines text2))
            | None => ret []
            end
        | _ :: _ => ret ifaces
        end in
      ret (PyStr.dedup ifaces)
  end.

(** [choose_interface(prompt)]; the prompt is only printed. *)
Definition choose_interface : M (option string) :=
  let* ifaces := detect_wireless_interfaces in
  match ifaces with
  | [] => ret None
  | _ :: _ =>
      let* line := input in
      let choice := PyStr.strip line in
      match PyStr.to_int choice with
      | Some n =>
          let idx := (n - 1)%Z in
          if ((0 <=? idx)%Z && (idx <? Z.of_nat (length ifaces))%Z)%bool
          then ret (nth_error ifaces (Z.to_nat idx))
          else ret None
      | None => ret None
      end
  end.

Definition generate_random_mac : M string :=
  let* b1 := randint 0 255 in
  let* b2 := randint 0 255 in
  let* b3 := randint 0 255 in
  let* b4 := randint 0 255 in
  let* b5 := randint 0 255 in
  let mac := [2; b1; b2; b3; b4; b5]%Z in
  ret (PyStr.join ":" (map PyStr.format_02x mac)).

Definition get_current_mac (iface : string) : M (option string) :=
  let* out := run (IpLinkShow iface) true in
  match out with
  | None => ret None
  | Some text => ret (Re.search_ether text)
  end.

(* --------------------------------------------------------------------- *)
(** *** main features *)

(** The first element of [after_ifaces] that is not in [before_ifaces]
    (the [for] loop with its [break]). *)
Definition first_new (before_ifaces after_ifaces : list string)
  : option string :=
  find (fun a => negb (existsb (String.eqb a) before_ifaces)) after_ifaces.

(** [if not mon_iface: mon_iface = iface + 'mon'] *)
Definition monitor_name (found : option string) (iface : string) : string :=
  match found with
  | Some a => if String.eqb a EmptyString then String.append iface "mon" else a
  | None => String.append iface "mon"
  end.

(** [stealth_mode] from the snapshot [before_ifaces] on, for the record
    [state] that was loaded and the adapter [iface] that was chosen. *)
Definition stealth_mode_on (state : json) (iface : string) : M unit :=
  let* before_ifaces := detect_wireless_interfaces in
  let* res := run SystemctlStop false in
  let* state :=
    match res with
    | None => ret state
    | Some _ =>
        let* state := lift (py_setitem state "networkmanager_stopped" (JBool true)) in
        save_state state ;;
        ret state
    end in
  (if which env "airmon-ng"
   then run AirmonCheckKill false ;; ret tt
   else ret tt) ;;
  run (IpLinkSetDown iface) false ;;
  if which env "airmon-ng" then
    run (AirmonStart iface) false ;;
    let* after_ifaces := detect_wireless_interfaces in
    let mon_iface := monitor_name (first_new before_ifaces after_ifaces) iface in
    let* state := lift (py_setitem state "monitor_interface" (JStr mon_iface)) in
    let* state := lift (py_setitem state "original_interface" (JStr iface)) in
    save_state state
  else
    run (IwSetTypeMonitor iface) false ;;
    run (IpLinkSetUp iface) false ;;
    let* state := lift (py_setitem state "monitor_interface" (JStr iface)) in
    let* state := lift (py_setitem state "original_interface" (JStr iface)) in
    save_state state.

Definition stealth_mode : M unit :=
  let* state := load_state in
  let* line := input in
  let confirm := PyStr.strip line in
  if negb (String.eqb confirm "YES") then ret tt
  else
    let* iface := choose_interface in
    match iface with
    | None => ret tt
    | Some iface =>
        if String.eqb iface EmptyString then ret tt
        else stealth_mode_on state iface
    end.

(** [mac_spoof] once the interface is known. *)
Definition mac_spoof_on (state : json) (iface : string) : M unit :=
  let* known := lift (py_in "original_macs" state) in
  let* state :=
    if negb known then lift (py_setitem state "original_macs" (JObj []))
    else ret state in
  let* origs := lift (py_getitem state "original_macs") in
  let* saved := lift (py_in iface origs) in
  let* state :=
    if negb saved then
      let* orig := get_current_mac iface in
      match orig with
      | Some o =>
          if negb (String.eqb o EmptyString) then
            let* origs := lift (py_getitem state "original_macs") in
            let* origs := lift (py_setitem origs iface (JStr o)) in
            let* state := lift (py_setitem state "original_macs" origs) in
            save_state state ;;
            ret state
          else ret state
      | None => ret state
      end
    else ret state in
  let* new_mac := generate_random_mac in
  (if which env "macchanger" then
     run (IpLinkSetDown iface) false ;;
     run (Macchanger (JStr new_mac) iface) false ;;
     run (IpLinkSetUp iface) false
   else
     run (IpLinkSetDown iface) false ;;
     run (IpLinkSetAddress iface (JStr new_mac)) false ;;
     run (IpLinkSetUp iface) false) ;;
  let* '(state, spoofed) := lift (py_setdefault state "spoofed_macs" (JObj [])) in
  let* spoofed := lift (py_setitem spoofed iface (JStr new_mac)) in
  let* state := lift (py_setitem state "spoofed_macs" spoofed) in
  save_state state.

Definition mac_spoof : M unit :=
  let* state := load_state in
  let* line := input in
  let iface := PyStr.strip line in
  if String.eqb iface EmptyString then
    let* chosen := choose_interface in
    match chosen with
    | None => ret tt
    | Some iface =>
        if String.eqb iface EmptyString then ret tt
        else mac_spoof_on state iface
    end
  else mac_spoof_on state iface.

(** The body of the loop of [restore_changes] over [spoofed.items()]. *)
Definition restore_mac (origs : json) (iface : string) : M unit :=
  let* original := lift (py_get origs iface JNull) in
  if py_truthy original then
    if which env "macchanger" then
      run (IpLinkSetDown iface) false ;;
      run (Macchanger original iface) false ;;
      run (IpLinkSetUp iface) false ;;
      ret tt
    else
      run (IpLinkSetDown iface) false ;;
      run (IpLinkSetAddress iface original) false ;;
      run (IpLinkSetUp iface) false ;;
      ret tt
  else
    if which env "macchanger" then
      run (IpLinkSetDown iface) false ;;
      run (MacchangerPermanent iface) false ;;
      run (IpLinkSetUp iface) false ;;
      ret tt
    else ret tt.

(** The first part of [restore_changes], "Restore MACs first": the loop
    over the spoofed addresses of the record. *)
Definition restore_macs (state : json) : M unit :=
  let* spoofed := lift (py_get state "spoofed_macs" (JObj [])) in
  let* origs := lift (py_get state "original_macs" (JObj [])) in
  let* items := lift (py_items spoofed) in
  for_each items (fun kv => restore_mac origs (fst kv)).

(** The block that takes [mon] out of monitor mode; [restore_changes] and
    [restore_monitor_only] hold one copy each. *)
Definition stop_monitor (mon orig_iface : json) : M unit :=
  if which env "airmon-ng" then
    run (AirmonStop mon) false ;; ret tt
  else if py_truthy orig_iface then
    run (IpLinkSetDevDown orig_iface) false ;;
    run (IwSetTypeManaged orig_iface) false ;;
    run (IpLinkSetDevUp orig_iface) false ;;
    ret tt
  else ret tt.

(** The block that restarts NetworkManager if the record says it was
    stopped; again one copy in each of the two restore operations. *)
Definition restart_network_manager (state : json) : M unit :=
  let* nm := lift (py_get state "networkmanager_stopped" JNull) in
  if py_truthy nm then run SystemctlStart false ;; ret tt else ret tt.

(** The operator's answer to the question of [restore_changes]:
    [ans in ('y', 'yes')]. *)
Definition says_yes (line : string) : bool :=
  let ans := PyStr.lower (PyStr.strip line) in
  String.eqb ans "y" || String.eqb ans "yes".

Definition restore_changes : M unit :=
  let* state := load_state in
  if negb (py_truthy state) then ret tt
  else
    restore_macs state ;;
    let* mon := lift (py_get state "monitor_interface" JNull) in
    let* orig_iface := lift (py_get state "original_interface" JNull) in
    let* '(state, clear_after) :=
      if py_truthy mon then
        let* line := input in
        if says_yes line then
          stop_monitor mon orig_iface ;;
          ret (state, true)
        else
          let* state := lift (py_setitem state "monitor_left" (JBool true)) in
          save_state state ;;
          ret (state, false)
      else ret (state, true) in
    restart_network_manager state ;;
    if clear_after then clear_state else ret tt.

Definition restore_monitor_only : M unit :=
  let* state := load_state in
  if negb (py_truthy state) then ret tt
  else
    let* mon := lift (py_get state "monitor_interface" JNull) in
    let* orig_iface := lift (py_get state "original_interface" JNull) in
    if negb (py_truthy mon) then clear_state
    else
      stop_monitor mon orig_iface ;;
      restart_network_manager state ;;
      clear_state.

End Model.

(* ===================================================================== *)
(** ** What the host answers, as functions of the commands issued *)
(* ===================================================================== *)

(** The results of the inventory and of the generator depend on a world
    only through its trace or its position in the random stream; the
    following definitions name them as functions of those. *)

Definition world_at (tr : list cmd) (pos : nat) : World :=
  mkWorld false NoFile 0 tr [] pos.

(** What [detect_wireless_interfaces] returns after the commands [tr]. *)
Definition enumerate (env : Env) (tr : list cmd) : outcome (list string) :=
  fst (detect_wireless_interfaces env (world_at tr 0)).

(** The commands [detect_wireless_interfaces] issues after [tr]. *)
Definition enumerate_cmds (env : Env) (tr : list cmd) : list cmd :=
  match host env tr IwDev with
  | None => [IwDev]
  | Some text =>
      match Re.findall_interface text with
      | [] => [IwDev; IpBriefLink]
      | _ :: _ => [IwDev]
      end
  end.

(** What [get_current_mac(iface)] returns after the commands [tr]. *)
Definition read_mac (env : Env) (tr : list cmd) (iface : string)
  : option string :=
  match host env tr (IpLinkShow iface) with
  | None => None
  | Some text => Re.search_ether text
  end.

(** The [n]-th draw of [random.randint(0x00, 0xff)]. *)
Definition draw (env : Env) (n : nat) : Z := (0 + rng env n mod (255 - 0 + 1))%Z.

(** What [generate_random_mac] returns at position [n] of the stream. *)
Definition mac_at (env : Env) (n : nat) : string :=
  PyStr.join ":"
    (map PyStr.format_02x
       [2%Z; draw env n; draw env (n + 1); draw env (n + 2);
        draw env (n + 3); draw env (n + 4)]).

(** The first octet of an address in the format of [generate_random_mac]:
    the value of its first two hexadecimal digits. *)
Definition first_octet (mac : string) : option Z :=
  match mac with
  | String a (String b _) =>
      match PyStr.hex_value a, PyStr.hex_value b with
      | Some x, Some y => Some (16 * x + y)%Z
      | _, _ => None
      end
  | _ => None
  end.

(* ===================================================================== *)
(** ** The record on disk and the effect of each operation *)
(* ===================================================================== *)

(** The properties below are stated with the following pure descriptions
    of what an operation leaves on disk and of the commands it issues;
    each is proved equal to what the operation does. *)

(** The record [load_state] returns for a state file. *)
Definition stored (env : Env) (f : node) : json :=
  match f with
  | File t =>
      match json_loads env t with
      | Some v => v
      | None => JObj []
      end
  | _ => JObj []
  end.

(** [d.get(k)] with [None] for a missing key *)
Definition field (k : string) (m : list (string * json)) : json :=
  match dict_get k m with Some x => x | None => JNull end.

(** The dict under [k] in the record, empty when there is none. *)
Definition table (k : string) (m : list (string * json))
  : list (string * json) :=
  match dict_get k m with
  | Some (JObj t) => t
  | _ => []
  end.

(** The entry of a table of the record: [d[outer][k]] when both exist. *)
Definition entry (outer k : string) (m : list (string * json)) : option json :=
  dict_get k (table outer m).

(** The record [load_state] would return in [w], as a dict. *)
Definition persisted (env : Env) (w : World) : list (string * json) :=
  match fst (load_state env w) with
  | Ok (JObj m) => m
  | _ => []
  end.

(** The operator choosing the same menu entry [n] times in a row. *)
Fixpoint repeat_op (n : nat) (op : M unit) : M unit :=
  match n with
  | O => ret tt
  | S n' => op ;; repeat_op n' op
  end.

(** A record whose two address tables, when present, are dicts: the shape
    every record written by the tool has. *)
Definition tables_ok (m : list (string * json)) : bool :=
  match dict_get "spoofed_macs" m with
  | None | Some (JObj _) => true
  | Some _ => false
  end &&
  match dict_get "original_macs" m with
  | None | Some (JObj _) => true
  | Some _ => false
  end.

(** The commands that take an interface out of monitor mode. *)
Definition is_monitor_restore (c : cmd) : bool :=
  match c with
  | AirmonStop _ | IpLinkSetDevDown _ | IwSetTypeManaged _ | IpLinkSetDevUp _ => true
  | _ => false
  end.

(** The commands one turn of the loop of [restore_changes] issues for
    [iface], given the dict [origs] of original addresses. *)
Definition restore_mac_cmds (env : Env) (origs : list (string * json))
    (iface : string) : list cmd :=
  let original := field iface origs in
  if py_truthy original then
    if which env "macchanger"
    then [IpLinkSetDown iface; Macchanger original iface; IpLinkSetUp iface]
    else [IpLinkSetDown iface; IpLinkSetAddress iface original;
          IpLinkSetUp iface]
  else
    if which env "macchanger"
    then [IpLinkSetDown iface; MacchangerPermanent iface; IpLinkSetUp iface]
    else [].

(** The commands of the whole loop, for the record [m]. *)
Definition restore_macs_cmds (env : Env) (m : list (string * json)) : list cmd :=
  match field "spoofed_macs" m, field "original_macs" m with
  | JObj spoofed, JObj origs =>
      flat_map (fun kv => restore_mac_cmds env origs (fst kv)) spoofed
  | JObj spoofed, _ =>
      flat_map (fun kv => restore_mac_cmds env [] (fst kv)) spoofed
  | _, _ => []
  end.

(** The commands of the monitor-mode revert of the two restore operations,
    for the recorded [mon] and [orig_iface]. *)
Definition revert_cmds (env : Env) (mon orig_iface : json) : list cmd :=
  if which env "airmon-ng" then [AirmonStop mon]
  else if py_truthy orig_iface
       then [IpLinkSetDevDown orig_iface; IwSetTypeManaged orig_iface;
             IpLinkSetDevUp orig_iface]
       else [].

(** The command that restarts the network-management service when the
    record says the tool stopped it. *)
Definition restart_cmds (m : list (string * json)) : list cmd :=
  if py_truthy (field "networkmanager_stopped" m) then [SystemctlStart] else [].

(** The commands by which [mac_spoof] sets the address [new_mac]. *)
Definition spoof_cmds (env : Env) (iface new_mac : string) : list cmd :=
  if which env "macchanger"
  then [IpLinkSetDown iface; Macchanger (JStr new_mac) iface; IpLinkSetUp iface]
  else [IpLinkSetDown iface; IpLinkSetAddress iface (JStr new_mac);
        IpLinkSetUp iface].

(** The address [mac_spoof] captures as the original one of [iface] after
    the commands [tr]: none when one is recorded already or when the read
    gives nothing. *)
Definition captured (env : Env) (tr : list cmd) (iface : string)
    (m : list (string * json)) : option string :=
  match dict_get iface (table "original_macs" m) with
  | Some _ => None
  | None =>
      match read_mac env tr iface with
      | Some o => if String.eqb o EmptyString then None else Some o
      | None => None
      end
  end.

(** The record [mac_spoof] builds from [m] for [iface], after the commands
    [tr] and at position [pos] of the random stream. *)
Definition spoof_record (env : Env) (tr : list cmd) (pos : nat)
    (iface : string) (m : list (string * json)) : list (string * json) :=
  let m0 :=
    match dict_get "original_macs" m with
    | Some _ => m
    | None => dict_set "original_macs" (JObj []) m
    end in
  let m1 :=
    match captured env tr iface m with
    | Some o =>
        dict_set "original_macs"
          (JObj (dict_set iface (JStr o) (table "original_macs" m))) m0
    | None => m0
    end in
  dict_set "spoofed_macs"
    (JObj (dict_set iface (JStr (mac_at env pos)) (table "spoofed_macs" m))) m1.

(** The commands of [stealth_mode] between its two enumerations when
    [airmon-ng] is installed, and its commands after the enumeration when
    it is not. *)
Definition stealth_cmds_airmon (iface : string) : list cmd :=
  [SystemctlStop; AirmonCheckKill; IpLinkSetDown iface; AirmonStart iface].

Definition stealth_cmds_manual (iface : string) : list cmd :=
  [SystemctlStop; IpLinkSetDown iface; IwSetTypeMonitor iface; IpLinkSetUp iface].

(** The record [stealth_mode] builds from [m]: the flag of the stopped
    service when [stopped], then the two interface names. *)
Definition stealth_record (stopped : bool) (mon iface : string)
    (m : list (string * json)) : list (string * json) :=
  dict_set "original_interface" (JStr iface)
    (dict_set "monitor_interface" (JStr mon)
       (if stopped then dict_set "networkmanager_stopped" (JBool true) m else m)).

Definition succeeded (r : option string) : bool :=
  match r with Some _ => true | None => false end.

(* ===================================================================== *)
(** ** Frames: what an operation leaves alone, and classes of commands *)
(* ===================================================================== *)

(** A relation between the world before and the world after that holds
    when nothing happens and composes. *)
Class Frame (R : World -> World -> Prop) : Prop := {
  frame_refl : forall w, R w w;
  frame_trans : forall w1 w2 w3, R w1 w2 -> R w2 w3 -> R w1 w3
}.

(** The computation [c] moves every world to one related to it by [R],
    whether it returns or raises. *)
Definition keeps (R : World -> World -> Prop) {A} (c : M A) : Prop :=
  forall w, R w (snd (c w)).

(** No line of the operator was read. *)
Definition input_untouched (w w' : World) : Prop :=
  stdin w' = stdin w.

(** The operator's lines were only read, from the front. *)
Definition reads_on (w w' : World) : Prop :=
  exists used, stdin w = used ++ stdin w'.

(** The commands issued are all [allowed]. *)
Definition issues (allowed : cmd -> bool) (w w' : World) : Prop :=
  exists cmds, trace w' = trace w ++ cmds /\ forallb allowed cmds = true.

(** The two enumerations of the inventory. *)
Definition is_inventory (c : cmd) : bool :=
  match c with IwDev | IpBriefLink => true | _ => false end.

(** The commands that change a hardware address. *)
Definition is_address_change (c : cmd) : bool :=
  match c with
  | Macchanger _ _ | MacchangerPermanent _ | IpLinkSetAddress _ _ => true
  | _ => false
  end.

(** The commands [stealth_mode] may issue. *)
Definition stealth_allowed (c : cmd) : bool :=
  match c with
  | IwDev | IpBriefLink | SystemctlStop | AirmonCheckKill | AirmonStart _
  | IpLinkSetDown _ | IpLinkSetUp _ | IwSetTypeMonitor _ => true
  | _ => false
  end.

(** The commands [mac_spoof] may issue. *)
Definition spoof_allowed (c : cmd) : bool :=
  match c with
  | IwDev | IpBriefLink | IpLinkShow _ | IpLinkSetDown _ | IpLinkSetUp _
  | Macchanger (JStr _) _ | IpLinkSetAddress _ (JStr _) => true
  | _ => false
  end.

(** The commands [restore_changes] may issue. *)
Definition restore_allowed (c : cmd) : bool :=
  match c with
  | IpLinkSetDown _ | IpLinkSetUp _ | Macchanger _ _ | MacchangerPermanent _
  | IpLinkSetAddress _ _ | AirmonStop _ | IpLinkSetDevDown _
  | IwSetTypeManaged _ | IpLinkSetDevUp _ | SystemctlStart => true
  | _ => false
  end.

(** The commands [restore_monitor_only] may issue. *)
Definition restore_monitor_allowed (c : cmd) : bool :=
  match c with
  | AirmonStop _ | IpLinkSetDevDown _ | IwSetTypeManaged _ | IpLinkSetDevUp _
  | SystemctlStart => true
  | _ => false
  end.

(** A string that is not empty and holds no white space. *)
Definition token (s : string) : Prop :=
  s <> EmptyString /\
  forallb (fun c => negb (PyStr.isspace c)) (list_ascii_of_string s) = true.

(** The commands that change the hardware address of [iface]. *)
Definition sets_address_of (iface : string) (c : cmd) : bool :=
  match c with
  | Macchanger _ i | MacchangerPermanent i | IpLinkSetAddress i _ =>
      String.eqb i iface
  | _ => false
  end.

(** The three commands by which [restore_changes] puts the address
    [original] back on [iface]. *)
Definition put_back_cmds (env : Env) (iface : string) (original : json)
  : list cmd :=
  [IpLinkSetDown iface;
   if which env "macchanger" then Macchanger original iface
   else IpLinkSetAddress iface original;
   IpLinkSetUp iface].

(* ===================================================================== *)
(** ** The tool as it is started: the log files, the exit status, the menu *)
(* ===================================================================== *)

(** [LOG_FILES] *)
Definition LOG_FILES : list string :=
  ["/var/log/auth.log"; "/var/log/syslog"; "/var/log/kern.log";
   "/var/log/messages"; "/var/log/wtmp"; "/var/log/lastlog"].

(** The two command lines that [clear_logs] gives to [run]. *)
Inductive journal_cmd : Type :=
| JournalRotate                   (* journalctl --rotate *)
| JournalVacuum.                  (* journalctl --vacuum-time=1s *)

(** The machine the menu runs on: the world of the operations; the files
    that [clear_logs] may find, by path, with their content; and the
    [journalctl] commands given to [run], each with the number of commands
    of [trace] that were issued before it.  The answers of the host to the
    commands of the operations do not depend on the commands of the
    journal. *)
Record Machine : Type := mkMachine {
  core : World;
  logs : gmap string string;
  journal : list (nat * journal_cmd)
}.

(** What else the host decides: the effective user id of the process, and
    the paths for which [open(path, 'r+')] or the [truncate] that follows
    raises. *)
Record Host : Type := mkHost {
  tools : Env;
  euid : Z;
  open_fails : string -> bool
}.

(** How a computation of the menu ends: it returns, it raises, or it
    leaves the interpreter through [sys.exit]. *)
Inductive ending (A : Type) : Type :=
| Returns (a : A)
| Fails (e : exn)
| Exits (code : Z).
Arguments Returns {A} a.
Arguments Fails {A} e.
Arguments Exits {A} code.

Definition P (A : Type) : Type := Machine -> ending A * Machine.

Definition pret {A} (a : A) : P A := fun s => (Returns a, s).

Definition pbind {A B} (c : P A) (k : A -> P B) : P B :=
  fun s =>
    match c s with
    | (Returns a, s') => k a s'
    | (Fails e, s') => (Fails e, s')
    | (Exits code, s') => (Exits code, s')
    end.

(** [try: c  except Exception: h]; [SystemExit] is not an [Exception]. *)
Definition ptry {A} (c : P A) (h : P A) : P A :=
  fun s =>
    match c s with
    | (Fails _, s') => h s'
    | r => r
    end.

(** [sys.exit(code)] *)
Definition sys_exit {A} (code : Z) : P A := fun s => (Exits code, s).

Definition set_core (w : World) (s : Machine) : Machine :=
  mkMachine w (logs s) (journal s).

Definition set_logs (l : gmap string string) (s : Machine) : Machine :=
  mkMachine (core s) l (journal s).

(** An operation on the world, run on the machine. *)
Definition on_core {A} (c : M A) : P A :=
  fun s =>
    match c (core s) with
    | (Ok a, w') => (Returns a, set_core w' s)
    | (Raise e, w') => (Fails e, set_core w' s)
    end.

Declare Scope machine_scope.
Delimit Scope machine_scope with mach.

Notation "'let*' x ':=' c 'in' k" := (pbind c (fun x => k))
  (at level 10, x name, c at level 100, k at level 200) : machine_scope.
Notation "c ;; k" := (pbind c (fun _ => k))
  (at level 100, k at level 200, right associativity) : machine_scope.

(** [for x in l: body x] *)
Fixpoint pfor {A} (l : list A) (body : A -> P unit) : P unit :=
  match l with
  | [] => pret tt
  | x :: r => (body x ;; pfor r body)%mach
  end.

Section Menu.

Variable h : Host.

#[local] Open Scope machine_scope.

(** [os.path.exists(lf)] *)
Definition path_exists (lf : string) : P bool := fun s =>
  (Returns (match logs s !! lf with Some _ => true | None => false end), s).

(** [with open(lf, 'r+') as f: f.truncate(0)], for a path that exists *)
Definition truncate (lf : string) : P unit := fun s =>
  if open_fails h lf then (Fails OSError, s)
  else (Returns tt, set_logs (<[lf := EmptyString]> (logs s)) s).

(** [run(cmd)] for a command of the journal; the result is not looked
    at. *)
Definition run_journal (c : journal_cmd) : P unit := fun s =>
  (Returns tt,
   mkMachine (core s) (logs s)
             (journal s ++ [(length (trace (core s)), c)])).

Definition check_root : P unit :=
  if negb (euid h =? 0)%Z then sys_exit 1 else pret tt.

Definition clear_logs : P unit :=
  let* line := on_core input in
  let confirm := PyStr.strip line in
  if negb (String.eqb confirm "CLEAR_LOGS") then pret tt
  else
    pfor LOG_FILES
      (fun lf =>
         let* present := path_exists lf in
         if present then ptry (truncate lf) (pret tt) else pret tt) ;;
    if which (tools h) "journalctl" then
      run_journal JournalRotate ;;
      run_journal JournalVacuum
    else pret tt.

(** One turn of the loop of [menu]. *)
Definition menu_turn : P unit :=
  let* line := on_core input in
  let choice := PyStr.strip line in
  if String.eqb choice "1" then on_core (stealth_mode (tools h))
  else if String.eqb choice "2" then on_core (mac_spoof (tools h))
  else if String.eqb choice "3" then clear_logs
  else if String.eqb choice "4" then on_core (restore_changes (tools h))
  else if String.eqb choice "5" then on_core (restore_monitor_only (tools h))
  else if String.eqb choice "0" then sys_exit 0
  else pret tt.

(** [while True: ...], for at most [fuel] turns; [None] when the turns are
    used up. *)
Fixpoint menu_loop (fuel : nat) (s : Machine) : option (ending unit * Machine) :=
  match fuel with
  | O => None
  | S fuel' =>
      match menu_turn s with
      | (Returns _, s') => menu_loop fuel' s'
      | r => Some r
      end
  end.

Definition menu (fuel : nat) (s : Machine) : option (ending unit * Machine) :=
  match check_root s with
  | (Returns _, s') => menu_loop fuel s'
  | r => Some r
  end.

End Menu.

(** The log files after the loop of [clear_logs] over the paths [l]. *)
Definition truncated (h : Host) (l : list string) (old : gmap string string)
    (p : string) : option string :=
  match old !! p with
  | Some t =>
      Some (if existsb (String.eqb p) l && negb (open_fails h p)
            then EmptyString else t)
  | None => None
  end.

(** A line that selects no entry of the menu. *)
Definition unknown_choice (line : string) : bool :=
  negb (existsb (String.eqb (PyStr.strip line)) ["1"; "2"; "3"; "4"; "5"; "0"]).

(* ===================================================================== *)
(** ** A reference codec and sample hosts *)
(* ===================================================================== *)

Module Sample.

(** A codec that satisfies [lawful_codec]: a value is written as the
    binary digits of its code as a tree. *)
Fixpoint json_tree (v : json) : gen_tree (bool + Z + string) :=
  match v with
  | JNull => GenNode 0 []
  | JBool b => GenLeaf (inl (inl b))
  | JNum n => GenLeaf (inl (inr n))
  | JStr s => GenLeaf (inr s)
  | JArr l => GenNode 1 (map json_tree l)
  | JObj m =>
      GenNode 2
        (map (fun kv => GenNode 3 [GenLeaf (inr (fst kv)); json_tree (snd kv)]) m)
  end.

Fixpoint tree_json (t : gen_tree (bool + Z + string)) : json :=
  match t with
  | GenLeaf (inl (inl b)) => JBool b
  | GenLeaf (inl (inr n)) => JNum n
  | GenLeaf (inr s) => JStr s
  | GenNode 1 ts => JArr (map tree_json ts)
  | GenNode 2 ts =>
      JObj (map (fun t =>
                   match t with
                   | GenNode _ [GenLeaf (inr k); t'] => (k, tree_json t')
                   | _ => (EmptyString, JNull)
                   end) ts)
  | GenNode _ _ => JNull
  end.

Fixpoint pos_bits (p : positive) : string :=
  match p with
  | xH => EmptyString
  | xO q => String "0" (pos_bits q)
  | xI q => String "1" (pos_bits q)
  end.

Fixpoint bits_pos (s : string) : option positive :=
  match s with
  | EmptyString => Some xH
  | String c r =>
      match bits_pos r with
      | None => None
      | Some q =>
          if Ascii.eqb c "0" then Some (xO q)
          else if Ascii.eqb c "1" then Some (xI q)
          else None
      end
  end.

Definition dumps (v : json) : string := pos_bits (encode (json_tree v)).

Definition loads (t : string) : option json :=
  match bits_pos t with
  | Some p =>
      match decode p with
      | Some tr => if wf_json (tree_json tr) then Some (tree_json tr) else None
      | None => None
      end
  | None => None
  end.

(** A host with the helpers [tools] installed and the answers [answers],
    a file system that refuses nothing, and a fixed stream of draws. *)
Definition env (tools : list string) (answers : list cmd -> cmd -> option string)
  : Env :=
  mkEnv (fun name => existsb (String.eqb name) tools) answers
        (fun _ => false) (fun n => (37 * Z.of_nat n + 171)%Z) dumps loads.

(** A world in which the state file holds [record], when there is one, and
    the operator is going to type [lines]. *)
Definition world (record : option json) (lines : list string) : World :=
  mkWorld true
          (match record with Some v => File (dumps v) | None => NoFile end)
          0 [] lines 0.

(** Every command succeeds and prints nothing. *)
Definition quiet : list cmd -> cmd -> option string := fun _ _ => Some EmptyString.

Definition started (tr : list cmd) : bool :=
  existsb (fun c => match c with AirmonStart _ => true | _ => false end) tr.

(** [iw dev] lists [wlan0]; once [airmon-ng start] has run it lists
    [mon0] as well.  Every command succeeds. *)
Definition renaming : list cmd -> cmd -> option string := fun tr c =>
  match c with
  | IwDev =>
      Some (if started tr then "Interface wlan0 Interface mon0"
            else "Interface wlan0")
  | _ => Some EmptyString
  end.

(** [iw dev] lists [wlan0] before and after [airmon-ng start]: the helper
    keeps the name of the interface. *)
Definition name_kept : list cmd -> cmd -> option string := fun _ c =>
  match c with
  | IwDev => Some "Interface wlan0"
  | _ => Some EmptyString
  end.

(** As [name_kept], but [airmon-ng start] and the commands that set an
    address exit with an error. *)
Definition refusing : list cmd -> cmd -> option string := fun tr c =>
  match c with
  | IwDev => Some "Interface wlan0"
  | AirmonStart _ | IpLinkSetAddress _ _ | Macchanger _ _ => None
  | _ => Some EmptyString
  end.

(** The address most recently set on [iface] by [ip link set dev ...
    address], if any. *)
Fixpoint last_address (iface : string) (tr : list cmd) : option string :=
  match tr with
  | [] => None
  | c :: r =>
      match last_address iface r with
      | Some a => Some a
      | None =>
          match c with
          | IpLinkSetAddress i (JStr a) => if String.eqb i iface then Some a else None
          | _ => None
          end
      end
  end.

(** An interface that is in monitor mode at first, where [ip link show]
    prints a radiotap link line and no [link/ether], and that is back in
    managed mode once an address has been set on it, where [ip link show]
    prints that address. *)
Definition late_reader : list cmd -> cmd -> option string := fun tr c =>
  match c with
  | IpLinkShow iface =>
      match last_address iface tr with
      | Some a => Some (String.append "link/ether " a)
      | None => Some "link/ieee802.11/radiotap 00:11:22:33:44:55"
      end
  | _ => Some EmptyString
  end.

(** [ip link show] shows the factory address [00:11:22:33:44:55] until an
    address has been set, and the address that was set from then on. *)
Definition reader : list cmd -> cmd -> option string := fun tr c =>
  match c with
  | IpLinkShow iface =>
      match last_address iface tr with
      | Some a => Some (String.append "link/ether " a)
      | None => Some "    link/ether 00:11:22:33:44:55 brd ff:ff:ff:ff:ff:ff"
      end
  | _ => Some EmptyString
  end.

(** The record after stealth mode on [wlan0] and one spoof of
    [wlan0mon]. *)
Definition full_record : list (string * json) :=
  [("networkmanager_stopped", JBool true);
   ("monitor_interface", JStr "wlan0mon");
   ("original_interface", JStr "wlan0");
   ("original_macs", JObj [("wlan0mon", JStr "00:11:22:33:44:55")]);
   ("spoofed_macs", JObj [("wlan0mon", JStr "02:aa:bb:cc:dd:ee")])].

(** A host with [airmon-ng] where every command succeeds, and one with no
    helper at all. *)
Definition airmon_env : Env := env ["airmon-ng"] quiet.
Definition bare_env : Env := env [] quiet.

(** Hosts with [airmon-ng] whose helper keeps the interface name, and
    whose mode switch and address change fail. *)
Definition name_kept_env : Env := env ["airmon-ng"] name_kept.
Definition refusing_env : Env := env ["airmon-ng"] refusing.

(** Hosts with no helper whose [ip link show] gives no address at first,
    and gives one from the start. *)
Definition late_reader_env : Env := env [] late_reader.
Definition reader_env : Env := env [] reader.

(** A host with [airmon-ng] that adds a monitor interface, and a host
    without [airmon-ng] that lists [wlan0]. *)
Definition renaming_env : Env := env ["airmon-ng"] renaming.
Definition manual_env : Env := env [] name_kept.

(** The world after that session, with the operator about to type
    [lines]. *)
Definition after_session (lines : list string) : World :=
  world (Some (JObj full_record)) lines.

(** A host whose [iw dev] prints [text]. *)
Definition iw_prints (text : string) : list cmd -> cmd -> option string :=
  fun _ c =>
    match c with
    | IwDev => Some text
    | _ => Some EmptyString
    end.

(** A host whose [iw dev] prints nothing and whose [ip -brief link] prints
    [text]. *)
Definition ip_prints (text : string) : list cmd -> cmd -> option string :=
  fun _ c =>
    match c with
    | IpBriefLink => Some text
    | _ => Some EmptyString
    end.

(** [iw dev] lists [wlan0]; the service manager refuses every command. *)
Definition no_service : list cmd -> cmd -> option string := fun _ c =>
  match c with
  | IwDev => Some "Interface wlan0"
  | SystemctlStop | SystemctlStart => None
  | _ => Some EmptyString
  end.

(** A record that holds a spoofed address and no original one. *)
Definition orphan_record : list (string * json) :=
  [("original_macs", JObj []);
   ("spoofed_macs", JObj [("wlan0", JStr "02:ab:d0:f5:1a:3f")])].

(** A host whose file system refuses every mutation. *)
Definition read_only_env : Env :=
  mkEnv (fun _ => false) quiet (fun _ => true)
        (fun n => (37 * Z.of_nat n + 171)%Z) dumps loads.

(** A line feed. *)
Definition nl : string := String (ascii_of_nat 10) EmptyString.

(** A machine with two of the log files and one other file, on which the
    operator is going to type [lines]. *)
Definition machine (lines : list string) : Machine :=
  mkMachine (world None lines)
            (<["/var/log/syslog" := "boot"]>
               (<["/var/log/wtmp" := "logins"]>
                  (<["/var/log/other" := "kept"]> empty)))
            [].

(** The tool started by root on a host with [journalctl], where
    [/var/log/wtmp] cannot be opened, and started by another user. *)
Definition root_host : Host :=
  mkHost (env ["journalctl"] reader) 0
         (fun p => String.eqb p "/var/log/wtmp").

Definition user_host : Host :=
  mkHost (env ["journalctl"] reader) 1000 (fun _ => false).

End Sample.

(* ===================================================================== *)
(** ** Python dicts *)
(* ===================================================================== *)

Lemma dict_get_set_same k v m : dict_get k (dict_set k v m) = Some v.
Proof.
  induction m as [ | [k' v'] m IH]; cbn.
  - now rewrite String.eqb_refl.
  - destruct (String.eqb k k') eqn:E; cbn; rewrite ?String.eqb_refl, ?E; auto.
Qed.

Lemma dict_get_set_other k k' v m :
  k <> k' -> dict_get k' (dict_set k v m) = dict_get k' m.
Proof.
  intros N. induction m as [ | [k0 v0] m IH]; cbn.
  - destruct (String.eqb k' k) eqn:E; [ | reflexivity ].
    apply String.eqb_eq in E. congruence.
  - destruct (String.eqb k k0) eqn:E; cbn.
    + apply String.eqb_eq in E. subst k0.
      destruct (String.eqb k' k) eqn:E'; [ | reflexivity ].
      apply String.eqb_eq in E'. congruence.
    + now rewrite IH.
Qed.

Lemma dict_set_set k v1 v2 m :
  dict_set k v2 (dict_set k v1 m) = dict_set k v2 m.
Proof.
  induction m as [ | [k' v'] m IH]; cbn.
  - now rewrite String.eqb_refl.
  - destruct (String.eqb k k') eqn:E; cbn.
    + now rewrite String.eqb_refl.
    + now rewrite E, IH.
Qed.

Lemma dict_set_not_empty k v m : dict_set k v m <> [].
Proof.
  destruct m as [ | [k' v'] m]; cbn; [ discriminate | ].
  destruct (String.eqb k k'); discriminate.
Qed.

Lemma dict_set_keys k v m :
  map fst (dict_set k v m)
  = if existsb (String.eqb k) (map fst m) then map fst m else map fst m ++ [k].
Proof.
  induction m as [ | [k' v'] m IH]; cbn; [ reflexivity | ].
  destruct (String.eqb k k') eqn:E; cbn.
  - apply String.eqb_eq in E. now subst.
  - rewrite IH. now destruct (existsb _ _).
Qed.

Lemma existsb_snoc (p : string -> bool) l x :
  existsb p (l ++ [x]) = existsb p l || p x.
Proof. rewrite existsb_app. cbn. now rewrite orb_false_r. Qed.

Lemma distinct_snoc l x :
  distinct l = true -> existsb (String.eqb x) l = false ->
  distinct (l ++ [x]) = true.
Proof.
  induction l as [ | y l IH]; cbn; [ reflexivity | ].
  intros D N.
  apply andb_true_iff in D as [D1 D2].
  apply orb_false_iff in N as [N1 N2].
  rewrite existsb_snoc, (IH D2 N2), andb_true_r.
  apply negb_true_iff in D1. rewrite D1. cbn.
  rewrite String.eqb_sym. now rewrite N1.
Qed.

(** Assigning to a key keeps a dict a Python value. *)
Lemma wf_dict_set k v m :
  wf_json (JObj m) = true -> wf_json v = true ->
  wf_json (JObj (dict_set k v m)) = true.
Proof.
  cbn [wf_json]. intros W V.
  apply andb_true_iff in W as [D A]. apply andb_true_iff. split.
  - rewrite dict_set_keys.
    destruct (existsb _ _) eqn:E; [ exact D | now apply distinct_snoc ].
  - clear D. induction m as [ | [k' v'] m IH]; cbn in *.
    + now rewrite V.
    + apply andb_true_iff in A as [A1 A2].
      destruct (String.eqb k k'); cbn; rewrite ?V, ?A1, ?A2; auto.
Qed.

Lemma wf_field k m : wf_json (JObj m) = true -> wf_json (field k m) = true.
Proof.
  unfold field. cbn [wf_json]. intros W.
  apply andb_true_iff in W as [_ A].
  induction m as [ | [k' v'] m IH]; cbn in *; [ reflexivity | ].
  apply andb_true_iff in A as [A1 A2].
  destruct (String.eqb k k'); auto.
Qed.

Lemma wf_dict_get k m v :
  wf_json (JObj m) = true -> dict_get k m = Some v -> wf_json v = true.
Proof.
  intros W G. pose proof (wf_field k m W) as F.
  unfold field in F. now rewrite G in F.
Qed.

Lemma wf_table k m : wf_json (JObj m) = true -> wf_json (JObj (table k m)) = true.
Proof.
  intros W. unfold table.
  destruct (dict_get k m) as [ [ | | | | | t] | ] eqn:E; try reflexivity.
  exact (wf_dict_get k m _ W E).
Qed.

Lemma existsb_eqb_In a (l : list string) :
  existsb (String.eqb a) l = true <-> In a l.
Proof.
  rewrite existsb_exists. split.
  - intros (x & I & E). apply String.eqb_eq in E. now subst.
  - intros I. exists a. split; [ exact I | apply String.eqb_refl ].
Qed.

(* ===================================================================== *)
(** ** The monad *)
(* ===================================================================== *)

Lemma bind_ok {A B} (c : M A) (k : A -> M B) w a w1 :
  c w = (Ok a, w1) -> bind c k w = k a w1.
Proof. unfold bind. now intros ->. Qed.

Lemma bind_assoc {A B C} (c : M A) (f : A -> M B) (k : B -> M C) w :
  bind (bind c f) k w = bind c (fun x => bind (f x) k) w.
Proof. unfold bind. destruct (c w) as [[a | e] w1]; reflexivity. Qed.

Lemma set_trace_nil w : set_trace (trace w ++ []) w = w.
Proof. unfold set_trace. rewrite app_nil_r. now destruct w. Qed.

Lemma run_eq env c capture w :
  run env c capture w
  = (Ok (host env (trace w) c), set_trace (trace w ++ [c]) w).
Proof. reflexivity. Qed.

Lemma input_eq line rest w :
  stdin w = line :: rest -> input w = (Ok line, set_stdin rest w).
Proof. unfold input. now intros ->. Qed.

(* ===================================================================== *)
(** ** The state store *)
(* ===================================================================== *)

Section Store.

Variable env : Env.

Lemma ensure_state_dir_eq w :
  ensure_state_dir env w
  = (Ok tt,
     set_disk (state_dir w || negb (fs_fault env (fs_clock w))) (state_file w) w).
Proof.
  unfold ensure_state_dir, try_except, mkdir, ret.
  destruct (fs_fault env (fs_clock w)); cbn.
  - now rewrite orb_false_r.
  - now rewrite orb_true_r.
Qed.

Lemma load_state_eq w :
  load_state env w
  = (Ok (stored env (state_file w)),
     set_disk (state_dir w || negb (fs_fault env (fs_clock w))) (state_file w) w).
Proof.
  unfold load_state, bind. rewrite ensure_state_dir_eq.
  unfold exists_, try_except, read_text, bind, ret, raise, stored; cbn.
  destruct (state_file w) as [ | | t]; cbn; try reflexivity.
  destruct (json_loads env t); reflexivity.
Qed.

Lemma save_state_eq state w :
  fs_fault env (fs_clock w) = false ->
  fs_fault env (S (fs_clock w)) = false ->
  save_state env state w
  = (Ok tt,
     mkWorld true (File (json_dumps env state)) (S (S (fs_clock w)))
             (trace w) (stdin w) (rng_pos w)).
Proof.
  intros F1 F2. unfold save_state, bind. rewrite ensure_state_dir_eq.
  unfold try_except, write_text; cbn. rewrite F1, F2, orb_true_r. reflexivity.
Qed.

Lemma clear_state_eq w :
  fs_fault env (fs_clock w) = false ->
  clear_state env w
  = (Ok tt,
     match state_file w with
     | NoFile => w
     | _ => set_disk (state_dir w) NoFile w
     end).
Proof.
  intros F. unfold clear_state, try_except, bind, exists_, unlink, ret.
  destruct (state_file w); cbn; try reflexivity; now rewrite F.
Qed.

(** Whatever the file system answers, the three store operations return
    normally. *)
Lemma save_state_returns state w : fst (save_state env state w) = Ok tt.
Proof.
  unfold save_state, bind. rewrite ensure_state_dir_eq.
  unfold try_except, write_text, ret; cbn.
  destruct (_ || _); reflexivity.
Qed.

Lemma clear_state_returns w : fst (clear_state env w) = Ok tt.
Proof.
  unfold clear_state, try_except, bind, exists_, unlink, ret.
  destruct (state_file w); cbn; try reflexivity;
    destruct (fs_fault env (fs_clock w)); reflexivity.
Qed.

End Store.

Lemma load_state_reliable env w :
  fs_reliable env ->
  load_state env w
  = (Ok (stored env (state_file w)), set_disk true (state_file w) w).
Proof. intros F. rewrite load_state_eq, F. now rewrite orb_true_r. Qed.

Lemma save_state_reliable env state w :
  fs_reliable env ->
  save_state env state w
  = (Ok tt,
     mkWorld true (File (json_dumps env state)) (S (S (fs_clock w)))
             (trace w) (stdin w) (rng_pos w)).
Proof. intros F. apply save_state_eq; apply F. Qed.

Lemma clear_state_reliable env w :
  fs_reliable env ->
  clear_state env w
  = (Ok tt,
     match state_file w with
     | NoFile => w
     | _ => set_disk (state_dir w) NoFile w
     end).
Proof. intros F. apply clear_state_eq, F. Qed.

Lemma stored_not_absent env f kv m :
  stored env f = JObj (kv :: m) -> exists t, f = File t.
Proof. destruct f as [ | | t]; cbn; try discriminate. eauto. Qed.

(** What [load_state] returns, read off the state file. *)
Lemma loaded_stored env w v :
  fst (load_state env w) = Ok v -> stored env (state_file w) = v.
Proof. rewrite load_state_eq. cbn. congruence. Qed.

Lemma persisted_stored env w :
  persisted env w
  = match stored env (state_file w) with JObj m => m | _ => [] end.
Proof. unfold persisted. now rewrite load_state_eq. Qed.

Lemma persisted_of_stored env w m :
  stored env (state_file w) = JObj m -> persisted env w = m.
Proof. intros S. now rewrite persisted_stored, S. Qed.

(** The reference codec is lawful. *)
Lemma sample_tree_json_tree v : Sample.tree_json (Sample.json_tree v) = v.
Proof.
  revert v. fix IH 1. intros [ | b | n | s | l | m]; simpl; try reflexivity.
  - f_equal. induction l as [ | x l IHl]; simpl; [ reflexivity | ].
    now rewrite IH, IHl.
  - f_equal. induction m as [ | [k x] m IHm]; simpl; [ reflexivity | ].
    now rewrite IH, IHm.
Qed.

Lemma sample_bits_pos_bits p : Sample.bits_pos (Sample.pos_bits p) = Some p.
Proof. induction p; simpl; try rewrite IHp; reflexivity. Qed.

Lemma sample_codec_lawful tools answers :
  lawful_codec (Sample.env tools answers).
Proof.
  split; cbn.
  - intros v W. unfold Sample.loads, Sample.dumps.
    now rewrite sample_bits_pos_bits, decode_encode, sample_tree_json_tree, W.
  - intros t v. unfold Sample.loads.
    destruct (Sample.bits_pos t) as [p | ]; [ | discriminate ].
    destruct (decode p) as [tr | ]; [ | discriminate ].
    destruct (wf_json (Sample.tree_json tr)) eqn:E; [ | discriminate ].
    intros [= <-]. exact E.
Qed.

Lemma sample_fs_reliable tools answers : fs_reliable (Sample.env tools answers).
Proof. intros n. reflexivity. Qed.

(** A loaded record is a Python value. *)
Lemma stored_wf env f : lawful_codec env -> wf_json (stored env f) = true.
Proof.
  intros [_ L]. destruct f as [ | | t]; cbn; try reflexivity.
  destruct (json_loads env t) eqn:E; [ exact (L _ _ E) | reflexivity ].
Qed.

(** The record read back after [state] was written. *)
Lemma stored_dumps env state :
  lawful_codec env -> wf_json state = true ->
  stored env (File (json_dumps env state)) = state.
Proof. intros [RT _] W. cbn. now rewrite RT. Qed.

Lemma persisted_file env w m :
  lawful_codec env -> wf_json (JObj m) = true ->
  state_file w = File (json_dumps env (JObj m)) ->
  persisted env w = m.
Proof.
  intros C W E. rewrite persisted_stored, E. now rewrite stored_dumps.
Qed.

(** C8, in the form that holds of the code.  [load_state] never raises:
    whatever is on disk and whatever the file system answers, it returns a
    value and leaves the state file as it was; when the file is absent,
    cannot be read or is not accepted by [json.loads], that value is the
    empty record [{}].  A text that [json.loads] accepts is not examined any
    further: the value is returned as parsed. *)
Theorem load_state_never_raises (env : Env) (w : World) :
  state_file (snd (load_state env w)) = state_file w /\
  match state_file w with
  | NoFile | Undecodable => fst (load_state env w) = Ok (JObj [])
  | File t =>
      fst (load_state env w)
      = Ok (match json_loads env t with Some v => v | None => JObj [] end)
  end.
Proof.
  rewrite load_state_eq. split; [ reflexivity | ].
  destruct (state_file w); reflexivity.
Qed.

(** C8 as the specification states it does not hold: a state file that is
    present and holds the JSON list [[1]], which is not a record, is
    accepted by [json.loads]; [load_state] returns the list, not the empty
    record. *)
Lemma load_state_not_a_record :
  state_file (Sample.world (Some (JArr [JNum 1])) [])
  = File (json_dumps Sample.bare_env (JArr [JNum 1])) /\
  json_loads Sample.bare_env (json_dumps Sample.bare_env (JArr [JNum 1]))
  = Some (JArr [JNum 1]) /\
  fst (load_state Sample.bare_env (Sample.world (Some (JArr [JNum 1])) []))
  = Ok (JArr [JNum 1]) /\
  Ok (JArr [JNum 1]) <> Ok (JObj []).
Proof.
  repeat split; try (vm_compute; reflexivity). discriminate.
Qed.

(** C9.  Save/load round trip: when the [write_text] of [save_state] goes
    through, the [load_state] that follows returns the record that was
    saved. *)
Theorem save_load_roundtrip (env : Env) (state : json) (w : World) :
  lawful_codec env ->
  wf_json state = true ->
  fst (write_text env (json_dumps env state) (snd (ensure_state_dir env w)))
  = Ok tt ->
  fst (load_state env (snd (save_state env state w))) = Ok state.
Proof.
  intros [RT _] WF Hw.
  rewrite load_state_eq. cbn [fst]. f_equal.
  unfold save_state, bind. rewrite ensure_state_dir_eq in *.
  unfold try_except, write_text in *. cbn in *.
  destruct (_ || _); [ discriminate Hw | ].
  cbn. now rewrite RT.
Qed.

Lemma save_load_roundtrip_witness :
  fst (load_state Sample.bare_env
         (snd (save_state Sample.bare_env (JObj Sample.full_record)
                 (Sample.world None []))))
  = Ok (JObj Sample.full_record).
Proof.
  apply save_load_roundtrip.
  - apply sample_codec_lawful.
  - reflexivity.
  - reflexivity.
Defined.

(* ===================================================================== *)
(** ** The inventory and the address generator *)
(* ===================================================================== *)

Lemma detect_wireless_interfaces_eq env w :
  detect_wireless_interfaces env w
  = (enumerate env (trace w),
     set_trace (trace w ++ enumerate_cmds env (trace w)) w).
Proof.
  unfold enumerate, enumerate_cmds, detect_wireless_interfaces, bind, run, ret, lift.
  cbn. destruct (host env (trace w) IwDev) as [text | ]; cbn; [ | reflexivity ].
  destruct (Re.findall_interface text); cbn; [ | reflexivity ].
  destruct (host env (trace w ++ [IwDev]) IpBriefLink); cbn.
  - destruct (wireless_names _); cbn; unfold set_trace; cbn;
      now rewrite <- app_assoc.
  - unfold set_trace; cbn; now rewrite <- app_assoc.
Qed.

Lemma get_current_mac_eq env iface w :
  get_current_mac env iface w
  = (Ok (read_mac env (trace w) iface),
     set_trace (trace w ++ [IpLinkShow iface]) w).
Proof.
  unfold get_current_mac, read_mac, bind, run, ret. cbn.
  now destruct (host env (trace w) (IpLinkShow iface)).
Qed.

Lemma take_mac_chars_length n s g :
  Re.take_mac_chars n s = Some g -> String.length g = n.
Proof.
  revert s g. induction n as [ | n IH]; intros s g; cbn.
  - now intros [= <-].
  - destruct s as [ | c r]; [ discriminate | ].
    destruct (Re.is_mac_char c); [ | discriminate ].
    destruct (Re.take_mac_chars n r) as [g' | ] eqn:E; [ | discriminate ].
    cbn. intros [= <-]. cbn. f_equal. exact (IH _ _ E).
Qed.

(** An address matched by the expression of [get_current_mac] has 17
    characters. *)
Lemma search_ether_length text g :
  Re.search_ether text = Some g -> String.length g = 17.
Proof.
  assert (A : forall s, Re.ether_at s = Some g -> String.length g = 17).
  { intros s. unfold Re.ether_at.
    destruct (PyStr.strip_prefix "link/ether" s) as [r | ]; [ | discriminate ].
    destruct (PyStr.span PyStr.isspace r) as [ws r1].
    destruct ws; [ discriminate | ]. apply take_mac_chars_length. }
  induction text as [ | c r IH]; cbn [Re.search_ether].
  - destruct (Re.ether_at "") eqn:E; [ | discriminate ].
    intros [= <-]. exact (A _ E).
  - destruct (Re.ether_at (String c r)) eqn:E.
    + intros [= <-]. exact (A _ E).
    + exact IH.
Qed.

Lemma read_mac_nonempty env tr iface o :
  read_mac env tr iface = Some o -> String.eqb o EmptyString = false.
Proof.
  unfold read_mac. destruct (host env tr (IpLinkShow iface)); [ | discriminate ].
  intros H. apply search_ether_length in H.
  destruct o; [ discriminate H | reflexivity ].
Qed.

Lemma generate_random_mac_eq env w :
  generate_random_mac env w
  = (Ok (mac_at env (rng_pos w)), set_rng_pos (rng_pos w + 5) w).
Proof.
  unfold generate_random_mac, mac_at, draw, bind, randint, ret, set_rng_pos.
  cbn. repeat f_equal; lia.
Qed.

(** C7.  Whatever the random draws, the address [generate_random_mac]
    returns has 17 characters and starts with an octet whose bit 0
    (multicast) is 0 and whose bit 1 (locally administered) is 1. *)
Theorem generate_random_mac_local_unicast (env : Env) (w : World) :
  exists mac octet,
    fst (generate_random_mac env w) = Ok mac /\
    String.length mac = 17 /\
    first_octet mac = Some octet /\
    Z.testbit octet 0 = false /\
    Z.testbit octet 1 = true.
Proof.
  exists (mac_at env (rng_pos w)), 2%Z.
  rewrite generate_random_mac_eq. repeat split.
Qed.

(* ===================================================================== *)
(** ** Stepping through an operation *)
(* ===================================================================== *)

Ltac msimpl :=
  cbn [py_setitem py_in py_getitem py_get py_setdefault py_items dict_get
       trace stdin rng_pos set_trace set_rng_pos set_stdin negb].

(** Rewrite with what is known of the record and of the host. *)
Ltac known :=
  repeat first
    [ rewrite dict_get_set_same
    | rewrite dict_get_set_other by discriminate
    | match goal with
      | H : dict_get _ _ = _ |- _ => rewrite H
      | H : read_mac _ _ _ = _ |- _ => rewrite H
      | H : which _ _ = _ |- _ => rewrite H
      | H : String.eqb _ _ = _ |- _ => rewrite H
      | H : host _ _ _ = _ |- _ => rewrite H
      | H : enumerate _ _ = _ |- _ => rewrite H
      end ].

(** Execute the first statement of [c ;; k] on a goal [(c ;; k) w = _]. *)
Ltac mstep :=
  lazymatch goal with
  | |- bind (lift _) _ _ = _ => unfold bind at 1, lift at 1
  | |- bind (ret _) _ _ = _ => unfold bind at 1, ret at 1
  | |- bind (run _ _ _) _ _ = _ => unfold bind at 1; rewrite run_eq
  | |- bind (get_current_mac _ _) _ _ = _ =>
      unfold bind at 1; rewrite get_current_mac_eq
  | |- bind (generate_random_mac _) _ _ = _ =>
      unfold bind at 1; rewrite generate_random_mac_eq
  | |- bind (detect_wireless_interfaces _) _ _ = _ =>
      unfold bind at 1; rewrite detect_wireless_interfaces_eq
  | |- bind (save_state _ _) _ _ = _ =>
      unfold bind at 1; rewrite save_state_reliable by assumption
  | |- bind (bind _ _) _ _ = _ => rewrite bind_assoc
  end;
  msimpl; known; msimpl.

(* ===================================================================== *)
(** ** The restore operations *)
(* ===================================================================== *)

Lemma restore_mac_eq env origs iface w :
  restore_mac env (JObj origs) iface w
  = (Ok tt, set_trace (trace w ++ restore_mac_cmds env origs iface) w).
Proof.
  unfold restore_mac, restore_mac_cmds, field, bind, lift, run, ret. cbn.
  destruct (py_truthy _), (which env "macchanger"); cbn;
    unfold set_trace; cbn; rewrite <- ?app_assoc, ?app_nil_r; cbn;
    try reflexivity.
  now destruct w.
Qed.

Lemma restore_loop_eq env origs (items : list (string * json)) w :
  for_each items (fun kv => restore_mac env (JObj origs) (fst kv)) w
  = (Ok tt,
     set_trace
       (trace w ++ flat_map (fun kv => restore_mac_cmds env origs (fst kv)) items)
       w).
Proof.
  revert w. induction items as [ | [k v] items IH]; intros w.
  - cbn. unfold ret, set_trace. rewrite app_nil_r. now destruct w.
  - cbn [for_each flat_map fst]. unfold bind at 1.
    rewrite restore_mac_eq, IH. unfold set_trace; cbn. now rewrite <- app_assoc.
Qed.

Lemma restore_macs_eq env m w :
  tables_ok m = true ->
  restore_macs env (JObj m) w
  = (Ok tt, set_trace (trace w ++ restore_macs_cmds env m) w).
Proof.
  unfold restore_macs, tables_ok, restore_macs_cmds, field, bind, lift, py_get,
    py_items.
  intros T. apply andb_true_iff in T as [T1 T2].
  destruct (dict_get "spoofed_macs" m) as [ [ | | | | | sp] | ];
    try discriminate T1;
    destruct (dict_get "original_macs" m) as [ [ | | | | | og] | ];
    try discriminate T2; cbn.
  - apply restore_loop_eq.
  - apply restore_loop_eq.
  - unfold ret, set_trace. rewrite app_nil_r. now destruct w.
  - unfold ret, set_trace. rewrite app_nil_r. now destruct w.
Qed.

Lemma stop_monitor_eq env mon orig_iface w :
  stop_monitor env mon orig_iface w
  = (Ok tt, set_trace (trace w ++ revert_cmds env mon orig_iface) w).
Proof.
  unfold stop_monitor, revert_cmds, bind, run, ret.
  destruct (which env "airmon-ng"); [ reflexivity | ].
  destruct (py_truthy orig_iface); cbn.
  - unfold set_trace; cbn. now rewrite <- !app_assoc.
  - now rewrite set_trace_nil.
Qed.

Lemma restart_network_manager_eq env m w :
  restart_network_manager env (JObj m) w
  = (Ok tt, set_trace (trace w ++ restart_cmds m) w).
Proof.
  unfold restart_network_manager, restart_cmds, field, bind, lift, py_get, run,
    ret.
  destruct (py_truthy _); cbn; [ reflexivity | now rewrite set_trace_nil ].
Qed.

Lemma restart_cmds_monitor_left v m :
  restart_cmds (dict_set "monitor_left" v m) = restart_cmds m.
Proof.
  unfold restart_cmds, field. now rewrite dict_get_set_other.
Qed.

(** [restore_monitor_only] on a record that is a dict, on a file system
    that refuses nothing. *)
Lemma restore_monitor_only_spec env w m :
  fs_reliable env ->
  stored env (state_file w) = JObj m ->
  let mon := field "monitor_interface" m in
  exists w',
    restore_monitor_only env w = (Ok tt, w') /\
    trace w' = trace w ++
      (if py_truthy mon
       then revert_cmds env mon (field "original_interface" m) ++ restart_cmds m
       else []) /\
    state_file w' = match m with [] => state_file w | _ :: _ => NoFile end.
Proof.
  intros F S mon. subst mon.
  unfold restore_monitor_only.
  rewrite (bind_ok _ _ _ _ _ (load_state_reliable env w F)), S.
  destruct m as [ | kv m'].
  { eexists. split; [ reflexivity | ]. cbn. now rewrite app_nil_r. }
  destruct (stored_not_absent _ _ _ _ S) as [t Ht].
  set (m := kv :: m') in *.
  replace (py_truthy (JObj m)) with true by reflexivity. cbn [negb].
  unfold lift, py_get, bind at 1 2. fold (field "monitor_interface" m).
  fold (field "original_interface" m).
  destruct (py_truthy (field "monitor_interface" m)); cbn [negb].
  - rewrite (bind_ok _ _ _ _ _ (stop_monitor_eq _ _ _ _)).
    rewrite (bind_ok _ _ _ _ _ (restart_network_manager_eq _ _ _)).
    rewrite clear_state_reliable by assumption. cbn. rewrite Ht.
    eexists. split; [ reflexivity | ]. cbn. now rewrite <- app_assoc.
  - rewrite clear_state_reliable by assumption. cbn. rewrite Ht.
    eexists. split; [ reflexivity | ]. cbn. now rewrite app_nil_r.
Qed.

(** [restore_changes] on a record that is a dict with well-shaped tables,
    on a file system that refuses nothing, when the operator answers
    [line]. *)
Lemma restore_changes_spec env w m line rest :
  fs_reliable env ->
  stored env (state_file w) = JObj m ->
  tables_ok m = true ->
  (py_truthy (field "monitor_interface" m) = true -> stdin w = line :: rest) ->
  let mon := field "monitor_interface" m in
  exists w',
    restore_changes env w = (Ok tt, w') /\
    trace w' = trace w ++
      match m with
      | [] => []
      | _ :: _ =>
          restore_macs_cmds env m ++
          (if py_truthy mon && says_yes line
           then revert_cmds env mon (field "original_interface" m) else []) ++
          restart_cmds m
      end /\
    state_file w' =
      match m with
      | [] => state_file w
      | _ :: _ =>
          if py_truthy mon && negb (says_yes line)
          then File (json_dumps env (JObj (dict_set "monitor_left" (JBool true) m)))
          else NoFile
      end.
Proof.
  intros F S T I mon. subst mon.
  unfold restore_changes.
  rewrite (bind_ok _ _ _ _ _ (load_state_reliable env w F)), S.
  destruct m as [ | kv m'].
  { eexists. split; [ reflexivity | ]. cbn. now rewrite app_nil_r. }
  destruct (stored_not_absent _ _ _ _ S) as [t Ht].
  set (m := kv :: m') in *.
  replace (py_truthy (JObj m)) with true by reflexivity. cbn [negb].
  rewrite (bind_ok _ _ _ _ _ (restore_macs_eq env m _ T)).
  unfold lift, py_get, bind at 1 2. fold (field "monitor_interface" m).
  fold (field "original_interface" m).
  destruct (py_truthy (field "monitor_interface" m)); cbn [andb negb].
  - specialize (I eq_refl).
    unfold bind at 1 2. rewrite (input_eq line rest) by exact I.
    destruct (says_yes line); cbn [negb].
    + unfold bind at 1. rewrite stop_monitor_eq. unfold ret at 1.
      rewrite (bind_ok _ _ _ _ _ (restart_network_manager_eq _ _ _)).
      rewrite clear_state_reliable by assumption. cbn. rewrite Ht.
      eexists. split; [ reflexivity | ]. cbn. now rewrite <- !app_assoc.
    + unfold py_setitem, bind at 1 2. rewrite save_state_reliable by assumption.
      unfold ret at 1.
      rewrite (bind_ok _ _ _ _ _ (restart_network_manager_eq _ _ _)).
      rewrite restart_cmds_monitor_left.
      eexists. split; [ reflexivity | ]. cbn. now rewrite <- !app_assoc.
  - unfold bind at 1, ret at 1.
    rewrite (bind_ok _ _ _ _ _ (restart_network_manager_eq _ _ _)).
    rewrite clear_state_reliable by assumption. cbn. rewrite Ht.
    eexists. split; [ reflexivity | ]. cbn. now rewrite <- !app_assoc.
Qed.

Lemma restore_mac_cmds_kind env origs iface :
  forallb (fun c => negb (is_monitor_restore c)) (restore_mac_cmds env origs iface)
  = true.
Proof.
  unfold restore_mac_cmds.
  destruct (py_truthy _), (which env "macchanger"); reflexivity.
Qed.

Lemma restore_loop_cmds_kind env origs (items : list (string * json)) :
  forallb (fun c => negb (is_monitor_restore c))
          (flat_map (fun kv => restore_mac_cmds env origs (fst kv)) items)
  = true.
Proof.
  induction items as [ | kv items IH]; cbn; [ reflexivity | ].
  now rewrite forallb_app, restore_mac_cmds_kind, IH.
Qed.

Lemma restore_macs_cmds_kind env m :
  forallb (fun c => negb (is_monitor_restore c)) (restore_macs_cmds env m) = true.
Proof.
  unfold restore_macs_cmds.
  destruct (field "spoofed_macs" m); try reflexivity.
  destruct (field "original_macs" m); apply restore_loop_cmds_kind.
Qed.

Lemma restart_cmds_kind m :
  forallb (fun c => negb (is_monitor_restore c)) (restart_cmds m) = true.
Proof. unfold restart_cmds. now destruct (py_truthy _). Qed.

Lemma tables_ok_monitor_left v m :
  tables_ok (dict_set "monitor_left" v m) = tables_ok m.
Proof.
  unfold tables_ok. now rewrite !dict_get_set_other by discriminate.
Qed.

(** C3.  [restore_monitor_only] ends with the record cleared from every
    starting record, the empty one included: on a file system that refuses
    nothing it returns normally and the [load_state] that follows returns
    [{}].  A record that is not empty is removed from the disk; on an empty
    one the operation returns at once.  When no monitor interface is
    recorded it issues no command; otherwise it issues the commands that
    revert monitor mode, then the restart of NetworkManager if the record
    asks for it. *)
Theorem restore_monitor_only_clears (env : Env) (w : World)
    (m : list (string * json)) :
  fs_reliable env ->
  fst (load_state env w) = Ok (JObj m) ->
  let mon := field "monitor_interface" m in
  let w' := snd (restore_monitor_only env w) in
  fst (restore_monitor_only env w) = Ok tt /\
  fst (load_state env w') = Ok (JObj []) /\
  state_file w' = match m with [] => state_file w | _ :: _ => NoFile end /\
  trace w' = trace w ++
    (if py_truthy mon
     then revert_cmds env mon (field "original_interface" m) ++ restart_cmds m
     else []).
Proof.
  intros F L mon w'. subst mon w'. apply loaded_stored in L.
  destruct (restore_monitor_only_spec env w m F L) as (w' & E & Ht & Hf).
  rewrite E. cbn [fst snd]. repeat split; [ | exact Hf | exact Ht ].
  rewrite load_state_eq. cbn [fst]. rewrite Hf.
  destruct m; [ now rewrite L | reflexivity ].
Qed.

Lemma restore_monitor_only_clears_witness :
  fst (load_state Sample.airmon_env (Sample.after_session []))
  = Ok (JObj Sample.full_record) /\
  fst (restore_monitor_only Sample.airmon_env (Sample.after_session [])) = Ok tt /\
  fst (load_state Sample.airmon_env
         (snd (restore_monitor_only Sample.airmon_env (Sample.after_session []))))
  = Ok (JObj []) /\
  state_file (snd (restore_monitor_only Sample.airmon_env (Sample.after_session [])))
  = NoFile /\
  trace (snd (restore_monitor_only Sample.airmon_env (Sample.after_session [])))
  = [AirmonStop (JStr "wlan0mon"); SystemctlStart].
Proof.
  split; [ vm_compute; reflexivity | ].
  apply (restore_monitor_only_clears Sample.airmon_env (Sample.after_session [])
           Sample.full_record).
  - apply sample_fs_reliable.
  - vm_compute; reflexivity.
Defined.

(** C1.  [restore_changes] clears the persisted record exactly when the
    branch that stops monitor mode was taken or no monitor interface was
    recorded: on a file system that refuses nothing, for a record whose
    address tables are dicts and an operator who answers [line] when asked
    (the question is put only when a monitor interface is recorded), it
    returns normally, and the [load_state] that follows returns [{}] if and
    only if the recorded monitor interface is falsy or the answer is yes.
    In that case a record that is not empty is removed from the disk; in
    the remaining case the record is written back. *)
Theorem restore_changes_clears_iff (env : Env) (w : World)
    (m : list (string * json)) (line : string) (rest : list string) :
  lawful_codec env ->
  fs_reliable env ->
  fst (load_state env w) = Ok (JObj m) ->
  tables_ok m = true ->
  (py_truthy (field "monitor_interface" m) = true -> stdin w = line :: rest) ->
  let mon := field "monitor_interface" m in
  let w' := snd (restore_changes env w) in
  fst (restore_changes env w) = Ok tt /\
  (fst (load_state env w') = Ok (JObj []) <->
   py_truthy mon = false \/ (py_truthy mon = true /\ says_yes line = true)) /\
  state_file w'
  = match m with
    | [] => state_file w
    | _ :: _ =>
        if py_truthy mon && negb (says_yes line)
        then File (json_dumps env (JObj (dict_set "monitor_left" (JBool true) m)))
        else NoFile
    end.
Proof.
  intros C F L T I mon w'. subst mon w'. apply loaded_stored in L.
  assert (W : wf_json (JObj m) = true) by (rewrite <- L; now apply stored_wf).
  destruct (restore_changes_spec env w m line rest F L T I) as (w' & E & _ & Hf).
  rewrite E. cbn [fst snd]. split; [ reflexivity | ]. split; [ | exact Hf ].
  rewrite load_state_eq. cbn [fst]. rewrite Hf.
  destruct m as [ | kv m'].
  - rewrite L. cbn. intuition.
  - destruct (py_truthy (field "monitor_interface" (kv :: m'))),
             (says_yes line); cbn [andb negb].
    + cbn. intuition.
    + rewrite stored_dumps by (auto using wf_dict_set).
      split.
      * intros H. exfalso.
        apply (dict_set_not_empty "monitor_left" (JBool true) (kv :: m')).
        congruence.
      * intros [H | [_ H]]; discriminate H.
    + cbn. intuition.
    + cbn. intuition.
Qed.

Lemma restore_changes_clears_iff_witness :
  fst (restore_changes Sample.airmon_env (Sample.after_session ["yes"])) = Ok tt /\
  (fst (load_state Sample.airmon_env
          (snd (restore_changes Sample.airmon_env (Sample.after_session ["yes"]))))
   = Ok (JObj []) <->
   py_truthy (JStr "wlan0mon") = false \/
   (py_truthy (JStr "wlan0mon") = true /\ says_yes "yes" = true)) /\
  state_file (snd (restore_changes Sample.airmon_env (Sample.after_session ["yes"])))
  = NoFile.
Proof.
  apply (restore_changes_clears_iff Sample.airmon_env
           (Sample.after_session ["yes"]) Sample.full_record "yes" []).
  - apply sample_codec_lawful.
  - apply sample_fs_reliable.
  - vm_compute; reflexivity.
  - reflexivity.
  - intros _. reflexivity.
Defined.

(** C5, in the form that holds of the code. When [restore_changes] finds a
    monitor interface recorded and the operator does not answer yes, it
    returns normally, issues none of the commands that revert monitor mode,
    does not clear the record, and the record persisted is the starting
    record with [monitor_left] set to [True]: every other field, the two
    address tables included, is as it was. *)
Theorem restore_changes_keep_monitor (env : Env) (w : World)
    (m : list (string * json)) (line : string) (rest : list string) :
  lawful_codec env ->
  fs_reliable env ->
  fst (load_state env w) = Ok (JObj m) ->
  tables_ok m = true ->
  stdin w = line :: rest ->
  py_truthy (field "monitor_interface" m) = true ->
  says_yes line = false ->
  let w' := snd (restore_changes env w) in
  let m' := dict_set "monitor_left" (JBool true) m in
  fst (restore_changes env w) = Ok tt /\
  fst (load_state env w') = Ok (JObj m') /\
  dict_get "monitor_left" m' = Some (JBool true) /\
  (forall k, k <> "monitor_left" -> dict_get k m' = dict_get k m) /\
  exists issued,
    trace w' = trace w ++ issued /\
    forallb (fun c => negb (is_monitor_restore c)) issued = true.
Proof.
  intros C F L T I Hm Hy w' m'. subst w' m'. apply loaded_stored in L.
  assert (W : wf_json (JObj m) = true) by (rewrite <- L; now apply stored_wf).
  destruct (restore_changes_spec env w m line rest F L T (fun _ => I))
    as (w' & E & Ht & Hf).
  rewrite E. cbn [fst snd].
  assert (N : exists kv m0, m = kv :: m0).
  { destruct m as [ | kv m0]; [ discriminate Hm | eauto ]. }
  destruct N as (kv & m0 & ->).
  rewrite Hm, Hy in Ht, Hf. cbn [andb negb] in Ht, Hf.
  split; [ reflexivity | ]. split.
  { rewrite load_state_eq. cbn [fst]. rewrite Hf.
    now rewrite stored_dumps by (auto using wf_dict_set). }
  split; [ apply dict_get_set_same | ].
  split; [ intros k N; apply dict_get_set_other; congruence | ].
  eexists. split; [ exact Ht | ].
  cbn [app]. now rewrite forallb_app, restore_macs_cmds_kind, restart_cmds_kind.
Qed.

Lemma restore_changes_keep_monitor_witness :
  fst (restore_changes Sample.airmon_env (Sample.after_session ["n"])) = Ok tt /\
  fst (load_state Sample.airmon_env
         (snd (restore_changes Sample.airmon_env (Sample.after_session ["n"]))))
  = Ok (JObj (dict_set "monitor_left" (JBool true) Sample.full_record)).
Proof.
  destruct (restore_changes_keep_monitor Sample.airmon_env
              (Sample.after_session ["n"]) Sample.full_record "n" []
              (sample_codec_lawful _ _) (sample_fs_reliable _ _)
              ltac:(vm_compute; reflexivity) eq_refl eq_refl eq_refl eq_refl)
    as (H1 & H2 & _).
  split; assumption.
Defined.

(** C5 as the specification states it does not hold: after a restore that
    keeps monitor mode the persisted record still holds the two address
    tables and the flag of the stopped service, not only the monitor-mode
    fields. *)
Lemma restore_changes_keep_retains_mac_tables :
  exists m',
    fst (load_state Sample.airmon_env
           (snd (restore_changes Sample.airmon_env (Sample.after_session ["n"]))))
    = Ok (JObj m') /\
    field "monitor_interface" m' = JStr "wlan0mon" /\
    field "monitor_left" m' = JBool true /\
    entry "spoofed_macs" "wlan0mon" m' = Some (JStr "02:aa:bb:cc:dd:ee") /\
    entry "original_macs" "wlan0mon" m' = Some (JStr "00:11:22:33:44:55") /\
    field "networkmanager_stopped" m' = JBool true.
Proof.
  eexists. split; [ vm_compute; reflexivity | ].
  repeat split.
Qed.

(* ===================================================================== *)
(** ** Stealth mode *)
(* ===================================================================== *)

(** [stealth_mode_on] with [airmon-ng]: [before] and [after] are the two
    enumerations. *)
Lemma stealth_mode_on_airmon env m iface w before after :
  fs_reliable env ->
  which env "airmon-ng" = true ->
  enumerate env (trace w) = Ok before ->
  let tr1 := trace w ++ enumerate_cmds env (trace w) in
  let tr2 := tr1 ++ stealth_cmds_airmon iface in
  enumerate env tr2 = Ok after ->
  exists w',
    stealth_mode_on env (JObj m) iface w = (Ok tt, w') /\
    state_file w'
    = File (json_dumps env
              (JObj (stealth_record (succeeded (host env tr1 SystemctlStop))
                       (monitor_name (first_new before after) iface) iface m))) /\
    trace w' = tr2 ++ enumerate_cmds env tr2.
Proof.
  intros F A B tr1 tr2 Af.
  assert (Tr : (((tr1 ++ [SystemctlStop]) ++ [AirmonCheckKill])
                  ++ [IpLinkSetDown iface]) ++ [AirmonStart iface] = tr2).
  { unfold tr2, stealth_cmds_airmon. now rewrite <- !app_assoc. }
  unfold stealth_mode_on.
  destruct (host env tr1 SystemctlStop) as [out | ] eqn:Es; cbn [succeeded];
    (eexists; split;
     [ mstep; mstep; fold tr1; rewrite Es; repeat mstep;
       rewrite Tr, Af; repeat mstep;
       rewrite save_state_reliable by assumption; reflexivity
     | cbn [state_file trace]; split; reflexivity ]).
Qed.

(** [stealth_mode_on] without [airmon-ng]. *)
Lemma stealth_mode_on_manual env m iface w before :
  fs_reliable env ->
  which env "airmon-ng" = false ->
  enumerate env (trace w) = Ok before ->
  let tr1 := trace w ++ enumerate_cmds env (trace w) in
  exists w',
    stealth_mode_on env (JObj m) iface w = (Ok tt, w') /\
    state_file w'
    = File (json_dumps env
              (JObj (stealth_record (succeeded (host env tr1 SystemctlStop))
                       iface iface m))) /\
    trace w' = tr1 ++ stealth_cmds_manual iface.
Proof.
  intros F A B tr1.
  unfold stealth_mode_on.
  destruct (host env tr1 SystemctlStop) as [out | ] eqn:Es; cbn [succeeded];
    (eexists; split;
     [ mstep; mstep; fold tr1; rewrite Es; repeat mstep;
       rewrite save_state_reliable by assumption; reflexivity
     | cbn [state_file trace]; split; [ reflexivity | ];
       unfold stealth_cmds_manual; now rewrite <- !app_assoc ]).
Qed.

(** [first_new] finds an element of [after_ifaces] that is not in
    [before_ifaces], and finds none only when there is none. *)
Lemma first_new_some before_ifaces after_ifaces a :
  first_new before_ifaces after_ifaces = Some a ->
  In a after_ifaces /\ ~ In a before_ifaces.
Proof.
  unfold first_new. intros H. apply find_some in H as [I N]. split; [ exact I | ].
  intros B. apply existsb_eqb_In in B. now rewrite B in N.
Qed.

Lemma first_new_none before_ifaces after_ifaces :
  (forall a, In a after_ifaces -> In a before_ifaces) ->
  first_new before_ifaces after_ifaces = None.
Proof.
  intros H. unfold first_new.
  destruct (find _ after_ifaces) as [a | ] eqn:E; [ | reflexivity ].
  apply find_some in E as [I N]. apply H, existsb_eqb_In in I.
  now rewrite I in N.
Qed.

Lemma wf_stealth_record stopped mon iface m :
  wf_json (JObj m) = true ->
  wf_json (JObj (stealth_record stopped mon iface m)) = true.
Proof.
  intros W. unfold stealth_record.
  repeat apply wf_dict_set; try reflexivity.
  destruct stopped; [ now apply wf_dict_set | exact W ].
Qed.

Lemma stealth_record_monitor stopped mon iface m :
  field "monitor_interface" (stealth_record stopped mon iface m) = JStr mon.
Proof.
  unfold field, stealth_record.
  rewrite dict_get_set_other by discriminate. now rewrite dict_get_set_same.
Qed.

Lemma stealth_record_original stopped mon iface m :
  field "original_interface" (stealth_record stopped mon iface m) = JStr iface.
Proof. unfold field, stealth_record. now rewrite dict_get_set_same. Qed.

Lemma stealth_record_stopped stopped mon iface m :
  dict_get "networkmanager_stopped" (stealth_record stopped mon iface m)
  = if stopped then Some (JBool true) else dict_get "networkmanager_stopped" m.
Proof.
  unfold stealth_record.
  rewrite !dict_get_set_other by discriminate.
  destruct stopped; [ apply dict_get_set_same | reflexivity ].
Qed.

(** The records the tool writes have the shape [tables_ok]: the empty
    record has it, and each operation that saves keeps it. *)
Lemma tables_ok_stealth_record stopped mon iface m :
  tables_ok (stealth_record stopped mon iface m) = tables_ok m.
Proof.
  unfold tables_ok, stealth_record.
  rewrite !dict_get_set_other by discriminate.
  destruct stopped; [ | reflexivity ].
  now rewrite !dict_get_set_other by discriminate.
Qed.

(** C4, in the form that holds of the code. With [airmon-ng], [stealth_mode]
    enumerates the interfaces again after the mode switch and records the
    first one that was not there before; when there is none (the helper kept
    the name) it records the name of the target interface followed by [mon].
    Without [airmon-ng] it does not enumerate again and records the target
    interface itself. *)
Theorem stealth_mode_monitor_name (env : Env) (m : list (string * json))
    (iface : string) (w : World) (before : list string) :
  lawful_codec env ->
  fs_reliable env ->
  wf_json (JObj m) = true ->
  enumerate env (trace w) = Ok before ->
  let tr1 := trace w ++ enumerate_cmds env (trace w) in
  let tr2 := tr1 ++ stealth_cmds_airmon iface in
  let w' := snd (stealth_mode_on env (JObj m) iface w) in
  (which env "airmon-ng" = true ->
   forall after, enumerate env tr2 = Ok after ->
     fst (stealth_mode_on env (JObj m) iface w) = Ok tt /\
     field "monitor_interface" (persisted env w')
     = JStr (monitor_name (first_new before after) iface) /\
     (forall a, first_new before after = Some a ->
                In a after /\ ~ In a before) /\
     ((forall a, In a after -> In a before) ->
      field "monitor_interface" (persisted env w')
      = JStr (String.append iface "mon")) /\
     field "original_interface" (persisted env w') = JStr iface) /\
  (which env "airmon-ng" = false ->
     fst (stealth_mode_on env (JObj m) iface w) = Ok tt /\
     field "monitor_interface" (persisted env w') = JStr iface /\
     field "original_interface" (persisted env w') = JStr iface /\
     trace w' = tr1 ++ stealth_cmds_manual iface).
Proof.
  intros C F W B tr1 tr2 w'. subst w'. split.
  - intros A after Af.
    destruct (stealth_mode_on_airmon env m iface w before after F A B Af)
      as (w' & E & Hf & _).
    rewrite E. cbn [fst snd].
    rewrite (persisted_file env w' _ C (wf_stealth_record _ _ _ _ W) Hf).
    rewrite stealth_record_monitor, stealth_record_original.
    repeat split; try apply (first_new_some _ _ _ H).
    intros N. now rewrite (first_new_none _ _ N).
  - intros A.
    destruct (stealth_mode_on_manual env m iface w before F A B)
      as (w' & E & Hf & Ht).
    rewrite E. cbn [fst snd].
    rewrite (persisted_file env w' _ C (wf_stealth_record _ _ _ _ W) Hf).
    rewrite stealth_record_monitor, stealth_record_original.
    repeat split. exact Ht.
Qed.

Lemma stealth_mode_monitor_name_witness :
  fst (stealth_mode_on Sample.renaming_env (JObj []) "wlan0" (Sample.world None []))
  = Ok tt /\
  field "monitor_interface"
    (persisted Sample.renaming_env
       (snd (stealth_mode_on Sample.renaming_env (JObj []) "wlan0"
               (Sample.world None []))))
  = JStr "mon0".
Proof.
  destruct (stealth_mode_monitor_name Sample.renaming_env [] "wlan0"
              (Sample.world None []) ["wlan0"]
              (sample_codec_lawful _ _) (sample_fs_reliable _ _) eq_refl eq_refl)
    as [H _].
  destruct (H eq_refl ["wlan0"; "mon0"] eq_refl) as (H1 & H2 & _).
  split; [ exact H1 | exact H2 ].
Defined.

(** C4 as the specification states it does not hold: with [airmon-ng]
    installed and a helper that keeps the name of the interface, the two
    enumerations are equal, and the monitor interface recorded is
    [wlan0mon], not the target interface [wlan0]. *)
Lemma stealth_mode_kept_name_records_suffix :
  enumerate Sample.name_kept_env [] = Ok ["wlan0"] /\
  enumerate Sample.name_kept_env
    (trace (snd (stealth_mode Sample.name_kept_env
                   (Sample.world None ["YES"; "1"]))))
  = Ok ["wlan0"] /\
  fst (stealth_mode Sample.name_kept_env (Sample.world None ["YES"; "1"]))
  = Ok tt /\
  persisted Sample.name_kept_env
    (snd (stealth_mode Sample.name_kept_env (Sample.world None ["YES"; "1"])))
  = [("networkmanager_stopped", JBool true);
     ("monitor_interface", JStr "wlan0mon");
     ("original_interface", JStr "wlan0")] /\
  JStr "wlan0mon" <> JStr "wlan0".
Proof.
  repeat split; try (vm_compute; reflexivity). discriminate.
Qed.

(* ===================================================================== *)
(** ** MAC spoofing *)
(* ===================================================================== *)

(** [mac_spoof_on] on a record whose tables are dicts, on a file system
    that refuses nothing. *)
Lemma mac_spoof_on_spec env m iface w :
  fs_reliable env ->
  tables_ok m = true ->
  exists w',
    mac_spoof_on env (JObj m) iface w = (Ok tt, w') /\
    state_file w'
    = File (json_dumps env
              (JObj (spoof_record env (trace w) (rng_pos w) iface m))) /\
    trace w' = trace w ++
      match dict_get iface (table "original_macs" m) with
      | Some _ => []
      | None => [IpLinkShow iface]
      end ++ spoof_cmds env iface (mac_at env (rng_pos w)) /\
    stdin w' = stdin w /\
    rng_pos w' = rng_pos w + 5.
Proof.
  intros F T. unfold tables_ok in T. apply andb_true_iff in T as [Ts To].
  unfold mac_spoof_on, spoof_record, captured, spoof_cmds, table.
  destruct (dict_get "original_macs" m) as [ [ | | | | | og] | ] eqn:Eo;
    try discriminate To;
    destruct (dict_get "spoofed_macs" m) as [ [ | | | | | sp] | ] eqn:Es;
    try discriminate Ts;
    destruct (which env "macchanger") eqn:Ew;
    try (destruct (dict_get iface og) as [a | ] eqn:Ei);
    try (cbn [dict_get];
         destruct (read_mac env (trace w) iface) as [o | ] eqn:Er;
         [ destruct (String.eqb o EmptyString) eqn:Ee | ]);
    (eexists; split;
     [ repeat mstep; rewrite save_state_reliable by assumption; reflexivity
     | cbn [state_file trace stdin rng_pos set_trace set_rng_pos];
       rewrite ?dict_set_set, <- ?app_assoc; cbn [app]; repeat split ]).
Qed.

Lemma table_original_spoof_record env tr pos iface m :
  tables_ok m = true ->
  table "original_macs" (spoof_record env tr pos iface m)
  = match captured env tr iface m with
    | Some o => dict_set iface (JStr o) (table "original_macs" m)
    | None => table "original_macs" m
    end.
Proof.
  intros T. unfold tables_ok in T. apply andb_true_iff in T as [_ To].
  unfold spoof_record, table at 1.
  rewrite dict_get_set_other by discriminate.
  destruct (captured env tr iface m); [ now rewrite dict_get_set_same | ].
  unfold table.
  destruct (dict_get "original_macs" m) as [ [ | | | | | og] | ] eqn:Eo;
    try discriminate To.
  - now rewrite Eo.
  - now rewrite dict_get_set_same.
Qed.

Lemma table_spoofed_spoof_record env tr pos iface m :
  table "spoofed_macs" (spoof_record env tr pos iface m)
  = dict_set iface (JStr (mac_at env pos)) (table "spoofed_macs" m).
Proof. unfold spoof_record, table at 1. now rewrite dict_get_set_same. Qed.

Lemma tables_ok_spoof_record env tr pos iface m :
  tables_ok m = true -> tables_ok (spoof_record env tr pos iface m) = true.
Proof.
  intros T. pose proof T as T'.
  unfold tables_ok in T. apply andb_true_iff in T as [_ To].
  unfold tables_ok, spoof_record.
  rewrite dict_get_set_same, dict_get_set_other by discriminate.
  destruct (captured env tr iface m); [ now rewrite dict_get_set_same | ].
  destruct (dict_get "original_macs" m) as [ [ | | | | | og] | ] eqn:Eo;
    try discriminate To.
  - now rewrite Eo.
  - now rewrite dict_get_set_same.
Qed.

Lemma wf_spoof_record env tr pos iface m :
  wf_json (JObj m) = true ->
  wf_json (JObj (spoof_record env tr pos iface m)) = true.
Proof.
  intros W. unfold spoof_record.
  assert (W0 : wf_json (JObj match dict_get "original_macs" m with
                             | Some _ => m
                             | None => dict_set "original_macs" (JObj []) m
                             end) = true).
  { destruct (dict_get "original_macs" m); [ exact W | now apply wf_dict_set ]. }
  apply wf_dict_set.
  - destruct (captured env tr iface m); [ | exact W0 ].
    apply wf_dict_set; [ exact W0 | ].
    apply wf_dict_set; [ now apply wf_table | reflexivity ].
  - apply wf_dict_set; [ now apply wf_table | reflexivity ].
Qed.

(** The whole of [mac_spoof] when the operator types the name of the
    interface. *)
Lemma mac_spoof_spec env w m line rest :
  lawful_codec env ->
  fs_reliable env ->
  stored env (state_file w) = JObj m ->
  tables_ok m = true ->
  stdin w = line :: rest ->
  PyStr.strip line <> EmptyString ->
  let iface := PyStr.strip line in
  let m' := spoof_record env (trace w) (rng_pos w) iface m in
  exists w',
    mac_spoof env w = (Ok tt, w') /\
    stored env (state_file w') = JObj m' /\
    trace w' = trace w ++
      match entry "original_macs" iface m with
      | Some _ => []
      | None => [IpLinkShow iface]
      end ++ spoof_cmds env iface (mac_at env (rng_pos w)) /\
    stdin w' = rest /\
    rng_pos w' = rng_pos w + 5.
Proof.
  intros C F S T I N iface m'. subst m'.
  assert (W : wf_json (JObj m) = true) by (rewrite <- S; now apply stored_wf).
  unfold mac_spoof.
  rewrite (bind_ok _ _ _ _ _ (load_state_reliable env w F)), S.
  rewrite (bind_ok _ _ _ _ _
             (input_eq line rest (set_disk true (state_file w) w) I)).
  fold iface. apply String.eqb_neq in N. fold iface in N. rewrite N.
  destruct (mac_spoof_on_spec env m iface
              (set_stdin rest (set_disk true (state_file w) w)) F T)
    as (w' & E & Hf & Ht & Hi & Hr).
  exists w'. split; [ exact E | ]. cbn in Hf, Ht, Hi, Hr.
  rewrite Hf. split; [ | auto ].
  apply stored_dumps; [ exact C | now apply wf_spoof_record ].
Qed.

(** An original address that is recorded stays as it is. *)
Lemma spoof_record_keeps_original env tr pos iface m i a :
  tables_ok m = true ->
  entry "original_macs" i m = Some a ->
  entry "original_macs" i (spoof_record env tr pos iface m) = Some a.
Proof.
  intros T E. unfold entry in *. rewrite table_original_spoof_record by exact T.
  unfold captured.
  destruct (dict_get iface (table "original_macs" m)) as [x | ] eqn:Ei;
    [ exact E | ].
  destruct (read_mac env tr iface) as [o | ]; [ | exact E ].
  destruct (String.eqb o EmptyString); [ exact E | ].
  rewrite dict_get_set_other; [ exact E | ].
  intros ->. congruence.
Qed.

(** The first spoof of an interface records the address that was read. *)
Lemma spoof_record_captures env tr pos iface m o :
  tables_ok m = true ->
  entry "original_macs" iface m = None ->
  read_mac env tr iface = Some o ->
  entry "original_macs" iface (spoof_record env tr pos iface m) = Some (JStr o).
Proof.
  intros T E R. unfold entry in *. rewrite table_original_spoof_record by exact T.
  unfold captured. rewrite E, R, (read_mac_nonempty _ _ _ _ R).
  apply dict_get_set_same.
Qed.

(** When the read gives nothing, no original address is recorded. *)
Lemma spoof_record_no_original env tr pos iface m :
  tables_ok m = true ->
  entry "original_macs" iface m = None ->
  read_mac env tr iface = None ->
  entry "original_macs" iface (spoof_record env tr pos iface m) = None.
Proof.
  intros T E R. unfold entry in *. rewrite table_original_spoof_record by exact T.
  unfold captured. now rewrite E, R.
Qed.

Lemma spoof_record_spoofed env tr pos iface m :
  entry "spoofed_macs" iface (spoof_record env tr pos iface m)
  = Some (JStr (mac_at env pos)).
Proof.
  unfold entry. rewrite table_spoofed_spoof_record. apply dict_get_set_same.
Qed.

(** One call of [mac_spoof], on whatever interface, keeps a recorded
    original address. *)
Lemma mac_spoof_keeps_original env w m line rest i a :
  lawful_codec env ->
  fs_reliable env ->
  stored env (state_file w) = JObj m ->
  tables_ok m = true ->
  stdin w = line :: rest ->
  PyStr.strip line <> EmptyString ->
  entry "original_macs" i m = Some a ->
  exists w' m',
    mac_spoof env w = (Ok tt, w') /\
    stored env (state_file w') = JObj m' /\
    tables_ok m' = true /\
    entry "original_macs" i m' = Some a /\
    stdin w' = rest.
Proof.
  intros C F S T I N E.
  destruct (mac_spoof_spec env w m line rest C F S T I N)
    as (w' & R & Hs & _ & Hi & _).
  exists w', (spoof_record env (trace w) (rng_pos w) (PyStr.strip line) m).
  repeat split; auto using tables_ok_spoof_record, spoof_record_keeps_original.
Qed.

(** Any number of calls keeps it. *)
Lemma repeat_mac_spoof_keeps_original env i a n :
  lawful_codec env ->
  fs_reliable env ->
  forall w m lines rest,
    stored env (state_file w) = JObj m ->
    tables_ok m = true ->
    stdin w = lines ++ rest ->
    length lines = n ->
    Forall (fun l => PyStr.strip l <> EmptyString) lines ->
    entry "original_macs" i m = Some a ->
    exists w' m',
      repeat_op n (mac_spoof env) w = (Ok tt, w') /\
      stored env (state_file w') = JObj m' /\
      tables_ok m' = true /\
      entry "original_macs" i m' = Some a /\
      stdin w' = rest.
Proof.
  intros C F. induction n as [ | n IH]; intros w m lines rest S T I L N E.
  - destruct lines; [ | discriminate L ]. exists w, m. cbn. auto.
  - destruct lines as [ | line lines]; [ discriminate L | ].
    injection L as L. inversion N as [ | ? ? N1 N2 ]; subst.
    destruct (mac_spoof_keeps_original env w m line (lines ++ rest) i a
                C F S T I N1 E) as (w1 & m1 & R1 & S1 & T1 & E1 & I1).
    destruct (IH w1 m1 lines rest S1 T1 I1 eq_refl N2 E1)
      as (w' & m' & R & S' & T' & E' & I').
    exists w', m'. cbn [repeat_op].
    rewrite (bind_ok _ _ _ _ _ R1). auto.
Qed.

(** C6, in the form that holds of the code. When the first [mac_spoof] of an
    interface reads its address, that address, read before the commands of
    the spoof, is recorded as the original one, and any number of further
    calls, for this or another interface, leave it as it is. (What
    [get_current_mac] returns depends on the world only through the commands
    issued so far, which are the same in [w] and at the point where
    [mac_spoof] calls it.) *)
Theorem spoof_original_captured_once (env : Env) (n : nat) (w : World)
    (m : list (string * json)) (line : string) (lines rest : list string)
    (o : string) :
  lawful_codec env ->
  fs_reliable env ->
  fst (load_state env w) = Ok (JObj m) ->
  tables_ok m = true ->
  stdin w = line :: lines ++ rest ->
  length lines = n ->
  PyStr.strip line <> EmptyString ->
  Forall (fun l => PyStr.strip l <> EmptyString) lines ->
  let iface := PyStr.strip line in
  entry "original_macs" iface m = None ->
  fst (get_current_mac env iface w) = Ok (Some o) ->
  let w1 := snd (mac_spoof env w) in
  let wn := snd (repeat_op n (mac_spoof env) w1) in
  fst (mac_spoof env w) = Ok tt /\
  entry "original_macs" iface (persisted env w1) = Some (JStr o) /\
  fst (repeat_op n (mac_spoof env) w1) = Ok tt /\
  entry "original_macs" iface (persisted env wn) = Some (JStr o).
Proof.
  intros C F L T I Ln N Ns iface E G w1 wn. subst w1 wn.
  apply loaded_stored in L.
  rewrite get_current_mac_eq in G. cbn [fst] in G. injection G as G.
  destruct (mac_spoof_spec env w m line (lines ++ rest) C F L T I N)
    as (w1 & R1 & S1 & _ & I1 & _).
  fold iface in S1.
  rewrite R1. cbn [fst snd].
  pose proof (spoof_record_captures env (trace w) (rng_pos w) iface m o T E G)
    as E1.
  pose proof (tables_ok_spoof_record env (trace w) (rng_pos w) iface m T) as T1.
  destruct (repeat_mac_spoof_keeps_original env iface (JStr o) n C F
              w1 _ lines rest S1 T1 I1 Ln Ns E1)
    as (wn & mn & Rn & Sn & _ & En & _).
  rewrite Rn. cbn [fst snd].
  rewrite (persisted_of_stored _ _ _ S1), (persisted_of_stored _ _ _ Sn).
  auto.
Qed.

Lemma spoof_original_captured_once_witness :
  entry "original_macs" "wlan0"
    (persisted Sample.reader_env
       (snd (mac_spoof Sample.reader_env
               (Sample.world None ["wlan0"; " wlan0 "; "wlan1"]))))
  = Some (JStr "00:11:22:33:44:55") /\
  entry "original_macs" "wlan0"
    (persisted Sample.reader_env
       (snd (repeat_op 2 (mac_spoof Sample.reader_env)
               (snd (mac_spoof Sample.reader_env
                       (Sample.world None ["wlan0"; " wlan0 "; "wlan1"]))))))
  = Some (JStr "00:11:22:33:44:55").
Proof.
  destruct (spoof_original_captured_once Sample.reader_env 2
              (Sample.world None ["wlan0"; " wlan0 "; "wlan1"]) []
              "wlan0" [" wlan0 "; "wlan1"] [] "00:11:22:33:44:55"
              (sample_codec_lawful _ _) (sample_fs_reliable _ _)
              eq_refl eq_refl eq_refl eq_refl
              ltac:(vm_compute; discriminate)
              ltac:(repeat constructor; vm_compute; discriminate)
              eq_refl eq_refl)
    as (_ & H1 & _ & H2).
  split; [ exact H1 | exact H2 ].
Defined.

(** C6 as the specification states it does not hold: when the read of the
    first call gives nothing, no original address is recorded by that call,
    and the second call records one: the address the first call had set. *)
Lemma spoof_late_capture_changes_original :
  entry "original_macs" "wlan0"
    (persisted Sample.late_reader_env
       (snd (mac_spoof Sample.late_reader_env
               (Sample.world None ["wlan0"; "wlan0"]))))
  = None /\
  entry "spoofed_macs" "wlan0"
    (persisted Sample.late_reader_env
       (snd (mac_spoof Sample.late_reader_env
               (Sample.world None ["wlan0"; "wlan0"]))))
  = Some (JStr "02:ab:d0:f5:1a:3f") /\
  entry "original_macs" "wlan0"
    (persisted Sample.late_reader_env
       (snd (repeat_op 2 (mac_spoof Sample.late_reader_env)
               (Sample.world None ["wlan0"; "wlan0"]))))
  = Some (JStr "02:ab:d0:f5:1a:3f").
Proof. repeat split; vm_compute; reflexivity. Qed.

(** C10.  When [get_current_mac] returns nothing for an interface with no
    recorded original address, [mac_spoof] still returns normally: it
    generates an address, issues the commands that set it, and persists it
    under [spoofed_macs], while [original_macs] has no entry for the
    interface.  (What [get_current_mac] returns depends on the world only
    through the commands issued so far, which are the same in [w] and at
    the point where [mac_spoof] calls it.) *)
Theorem spoof_without_original (env : Env) (w : World)
    (m : list (string * json)) (line : string) (rest : list string) :
  lawful_codec env ->
  fs_reliable env ->
  fst (load_state env w) = Ok (JObj m) ->
  tables_ok m = true ->
  stdin w = line :: rest ->
  PyStr.strip line <> EmptyString ->
  let iface := PyStr.strip line in
  entry "original_macs" iface m = None ->
  fst (get_current_mac env iface w) = Ok None ->
  let w' := snd (mac_spoof env w) in
  let new_mac := mac_at env (rng_pos w) in
  fst (mac_spoof env w) = Ok tt /\
  trace w' = trace w ++ [IpLinkShow iface] ++ spoof_cmds env iface new_mac /\
  entry "spoofed_macs" iface (persisted env w') = Some (JStr new_mac) /\
  entry "original_macs" iface (persisted env w') = None.
Proof.
  intros C F L T I N iface E G w' new_mac. subst w' new_mac.
  apply loaded_stored in L.
  rewrite get_current_mac_eq in G. cbn [fst] in G. injection G as G.
  destruct (mac_spoof_spec env w m line rest C F L T I N)
    as (w' & R & S & Ht & _).
  fold iface in S, Ht. rewrite E in Ht.
  rewrite R. cbn [fst snd].
  rewrite (persisted_of_stored _ _ _ S).
  repeat split.
  - exact Ht.
  - apply spoof_record_spoofed.
  - now apply spoof_record_no_original.
Qed.

Lemma spoof_without_original_witness :
  fst (mac_spoof Sample.late_reader_env (Sample.world None ["wlan0"])) = Ok tt /\
  trace (snd (mac_spoof Sample.late_reader_env (Sample.world None ["wlan0"])))
  = [IpLinkShow "wlan0"; IpLinkSetDown "wlan0";
     IpLinkSetAddress "wlan0" (JStr "02:ab:d0:f5:1a:3f"); IpLinkSetUp "wlan0"] /\
  entry "spoofed_macs" "wlan0"
    (persisted Sample.late_reader_env
       (snd (mac_spoof Sample.late_reader_env (Sample.world None ["wlan0"]))))
  = Some (JStr "02:ab:d0:f5:1a:3f") /\
  entry "original_macs" "wlan0"
    (persisted Sample.late_reader_env
       (snd (mac_spoof Sample.late_reader_env (Sample.world None ["wlan0"]))))
  = None.
Proof.
  exact (spoof_without_original Sample.late_reader_env
           (Sample.world None ["wlan0"]) [] "wlan0" []
           (sample_codec_lawful _ _) (sample_fs_reliable _ _)
           eq_refl eq_refl eq_refl ltac:(vm_compute; discriminate)
           eq_refl eq_refl).
Defined.

(* ===================================================================== *)
(** ** Failing commands *)
(* ===================================================================== *)

(** C2, in the form that holds of the code. A command that fails aborts
    neither [stealth_mode] nor [mac_spoof]: whatever the commands answer,
    both return normally. Only the flag of the stopped service depends on
    the answer of its command: [networkmanager_stopped] is set when
    [systemctl stop] succeeded and left as it was otherwise. The two
    interface names and the spoofed address are persisted whatever the mode
    switch and the address change answered. *)
Theorem failing_commands_do_not_gate_record (env : Env)
    (m : list (string * json)) (iface : string) (w : World)
    (before after : list string) :
  lawful_codec env ->
  fs_reliable env ->
  wf_json (JObj m) = true ->
  tables_ok m = true ->
  enumerate env (trace w) = Ok before ->
  let tr1 := trace w ++ enumerate_cmds env (trace w) in
  enumerate env (tr1 ++ stealth_cmds_airmon iface) = Ok after ->
  let ws := snd (stealth_mode_on env (JObj m) iface w) in
  let wm := snd (mac_spoof_on env (JObj m) iface w) in
  (fst (stealth_mode_on env (JObj m) iface w) = Ok tt /\
   field "monitor_interface" (persisted env ws)
   = JStr (if which env "airmon-ng"
           then monitor_name (first_new before after) iface else iface) /\
   field "original_interface" (persisted env ws) = JStr iface /\
   dict_get "networkmanager_stopped" (persisted env ws)
   = if succeeded (host env tr1 SystemctlStop) then Some (JBool true)
     else dict_get "networkmanager_stopped" m) /\
  (fst (mac_spoof_on env (JObj m) iface w) = Ok tt /\
   entry "spoofed_macs" iface (persisted env wm)
   = Some (JStr (mac_at env (rng_pos w)))).
Proof.
  intros C F W T B tr1 Af ws wm. subst ws wm. split.
  - destruct (which env "airmon-ng") eqn:A.
    + destruct (stealth_mode_on_airmon env m iface w before after F A B Af)
        as (w' & E & Hf & _).
      rewrite E. cbn [fst snd].
      rewrite (persisted_file env w' _ C (wf_stealth_record _ _ _ _ W) Hf).
      now rewrite stealth_record_monitor, stealth_record_original,
        stealth_record_stopped.
    + destruct (stealth_mode_on_manual env m iface w before F A B)
        as (w' & E & Hf & _).
      rewrite E. cbn [fst snd].
      rewrite (persisted_file env w' _ C (wf_stealth_record _ _ _ _ W) Hf).
      now rewrite stealth_record_monitor, stealth_record_original,
        stealth_record_stopped.
  - destruct (mac_spoof_on_spec env m iface w F T) as (w' & E & Hf & _).
    rewrite E. cbn [fst snd].
    rewrite (persisted_file env w' _ C (wf_spoof_record _ _ _ _ _ W) Hf).
    split; [ reflexivity | apply spoof_record_spoofed ].
Qed.

Lemma failing_commands_do_not_gate_record_witness :
  (fst (stealth_mode_on Sample.refusing_env (JObj []) "wlan0"
          (Sample.world None [])) = Ok tt /\
   field "monitor_interface"
     (persisted Sample.refusing_env
        (snd (stealth_mode_on Sample.refusing_env (JObj []) "wlan0"
                (Sample.world None []))))
   = JStr "wlan0mon" /\
   field "original_interface"
     (persisted Sample.refusing_env
        (snd (stealth_mode_on Sample.refusing_env (JObj []) "wlan0"
                (Sample.world None []))))
   = JStr "wlan0" /\
   dict_get "networkmanager_stopped"
     (persisted Sample.refusing_env
        (snd (stealth_mode_on Sample.refusing_env (JObj []) "wlan0"
                (Sample.world None []))))
   = Some (JBool true)) /\
  (fst (mac_spoof_on Sample.refusing_env (JObj []) "wlan0"
          (Sample.world None [])) = Ok tt /\
   entry "spoofed_macs" "wlan0"
     (persisted Sample.refusing_env
        (snd (mac_spoof_on Sample.refusing_env (JObj []) "wlan0"
                (Sample.world None []))))
   = Some (JStr "02:ab:d0:f5:1a:3f")).
Proof.
  exact (failing_commands_do_not_gate_record Sample.refusing_env [] "wlan0"
           (Sample.world None []) ["wlan0"] ["wlan0"]
           (sample_codec_lawful _ _) (sample_fs_reliable _ _)
           eq_refl eq_refl eq_refl eq_refl).
Defined.

(** C2 as the specification states it does not hold: on a host where
    [airmon-ng start] and the change of address exit with an error,
    [stealth_mode] issues the mode switch and persists [monitor_interface]
    all the same, and [mac_spoof] issues the change of address and persists
    the address under [spoofed_macs] all the same. *)
Lemma failed_actions_are_persisted :
  trace (snd (stealth_mode Sample.refusing_env (Sample.world None ["YES"; "1"])))
  = [IwDev; IwDev; SystemctlStop; AirmonCheckKill; IpLinkSetDown "wlan0";
     AirmonStart "wlan0"; IwDev] /\
  host Sample.refusing_env
    [IwDev; IwDev; SystemctlStop; AirmonCheckKill; IpLinkSetDown "wlan0"]
    (AirmonStart "wlan0")
  = None /\
  field "monitor_interface"
    (persisted Sample.refusing_env
       (snd (stealth_mode Sample.refusing_env (Sample.world None ["YES"; "1"]))))
  = JStr "wlan0mon" /\
  trace (snd (mac_spoof Sample.refusing_env (Sample.world None ["wlan0"])))
  = [IpLinkShow "wlan0"; IpLinkSetDown "wlan0";
     IpLinkSetAddress "wlan0" (JStr "02:ab:d0:f5:1a:3f"); IpLinkSetUp "wlan0"] /\
  host Sample.refusing_env [IpLinkShow "wlan0"; IpLinkSetDown "wlan0"]
    (IpLinkSetAddress "wlan0" (JStr "02:ab:d0:f5:1a:3f"))
  = None /\
  entry "spoofed_macs" "wlan0"
    (persisted Sample.refusing_env
       (snd (mac_spoof Sample.refusing_env (Sample.world None ["wlan0"]))))
  = Some (JStr "02:ab:d0:f5:1a:3f").
Proof. repeat split; vm_compute; reflexivity. Qed.

(* ===================================================================== *)
(** ** The operations as the menu calls them *)
(* ===================================================================== *)

(** [stealth_mode] is [stealth_mode_on] for the record on disk and the
    adapter the operator chose, once the operator has typed [YES]. *)
Lemma stealth_mode_chosen env w line rest iface w2 :
  stdin w = line :: rest ->
  PyStr.strip line = "YES" ->
  choose_interface env (set_stdin rest (snd (load_state env w)))
  = (Ok (Some iface), w2) ->
  iface <> EmptyString ->
  stealth_mode env w = stealth_mode_on env (stored env (state_file w)) iface w2.
Proof.
  intros I Y Ch N. rewrite load_state_eq in Ch. cbn [snd] in Ch.
  unfold stealth_mode.
  rewrite (bind_ok _ _ _ _ _ (load_state_eq env w)).
  rewrite (bind_ok _ _ _ _ _ (input_eq line rest (set_disk _ _ w) I)).
  rewrite Y, String.eqb_refl. cbn [negb].
  rewrite (bind_ok _ _ _ _ _ Ch).
  apply String.eqb_neq in N. now rewrite N.
Qed.

(** The answers [restore_changes] takes for a yes. *)
Example says_yes_examples :
  says_yes "y" = true /\ says_yes " YES " = true /\ says_yes "Yes" = true /\
  says_yes "" = false /\ says_yes "n" = false /\ says_yes "yes please" = false.
Proof. repeat split. Qed.

(** The inventory on the output of [iw dev] and of [ip link show]. *)
Example findall_interface_example :
  Re.findall_interface
    "phy#0 Interface wlan0 ifindex 3 type managed Interface wlan1mon type monitor"
  = ["wlan0"; "wlan1mon"].
Proof. reflexivity. Qed.

Example search_ether_example :
  Re.search_ether
    "3: wlan0: <BROADCAST,MULTICAST> mtu 1500 link/ether 00:c0:ca:aa:bb:cc brd ff:ff:ff:ff:ff:ff"
  = Some "00:c0:ca:aa:bb:cc" /\
  Re.search_ether "4: wlan0mon: <UP> link/ieee802.11/radiotap 00:c0:ca:aa:bb:cc"
  = None.
Proof. split; reflexivity. Qed.

(** The two scenarios of the specification: stealth mode on [wlan0] with a
    helper that adds the monitor interface, and a restore of a spoofed
    address with no monitor interface on record. *)
Example stealth_mode_scenario :
  persisted Sample.renaming_env
    (snd (stealth_mode Sample.renaming_env (Sample.world None ["YES"; "1"])))
  = [("networkmanager_stopped", JBool true);
     ("monitor_interface", JStr "mon0");
     ("original_interface", JStr "wlan0")].
Proof. vm_compute; reflexivity. Qed.

Example stealth_mode_manual_scenario :
  trace (snd (stealth_mode Sample.manual_env (Sample.world None ["YES"; "1"])))
  = [IwDev; IwDev; SystemctlStop; IpLinkSetDown "wlan0";
     IwSetTypeMonitor "wlan0"; IpLinkSetUp "wlan0"] /\
  persisted Sample.manual_env
    (snd (stealth_mode Sample.manual_env (Sample.world None ["YES"; "1"])))
  = [("networkmanager_stopped", JBool true);
     ("monitor_interface", JStr "wlan0");
     ("original_interface", JStr "wlan0")].
Proof. split; vm_compute; reflexivity. Qed.

Example restore_changes_scenario :
  trace (snd (restore_changes Sample.bare_env
                (Sample.world
                   (Some (JObj [("spoofed_macs",
                                 JObj [("wlan0", JStr "02:aa:bb:cc:dd:ee")]);
                                ("original_macs",
                                 JObj [("wlan0", JStr "00:11:22:33:44:55")])]))
                   [])))
  = [IpLinkSetDown "wlan0";
     IpLinkSetAddress "wlan0" (JStr "00:11:22:33:44:55");
     IpLinkSetUp "wlan0"] /\
  persisted Sample.bare_env
    (snd (restore_changes Sample.bare_env
            (Sample.world
               (Some (JObj [("spoofed_macs",
                             JObj [("wlan0", JStr "02:aa:bb:cc:dd:ee")]);
                            ("original_macs",
                             JObj [("wlan0", JStr "00:11:22:33:44:55")])]))
               [])))
  = [].
Proof. split; vm_compute; reflexivity. Qed.

(* ===================================================================== *)
(** ** Frames *)
(* ===================================================================== *)

#[export] Instance input_untouched_frame : Frame input_untouched.
Proof.
  split; unfold input_untouched; [ reflexivity | congruence ].
Qed.

#[export] Instance reads_on_frame : Frame reads_on.
Proof.
  split.
  - intros w. now exists [].
  - intros w1 w2 w3 [u1 E1] [u2 E2]. exists (u1 ++ u2).
    now rewrite E1, E2, app_assoc.
Qed.

#[export] Instance issues_frame allowed : Frame (issues allowed).
Proof.
  split.
  - intros w. exists []. now rewrite app_nil_r.
  - intros w1 w2 w3 (c1 & E1 & F1) (c2 & E2 & F2). exists (c1 ++ c2).
    rewrite E2, E1, app_assoc, forallb_app, F1, F2. auto.
Qed.

Section Keeps.

Variable R : World -> World -> Prop.
Context `{Frame R}.

Lemma keeps_ret {A} (a : A) : keeps R (ret a).
Proof. intros w. apply frame_refl. Qed.

Lemma keeps_raise {A} (e : exn) : keeps R (@raise A e).
Proof. intros w. apply frame_refl. Qed.

Lemma keeps_lift {A} (o : outcome A) : keeps R (lift o).
Proof. intros w. apply frame_refl. Qed.

Lemma keeps_bind {A B} (c : M A) (k : A -> M B) :
  keeps R c -> (forall a, keeps R (k a)) -> keeps R (bind c k).
Proof.
  intros Hc Hk w. unfold bind. specialize (Hc w).
  destruct (c w) as [[a | e] w1]; cbn in *; [ | exact Hc ].
  eapply frame_trans; [ exact Hc | apply Hk ].
Qed.

Lemma keeps_try_except {A} (c h : M A) :
  keeps R c -> keeps R h -> keeps R (try_except c h).
Proof.
  intros Hc Hh w. unfold try_except. specialize (Hc w).
  destruct (c w) as [[a | e] w1]; cbn in *; [ exact Hc | ].
  eapply frame_trans; [ exact Hc | apply Hh ].
Qed.

Lemma keeps_for_each {A} (l : list A) (body : A -> M unit) :
  (forall x, keeps R (body x)) -> keeps R (for_each l body).
Proof.
  intros Hb. induction l as [ | x l IH]; cbn [for_each].
  - apply keeps_ret.
  - apply keeps_bind; auto.
Qed.

End Keeps.

(** Split a goal [keeps R c] along the structure of [c]; what is left are
    the primitives of the host. *)
Ltac frame_step :=
  lazymatch goal with
  | |- keeps _ (bind _ _) => apply keeps_bind; [ apply _ | | intros ]
  | |- keeps _ (ret _) => apply keeps_ret; apply _
  | |- keeps _ (raise _) => apply keeps_raise; apply _
  | |- keeps _ (lift _) => apply keeps_lift; apply _
  | |- keeps _ (try_except _ _) => apply keeps_try_except; [ apply _ | | ]
  | |- keeps _ (for_each _ _) => apply keeps_for_each; [ apply _ | intros ]
  | |- keeps _ (if ?b then _ else _) => destruct b
  | |- keeps _ (match ?x with _ => _ end) => destruct x
  end.

Lemma keeps_run_issues allowed env c capture :
  allowed c = true -> keeps (issues allowed) (run env c capture).
Proof. intros A w. exists [c]. cbn. now rewrite A. Qed.

Lemma keeps_issues_same allowed {A} (c : M A) :
  (forall w, trace (snd (c w)) = trace w) -> keeps (issues allowed) c.
Proof. intros E w. exists []. now rewrite E, app_nil_r. Qed.

Lemma keeps_input_reads : keeps reads_on input.
Proof.
  intros w. unfold input. destruct (stdin w) as [ | l r] eqn:E; cbn.
  - exists []. now rewrite E.
  - exists [l]. now rewrite E.
Qed.

Lemma keeps_reads_same {A} (c : M A) :
  (forall w, stdin (snd (c w)) = stdin w) -> keeps reads_on c.
Proof. intros E w. exists []. now rewrite E. Qed.

(* ===================================================================== *)
(** ** The commands an operation issues *)
(* ===================================================================== *)

Lemma load_state_trace env w : trace (snd (load_state env w)) = trace w.
Proof. now rewrite load_state_eq. Qed.

Lemma load_state_stdin env w : stdin (snd (load_state env w)) = stdin w.
Proof. now rewrite load_state_eq. Qed.

Lemma save_state_eq_gen env state w :
  save_state env state w
  = (Ok tt,
     let d := state_dir w || negb (fs_fault env (fs_clock w)) in
     mkWorld d
       (if fs_fault env (S (fs_clock w)) || negb d
        then state_file w else File (json_dumps env state))
       (S (S (fs_clock w))) (trace w) (stdin w) (rng_pos w)).
Proof.
  unfold save_state, bind. rewrite ensure_state_dir_eq.
  unfold try_except, write_text, ret; cbn.
  destruct (fs_fault env (S (fs_clock w)) || negb _); reflexivity.
Qed.

Lemma clear_state_eq_gen env w :
  clear_state env w
  = (Ok tt,
     match state_file w with
     | NoFile => w
     | _ => set_disk (state_dir w)
              (if fs_fault env (fs_clock w) then state_file w else NoFile) w
     end).
Proof.
  unfold clear_state, try_except, bind, exists_, unlink, ret.
  destruct (state_file w) eqn:E; cbn; try reflexivity;
    destruct (fs_fault env (fs_clock w)); rewrite ?E; reflexivity.
Qed.

Lemma save_state_trace env state w : trace (snd (save_state env state w)) = trace w.
Proof. now rewrite save_state_eq_gen. Qed.

Lemma save_state_stdin env state w : stdin (snd (save_state env state w)) = stdin w.
Proof. now rewrite save_state_eq_gen. Qed.

Lemma clear_state_trace env w : trace (snd (clear_state env w)) = trace w.
Proof. rewrite clear_state_eq_gen. cbn. now destruct (state_file w). Qed.

Lemma clear_state_stdin env w : stdin (snd (clear_state env w)) = stdin w.
Proof. rewrite clear_state_eq_gen. cbn. now destruct (state_file w). Qed.

(** The leaves of a goal [keeps (issues allowed) c]. *)
Ltac issues_leaf :=
  first
    [ apply keeps_run_issues; reflexivity
    | apply keeps_issues_same; intros;
      first [ apply load_state_trace | apply save_state_trace
            | apply clear_state_trace | reflexivity
            | (unfold input; destruct (stdin _); reflexivity) ] ].

Ltac reads_leaf :=
  first
    [ apply keeps_input_reads
    | apply keeps_reads_same; intros;
      first [ apply load_state_stdin | apply save_state_stdin
            | apply clear_state_stdin | reflexivity ] ].

Lemma detect_issues allowed env :
  allowed IwDev = true -> allowed IpBriefLink = true ->
  keeps (issues allowed) (detect_wireless_interfaces env).
Proof.
  intros A1 A2. unfold detect_wireless_interfaces.
  repeat frame_step;
    first [ now apply keeps_run_issues | issues_leaf ].
Qed.

Lemma choose_issues allowed env :
  allowed IwDev = true -> allowed IpBriefLink = true ->
  keeps (issues allowed) (choose_interface env).
Proof.
  intros A1 A2. unfold choose_interface.
  repeat frame_step; first [ now apply detect_issues | issues_leaf ].
Qed.

Lemma generate_issues allowed env :
  keeps (issues allowed) (generate_random_mac env).
Proof.
  apply keeps_issues_same. intros w. now rewrite generate_random_mac_eq.
Qed.

Lemma get_current_mac_issues allowed env iface :
  allowed (IpLinkShow iface) = true ->
  keeps (issues allowed) (get_current_mac env iface).
Proof.
  intros A. unfold get_current_mac.
  repeat frame_step; first [ now apply keeps_run_issues | issues_leaf ].
Qed.

Lemma stealth_mode_issues env : keeps (issues stealth_allowed) (stealth_mode env).
Proof.
  unfold stealth_mode, stealth_mode_on.
  repeat frame_step;
    first [ now apply detect_issues | now apply choose_issues | issues_leaf ].
Qed.

Lemma mac_spoof_issues env : keeps (issues spoof_allowed) (mac_spoof env).
Proof.
  unfold mac_spoof, mac_spoof_on.
  repeat frame_step;
    first [ now apply choose_issues | now apply get_current_mac_issues
          | apply generate_issues | issues_leaf ].
Qed.

Lemma restore_changes_issues env :
  keeps (issues restore_allowed) (restore_changes env).
Proof.
  unfold restore_changes, restore_macs, restore_mac, stop_monitor,
    restart_network_manager.
  repeat frame_step; issues_leaf.
Qed.

Lemma restore_monitor_only_issues env :
  keeps (issues restore_monitor_allowed) (restore_monitor_only env).
Proof.
  unfold restore_monitor_only, stop_monitor, restart_network_manager.
  repeat frame_step; issues_leaf.
Qed.

(* ===================================================================== *)
(** ** The lines an operation reads *)
(* ===================================================================== *)

Lemma generate_random_mac_reads env : keeps reads_on (generate_random_mac env).
Proof.
  apply keeps_reads_same. intros w. now rewrite generate_random_mac_eq.
Qed.

Lemma run_reads env c capture : keeps reads_on (run env c capture).
Proof. now apply keeps_reads_same. Qed.

Ltac reads_step :=
  first
    [ frame_step
    | apply run_reads
    | apply generate_random_mac_reads
    | reads_leaf ].

Lemma stealth_mode_reads env : keeps reads_on (stealth_mode env).
Proof.
  unfold stealth_mode, stealth_mode_on, choose_interface,
    detect_wireless_interfaces.
  repeat reads_step.
Qed.

Lemma mac_spoof_reads env : keeps reads_on (mac_spoof env).
Proof.
  unfold mac_spoof, mac_spoof_on, choose_interface, get_current_mac,
    detect_wireless_interfaces.
  repeat reads_step.
Qed.

Lemma restore_changes_reads env : keeps reads_on (restore_changes env).
Proof.
  unfold restore_changes, restore_macs, restore_mac, stop_monitor,
    restart_network_manager.
  repeat reads_step.
Qed.

Lemma restore_monitor_only_reads env : keeps reads_on (restore_monitor_only env).
Proof.
  unfold restore_monitor_only, stop_monitor, restart_network_manager.
  repeat reads_step.
Qed.

Lemma reads_on_length w w' : reads_on w w' -> length (stdin w') <= length (stdin w).
Proof. intros [used ->]. rewrite length_app. lia. Qed.

(** [restore_monitor_only] asks nothing. *)
Lemma restore_monitor_only_stdin env w :
  stdin (snd (restore_monitor_only env w)) = stdin w.
Proof.
  assert (K : keeps input_untouched (restore_monitor_only env)).
  { unfold restore_monitor_only, stop_monitor, restart_network_manager.
    repeat first
      [ frame_step
      | intros ?; first [ apply load_state_stdin | apply clear_state_stdin
                        | reflexivity ] ]. }
  apply K.
Qed.

(* ===================================================================== *)
(** ** The commands of each operation *)
(* ===================================================================== *)

(** X1.  Whatever the host answers and whatever the record holds, and
    whether they return or raise, [stealth_mode] gives to [run] only the two
    enumerations, the stop of NetworkManager, [airmon-ng check kill] and
    [airmon-ng start], and the commands that take a link down, set it to
    monitor type and bring it up; [mac_spoof] gives to [run] only the two
    enumerations, the read of an address, and the commands that take a link
    down, set a generated address on it and bring it up.  Neither restarts
    the service, takes an interface out of monitor mode or resets an address
    to the permanent one. *)
Theorem setup_commands (env : Env) (w : World) :
  (exists cmds,
     trace (snd (stealth_mode env w)) = trace w ++ cmds /\
     forallb stealth_allowed cmds = true) /\
  (exists cmds,
     trace (snd (mac_spoof env w)) = trace w ++ cmds /\
     forallb spoof_allowed cmds = true).
Proof. split; [ apply stealth_mode_issues | apply mac_spoof_issues ]. Qed.

(** X2.  Whatever the host answers and whatever the record holds, and
    whether they return or raise, [restore_changes] gives to [run] only the
    commands that take a link down or up, set or reset an address, take an
    interface out of monitor mode and start NetworkManager;
    [restore_monitor_only] gives to [run] only the commands that take an
    interface out of monitor mode and start NetworkManager, so it changes no
    address, and it reads no line of the operator. *)
Theorem restore_commands (env : Env) (w : World) :
  (exists cmds,
     trace (snd (restore_changes env w)) = trace w ++ cmds /\
     forallb restore_allowed cmds = true) /\
  (exists cmds,
     trace (snd (restore_monitor_only env w)) = trace w ++ cmds /\
     forallb restore_monitor_allowed cmds = true /\
     stdin (snd (restore_monitor_only env w)) = stdin w).
Proof.
  split; [ apply restore_changes_issues | ].
  destruct (restore_monitor_only_issues env w) as (cmds & T & A).
  exists cmds. split; [ exact T | ]. split; [ exact A | ].
  apply restore_monitor_only_stdin.
Qed.

(* ===================================================================== *)
(** ** The store when the file system refuses *)
(* ===================================================================== *)

(** X3.  [save_state] never raises, whatever the file system does: a
    failure of [mkdir] or of [write_text] is swallowed.  It issues no
    command, reads no line and draws no random number.  When the state
    directory is missing and cannot be created, nothing is written and the
    caller is not told. *)
Theorem save_state_never_raises (env : Env) (state : json) (w : World) :
  let w' := snd (save_state env state w) in
  fst (save_state env state w) = Ok tt /\
  trace w' = trace w /\ stdin w' = stdin w /\ rng_pos w' = rng_pos w /\
  (state_dir w = false -> fs_fault env (fs_clock w) = true ->
   state_dir w' = false /\ state_file w' = state_file w).
Proof.
  cbn zeta. rewrite save_state_eq_gen. cbn.
  split; [ reflexivity | ]. do 3 (split; [ reflexivity | ]).
  intros D F. rewrite D, F. cbn. split; [ reflexivity | ].
  now rewrite orb_true_r.
Qed.

(** X4.  [clear_state] never raises.  With no state file it attempts
    nothing.  When the file system refuses the [unlink] the failure is
    swallowed, the state file stays, and the next [load_state] returns what
    it returned before; when it does not, the file is gone and the next
    [load_state] returns the empty record. *)
Theorem clear_state_never_raises (env : Env) (w : World) :
  let w' := snd (clear_state env w) in
  fst (clear_state env w) = Ok tt /\
  (state_file w = NoFile -> w' = w) /\
  (fs_fault env (fs_clock w) = true ->
   state_file w' = state_file w /\
   fst (load_state env w') = fst (load_state env w)) /\
  (fs_fault env (fs_clock w) = false ->
   state_file w' = NoFile /\ fst (load_state env w') = Ok (JObj [])).
Proof.
  cbn zeta. rewrite clear_state_eq_gen, !load_state_eq. cbn.
  split; [ reflexivity | ].
  split; [ now intros -> | ].
  split; intros F; rewrite ?F; destruct (state_file w) eqn:E; cbn;
    rewrite ?E; auto.
Qed.

Lemma save_state_never_raises_witness :
  let w' := snd (save_state Sample.read_only_env (JObj Sample.full_record)
                   (world_at [] 0)) in
  state_dir w' = false /\ state_file w' = NoFile.
Proof.
  exact (proj2 (proj2 (proj2 (proj2
           (save_state_never_raises Sample.read_only_env
              (JObj Sample.full_record) (world_at [] 0)))))
           eq_refl eq_refl).
Defined.

Lemma clear_state_never_raises_witness :
  let w := Sample.after_session [] in
  let w' := snd (clear_state Sample.read_only_env w) in
  state_file w' = state_file w /\
  fst (load_state Sample.read_only_env w')
  = fst (load_state Sample.read_only_env w).
Proof.
  exact (proj1 (proj2 (proj2
           (clear_state_never_raises Sample.read_only_env
              (Sample.after_session []))))
           eq_refl).
Defined.

(* ===================================================================== *)
(** ** The names the inventory returns *)
(* ===================================================================== *)

Lemma dedup_from_spec seen l :
  List.NoDup (PyStr.dedup_from seen l) /\
  forall x, In x (PyStr.dedup_from seen l) <-> In x l /\ ~ In x seen.
Proof.
  revert seen. induction l as [ | a l IH]; intros seen; cbn.
  - split; [ constructor | tauto ].
  - destruct (existsb (String.eqb a) seen) eqn:E.
    + destruct (IH seen) as [N I]. split; [ exact N | ].
      intros x. apply existsb_eqb_In in E. split.
      * intros H. apply I in H. tauto.
      * intros [[<- | H] S]; [ tauto | ]. apply I. tauto.
    + destruct (IH (a :: seen)) as [N I].
      assert (Na : ~ In a seen).
      { intros H. apply existsb_eqb_In in H. congruence. }
      split.
      * constructor; [ | exact N ]. intros H. apply I in H. cbn in H. tauto.
      * intros x. cbn. split.
        -- intros [<- | H]; [ tauto | ]. apply I in H. cbn in H. tauto.
        -- intros [[<- | H] S]; [ tauto | ].
           destruct (String.eqb_spec a x) as [-> | D]; [ tauto | ].
           right. apply I. cbn. tauto.
Qed.

Lemma dedup_NoDup l : List.NoDup (PyStr.dedup l).
Proof. apply dedup_from_spec. Qed.

Lemma dedup_In l x : In x (PyStr.dedup l) <-> In x l.
Proof.
  unfold PyStr.dedup. destruct (dedup_from_spec [] l) as [_ I].
  split; intros H; [ apply I in H; tauto | apply I; cbn; tauto ].
Qed.

Lemma span_all p s :
  forallb p (list_ascii_of_string (fst (PyStr.span p s))) = true.
Proof.
  induction s as [ | c r IH]; cbn; [ reflexivity | ].
  destruct (p c) eqn:E; [ | reflexivity ].
  destruct (PyStr.span p r) as [a b]. cbn in *. now rewrite E.
Qed.

Lemma interface_at_name s name rest :
  Re.interface_at s = Some (name, rest) -> token name.
Proof.
  unfold Re.interface_at.
  destruct (PyStr.strip_prefix "Interface" s) as [r | ]; [ | discriminate ].
  destruct (PyStr.span PyStr.isspace r) as [ws r1].
  destruct ws; [ discriminate | ].
  pose proof (span_all (fun c => negb (PyStr.isspace c)) r1) as A.
  destruct (PyStr.span _ r1) as [n r2]. cbn in A.
  destruct n; [ discriminate | ]. intros [= <- <-]. split; [ discriminate | exact A ].
Qed.

Lemma findall_interface_names text :
  Forall token (Re.findall_interface text).
Proof.
  unfold Re.findall_interface. generalize (String.length text) as fuel.
  intros fuel. revert text.
  induction fuel as [ | fuel IH]; intros s; cbn; [ constructor | ].
  destruct s as [ | c r]; [ constructor | ].
  destruct (Re.interface_at (String c r)) as [[name rest] | ] eqn:E.
  - constructor; [ exact (interface_at_name _ _ _ E) | apply IH ].
  - apply IH.
Qed.

Lemma first_token_name line t : PyStr.first_token line = Some t -> token t.
Proof.
  unfold PyStr.first_token.
  destruct (PyStr.lstrip line) as [ | c r] eqn:E; [ discriminate | ].
  intros [= <-].
  assert (S : PyStr.isspace c = false).
  { unfold PyStr.lstrip in E. clear - E. revert E.
    induction line as [ | a l IH]; cbn; [ discriminate | ].
    destruct (PyStr.isspace a) eqn:Ea.
    - destruct (PyStr.span PyStr.isspace l) as [x y]. exact IH.
    - cbn. now intros [= <- <-]. }
  split.
  - cbn. rewrite S. cbn. destruct (PyStr.span _ r). cbn. discriminate.
  - apply (span_all (fun c => negb (PyStr.isspace c)) (String c r)).
Qed.

Lemma startswith_wl name p :
  PyStr.startswith name (String "w" (String "l" p)) = true ->
  PyStr.startswith name "wl" = true.
Proof.
  unfold PyStr.startswith.
  destruct name as [ | a [ | b n]]; cbn [PyStr.strip_prefix]; try discriminate;
    destruct (Ascii.eqb "w" a); try discriminate.
  destruct (Ascii.eqb "l" b); [ reflexivity | discriminate ].
Qed.

Lemma wireless_names_names lines l :
  wireless_names lines = Ok l ->
  Forall (fun n => token n /\ PyStr.startswith n "wl" = true) l.
Proof.
  revert l. induction lines as [ | line r IH]; intros l; cbn.
  - intros [= <-]. constructor.
  - destruct (PyStr.first_token line) as [name | ] eqn:E; [ | discriminate ].
    destruct (wireless_names r) as [l0 | ]; [ | discriminate ].
    intros [= <-]. specialize (IH _ eq_refl).
    destruct (_ || _) eqn:W; [ | exact IH ].
    constructor; [ | exact IH ]. split; [ exact (first_token_name _ _ E) | ].
    apply orb_true_iff in W as [W | W]; [ | exact W ].
    apply orb_true_iff in W as [W | W]; exact (startswith_wl _ _ W).
Qed.

(** X5.  The names [detect_wireless_interfaces] returns are pairwise
    distinct, and each of them is a non-empty string without white space,
    whichever of the two commands they come from. *)
Theorem detect_wireless_interfaces_names (env : Env) (w : World)
    (l : list string) :
  fst (detect_wireless_interfaces env w) = Ok l ->
  List.NoDup l /\ Forall token l.
Proof.
  unfold detect_wireless_interfaces, bind, run, ret, lift. cbn.
  destruct (host env (trace w) IwDev) as [text | ]; cbn.
  2: { intros [= <-]. split; constructor. }
  pose proof (findall_interface_names text) as Hn.
  destruct (Re.findall_interface text) as [ | a names] eqn:Ef; cbn.
  - destruct (host env (trace w ++ [IwDev]) IpBriefLink) as [text2 | ]; cbn.
    + destruct (wireless_names (PyStr.splitlines text2)) as [l0 | ] eqn:Ew; cbn;
        [ | discriminate ].
      intros [= <-]. split; [ apply dedup_NoDup | ].
      apply wireless_names_names in Ew. rewrite List.Forall_forall in *.
      intros x I. apply (proj1 (dedup_In _ _)) in I. exact (proj1 (Ew _ I)).
    + intros [= <-]. split; constructor.
  - intros [= <-]. split; [ apply (dedup_NoDup (a :: names)) | ].
    rewrite List.Forall_forall in *. intros x I.
    apply (proj1 (dedup_In (a :: names) x)) in I. now apply Hn.
Qed.

Lemma detect_wireless_interfaces_names_witness :
  List.NoDup ["wlan0"; "mon0"] /\ Forall token ["wlan0"; "mon0"].
Proof.
  apply (detect_wireless_interfaces_names
           (Sample.env [] (Sample.iw_prints
              "Interface wlan0 Interface mon0 Interface wlan0"))
           (Sample.world None [])).
  reflexivity.
Defined.

Lemma lstrip_blank line :
  forallb PyStr.isspace (list_ascii_of_string line) = true ->
  PyStr.lstrip line = EmptyString.
Proof.
  unfold PyStr.lstrip. induction line as [ | c r IH]; cbn; [ reflexivity | ].
  intros H. apply andb_true_iff in H as [Hc Hr]. rewrite Hc.
  specialize (IH Hr). destruct (PyStr.span PyStr.isspace r). exact IH.
Qed.

Lemma wireless_names_blank lines line :
  In line lines ->
  forallb PyStr.isspace (list_ascii_of_string line) = true ->
  wireless_names lines = Raise IndexError.
Proof.
  intros I B. induction lines as [ | x r IH]; [ destruct I | ].
  cbn [wireless_names]. destruct I as [-> | I].
  - unfold PyStr.first_token. now rewrite (lstrip_blank _ B).
  - rewrite (IH I). now destruct (PyStr.first_token x).
Qed.

(** X6.  When [iw dev] names no interface and the answer of
    [ip -brief link] holds a line made of white space only,
    [line.split()[0]] raises: [detect_wireless_interfaces] ends with
    [IndexError], and so does [choose_interface], which does not catch
    it. *)
Theorem detect_wireless_interfaces_blank_line (env : Env) (w : World)
    (text text2 line : string) :
  host env (trace w) IwDev = Some text ->
  Re.findall_interface text = [] ->
  host env (trace w ++ [IwDev]) IpBriefLink = Some text2 ->
  In line (PyStr.splitlines text2) ->
  forallb PyStr.isspace (list_ascii_of_string line) = true ->
  fst (detect_wireless_interfaces env w) = Raise IndexError /\
  fst (choose_interface env w) = Raise IndexError.
Proof.
  intros H1 F H2 I B.
  assert (D : fst (detect_wireless_interfaces env w) = Raise IndexError).
  { unfold detect_wireless_interfaces, bind, run, lift. cbn.
    rewrite H1, F. cbn. rewrite H2.
    now rewrite (wireless_names_blank _ _ I B). }
  split; [ exact D | ].
  unfold choose_interface, bind.
  destruct (detect_wireless_interfaces env w) as [[l | e] w1]; cbn in D;
    [ discriminate | now inversion D ].
Qed.

Lemma detect_wireless_interfaces_blank_line_witness :
  fst (detect_wireless_interfaces
         (Sample.env []
            (Sample.ip_prints
               (String.append "lo UNKNOWN"
                  (String.append Sample.nl
                     (String.append " " (String.append Sample.nl "wlan0 UP"))))))
         (Sample.world None []))
  = Raise IndexError.
Proof.
  apply (detect_wireless_interfaces_blank_line
           (Sample.env [] (Sample.ip_prints _)) (Sample.world None [])
           "" _ " " eq_refl eq_refl eq_refl).
  - vm_compute. right. left. reflexivity.
  - reflexivity.
Defined.

(** X7.  An interface returned by [choose_interface] is one of the names
    that [detect_wireless_interfaces] returned: the operator typed one line,
    which after [strip] reads as an integer [n] between 1 and the number of
    names, and the interface is the [n]-th name, counted from 1. *)
Theorem choose_interface_returns_listed (env : Env) (w : World) (i : string) :
  fst (choose_interface env w) = Ok (Some i) ->
  exists l line n,
    fst (detect_wireless_interfaces env w) = Ok l /\
    stdin w = line :: stdin (snd (choose_interface env w)) /\
    PyStr.to_int (PyStr.strip line) = Some n /\
    (1 <= n <= Z.of_nat (length l))%Z /\
    nth_error l (Z.to_nat (n - 1)) = Some i /\
    In i l.
Proof.
  unfold choose_interface, bind. rewrite detect_wireless_interfaces_eq.
  cbn [fst snd].
  destruct (enumerate env (trace w)) as [l | e]; [ | discriminate ].
  destruct l as [ | a l']; [ discriminate | ].
  set (l := a :: l') in *.
  unfold input. cbn [stdin set_trace].
  destruct (stdin w) as [ | line rest]; [ discriminate | ].
  destruct (PyStr.to_int (PyStr.strip line)) as [n | ] eqn:T; [ | discriminate ].
  destruct (_ && _) eqn:B; [ | discriminate ].
  cbn. intros [= E]. exists l, line, n.
  apply andb_true_iff in B as [B1 B2].
  split; [ reflexivity | ]. split; [ reflexivity | ]. split; [ exact T | ].
  split; [ lia | ]. split; [ exact E | ].
  eapply nth_error_In, E.
Qed.

Lemma choose_interface_returns_listed_witness :
  exists l line n,
    fst (detect_wireless_interfaces
           (Sample.env [] (Sample.iw_prints "Interface wlan0 Interface wlan1"))
           (Sample.world None [" 2 "; "x"])) = Ok l /\
    [" 2 "; "x"] = line :: ["x"] /\
    PyStr.to_int (PyStr.strip line) = Some n /\
    (1 <= n <= Z.of_nat (length l))%Z /\
    nth_error l (Z.to_nat (n - 1)) = Some "wlan1" /\
    In "wlan1" l.
Proof.
  apply (choose_interface_returns_listed
           (Sample.env [] (Sample.iw_prints "Interface wlan0 Interface wlan1"))
           (Sample.world None [" 2 "; "x"]) "wlan1").
  reflexivity.
Defined.

(** X8.  When [detect_wireless_interfaces] returns no name,
    [choose_interface] returns [None] without reading a line: the lines of
    the operator are left for whoever reads next. *)
Theorem choose_interface_no_adapter (env : Env) (w : World) :
  fst (detect_wireless_interfaces env w) = Ok [] ->
  fst (choose_interface env w) = Ok None /\
  stdin (snd (choose_interface env w)) = stdin w.
Proof.
  unfold choose_interface, bind. rewrite detect_wireless_interfaces_eq.
  cbn [fst snd]. intros ->. split; reflexivity.
Qed.

Lemma choose_interface_no_adapter_witness :
  fst (choose_interface Sample.bare_env (Sample.world None ["1"])) = Ok None /\
  stdin (snd (choose_interface Sample.bare_env (Sample.world None ["1"]))) = ["1"].
Proof. apply choose_interface_no_adapter. reflexivity. Defined.

Lemma take_mac_chars_all n s g :
  Re.take_mac_chars n s = Some g ->
  forallb Re.is_mac_char (list_ascii_of_string g) = true.
Proof.
  revert s g. induction n as [ | n IH]; intros s g; cbn.
  - now intros [= <-].
  - destruct s as [ | c r]; [ discriminate | ].
    destruct (Re.is_mac_char c) eqn:Ec; [ | discriminate ].
    destruct (Re.take_mac_chars n r) as [g' | ] eqn:E; [ | discriminate ].
    cbn. intros [= <-]. cbn. rewrite Ec. exact (IH _ _ E).
Qed.

Lemma search_ether_all text g :
  Re.search_ether text = Some g ->
  forallb Re.is_mac_char (list_ascii_of_string g) = true.
Proof.
  assert (A : forall s, Re.ether_at s = Some g ->
                        forallb Re.is_mac_char (list_ascii_of_string g) = true).
  { intros s. unfold Re.ether_at.
    destruct (PyStr.strip_prefix "link/ether" s) as [r | ]; [ | discriminate ].
    destruct (PyStr.span PyStr.isspace r) as [ws r1].
    destruct ws; [ discriminate | ]. apply take_mac_chars_all. }
  induction text as [ | c r IH]; cbn [Re.search_ether].
  - destruct (Re.ether_at "") eqn:E; [ | discriminate ].
    intros [= <-]. exact (A _ E).
  - destruct (Re.ether_at (String c r)) eqn:E.
    + intros [= <-]. exact (A _ E).
    + exact IH.
Qed.

(** X9.  An address returned by [get_current_mac] has 17 characters, each
    of them a digit, a letter from [a] to [f] or a colon, and reading it
    costs the one command [ip link show]. *)
Theorem get_current_mac_shape (env : Env) (iface : string) (w : World)
    (a : string) :
  fst (get_current_mac env iface w) = Ok (Some a) ->
  String.length a = 17 /\
  forallb Re.is_mac_char (list_ascii_of_string a) = true /\
  trace (snd (get_current_mac env iface w)) = trace w ++ [IpLinkShow iface].
Proof.
  rewrite get_current_mac_eq. cbn [fst snd trace set_trace]. intros [= E].
  unfold read_mac in E.
  destruct (host env (trace w) (IpLinkShow iface)) as [text | ];
    [ | discriminate ].
  split; [ exact (search_ether_length _ _ E) | ].
  split; [ exact (search_ether_all _ _ E) | reflexivity ].
Qed.

Lemma get_current_mac_shape_witness :
  String.length "00:11:22:33:44:55" = 17 /\
  forallb Re.is_mac_char (list_ascii_of_string "00:11:22:33:44:55") = true /\
  trace (snd (get_current_mac Sample.reader_env "wlan0" (Sample.world None [])))
  = [] ++ [IpLinkShow "wlan0"].
Proof.
  apply (get_current_mac_shape Sample.reader_env "wlan0" (Sample.world None [])).
  reflexivity.
Defined.

(* ===================================================================== *)
(** ** The generator and the reader agree on the format *)
(* ===================================================================== *)

Lemma hex_digit_mac_char n :
  (0 <= n < 16)%Z -> Re.is_mac_char (PyStr.hex_digit n) = true.
Proof.
  intros H.
  assert (C : In n [0; 1; 2; 3; 4; 5; 6; 7; 8; 9; 10; 11; 12; 13; 14; 15]%Z).
  { cbn. lia. }
  cbn in C. repeat destruct C as [<- | C]; try reflexivity. destruct C.
Qed.

Lemma hex_digit_not_space n :
  (0 <= n < 16)%Z -> PyStr.isspace (PyStr.hex_digit n) = false.
Proof.
  intros H.
  assert (C : In n [0; 1; 2; 3; 4; 5; 6; 7; 8; 9; 10; 11; 12; 13; 14; 15]%Z).
  { cbn. lia. }
  cbn in C. repeat destruct C as [<- | C]; try reflexivity. destruct C.
Qed.

Lemma draw_range env n : (0 <= draw env n < 256)%Z.
Proof.
  unfold draw. change (255 - 0 + 1)%Z with 256%Z.
  pose proof (Z.mod_pos_bound (rng env n) 256). lia.
Qed.

Lemma take_mac_chars_app s rest :
  forallb Re.is_mac_char (list_ascii_of_string s) = true ->
  Re.take_mac_chars (String.length s) (String.append s rest) = Some s.
Proof.
  induction s as [ | c r IH]; [ reflexivity | ].
  change (String.append (String c r) rest) with (String c (String.append r rest)).
  cbn [String.length list_ascii_of_string forallb Re.take_mac_chars].
  intros H. apply andb_true_iff in H as [Hc Hr]. now rewrite Hc, (IH Hr).
Qed.

Lemma mac_at_shape env n :
  String.length (mac_at env n) = 17 /\
  forallb Re.is_mac_char (list_ascii_of_string (mac_at env n)) = true /\
  exists c r, mac_at env n = String c r /\ PyStr.isspace c = false.
Proof.
  unfold mac_at.
  pose proof (draw_range env n) as R0.
  pose proof (draw_range env (n + 1)) as R1.
  pose proof (draw_range env (n + 2)) as R2.
  pose proof (draw_range env (n + 3)) as R3.
  pose proof (draw_range env (n + 4)) as R4.
  generalize dependent (draw env n). generalize dependent (draw env (n + 1)).
  generalize dependent (draw env (n + 2)). generalize dependent (draw env (n + 3)).
  generalize dependent (draw env (n + 4)).
  intros d4 R4 d3 R3 d2 R2 d1 R1 d0 R0.
  cbv [map PyStr.join PyStr.format_02x String.append String.length
       list_ascii_of_string forallb].
  split; [ reflexivity | ]. split.
  - rewrite !hex_digit_mac_char;
      first [ reflexivity
            | apply Z.mod_pos_bound; lia
            | split; [ apply Z.div_pos; lia | apply Z.div_lt_upper_bound; lia ] ].
  - eexists _, _. split; [ reflexivity | ]. now apply hex_digit_not_space.
Qed.

Lemma search_ether_here s g :
  Re.ether_at s = Some g -> Re.search_ether s = Some g.
Proof. intros E. destruct s; cbn [Re.search_ether]; now rewrite E. Qed.

Lemma strip_prefix_app p s :
  PyStr.strip_prefix p (String.append p s) = Some s.
Proof.
  induction p as [ | a p IH]; [ reflexivity | ].
  change (String.append (String a p) s) with (String a (String.append p s)).
  cbn [PyStr.strip_prefix]. now rewrite Ascii.eqb_refl.
Qed.

(** X10.  The generator and the reader agree on the format: when
    [ip link show] prints [link/ether] followed by an address that
    [generate_random_mac] made, [get_current_mac] returns that address. *)
Theorem generated_address_is_read_back (env : Env) (w w2 : World)
    (iface mac rest : string) :
  fst (generate_random_mac env w) = Ok mac ->
  host env (trace w2) (IpLinkShow iface)
  = Some (String.append "link/ether " (String.append mac rest)) ->
  fst (get_current_mac env iface w2) = Ok (Some mac).
Proof.
  rewrite generate_random_mac_eq, get_current_mac_eq. cbn [fst].
  intros [= <-] H. f_equal. unfold read_mac. rewrite H.
  destruct (mac_at_shape env (rng_pos w)) as (L & A & c & r & E & S).
  rewrite E in *.
  apply search_ether_here. unfold Re.ether_at.
  change (String.append "link/ether " (String.append (String c r) rest))
    with (String.append "link/ether"
            (String " " (String c (String.append r rest)))).
  rewrite strip_prefix_app. cbn [PyStr.span].
  replace (PyStr.isspace " ") with true by reflexivity. rewrite S.
  rewrite <- L. change (String c (String.append r rest))
    with (String.append (String c r) rest).
  now rewrite take_mac_chars_app.
Qed.

Lemma generated_address_is_read_back_witness :
  fst (get_current_mac Sample.reader_env "wlan0"
         (snd (mac_spoof Sample.reader_env (Sample.world None ["wlan0"]))))
  = Ok (Some "02:ab:d0:f5:1a:3f").
Proof.
  apply (generated_address_is_read_back Sample.reader_env (Sample.world None [])
           _ "wlan0" "02:ab:d0:f5:1a:3f" "").
  - vm_compute. reflexivity.
  - vm_compute. reflexivity.
Defined.

(* ===================================================================== *)
(** ** Guards and malformed records *)
(* ===================================================================== *)

(** X11.  Unless the operator types [YES] (in capitals; white space around
    it is ignored), [stealth_mode] returns without giving a command to
    [run] and leaves the state file as it is; it has read the one line. *)
Theorem stealth_mode_needs_confirmation (env : Env) (w : World)
    (line : string) (rest : list string) :
  stdin w = line :: rest ->
  PyStr.strip line <> "YES" ->
  let w' := snd (stealth_mode env w) in
  fst (stealth_mode env w) = Ok tt /\
  trace w' = trace w /\
  state_file w' = state_file w /\
  stdin w' = rest.
Proof.
  intros I N. cbn zeta. unfold stealth_mode.
  rewrite (bind_ok _ _ _ _ _ (load_state_eq env w)).
  rewrite (bind_ok _ _ _ _ _ (input_eq line rest (set_disk _ _ w) I)).
  apply String.eqb_neq in N. rewrite N. cbn. auto.
Qed.

Lemma stealth_mode_needs_confirmation_witness :
  let w' := snd (stealth_mode Sample.airmon_env
                   (Sample.after_session ["yes"; "1"])) in
  fst (stealth_mode Sample.airmon_env (Sample.after_session ["yes"; "1"]))
  = Ok tt /\
  trace w' = [] /\
  state_file w' = File (Sample.dumps (JObj Sample.full_record)) /\
  stdin w' = ["1"].
Proof.
  apply (stealth_mode_needs_confirmation Sample.airmon_env
           (Sample.after_session ["yes"; "1"]) "yes" ["1"] eq_refl).
  vm_compute. discriminate.
Defined.

(** [choose_interface] looks at the commands issued and at the lines to
    come, and at nothing else. *)
Lemma choose_interface_local env w1 w2 :
  trace w1 = trace w2 -> stdin w1 = stdin w2 ->
  fst (choose_interface env w1) = fst (choose_interface env w2) /\
  trace (snd (choose_interface env w1)) = trace (snd (choose_interface env w2)) /\
  stdin (snd (choose_interface env w1)) = stdin (snd (choose_interface env w2)) /\
  state_file (snd (choose_interface env w1)) = state_file w1.
Proof.
  intros T I. unfold choose_interface, bind.
  rewrite !detect_wireless_interfaces_eq, <- T.
  destruct (enumerate env (trace w1)) as [[ | a l] | e];
    cbn [fst snd ret trace stdin state_file set_trace];
    [ now repeat split | | now repeat split ].
  unfold input. cbn [stdin set_trace]. rewrite <- I.
  destruct (stdin w1) as [ | line rest] eqn:S1;
    cbn [fst snd ret trace stdin state_file set_trace set_stdin];
    [ repeat split; congruence | ].
  destruct (PyStr.to_int (PyStr.strip line)) as [n | ];
    [ | now repeat split ].
  destruct (_ && _); now repeat split.
Qed.

Lemma choose_interface_issues_inventory env w :
  exists cmds,
    trace (snd (choose_interface env w)) = trace w ++ cmds /\
    forallb is_inventory cmds = true.
Proof. now apply (choose_issues is_inventory env). Qed.

(** X12.  When the operator has confirmed and [choose_interface] returns
    [None] (no interface found, or a selection that is not one of the
    numbers listed), [stealth_mode] returns having issued only the two
    enumerations: nothing is stopped, and the state file is as it was. *)
Theorem stealth_mode_without_selection (env : Env) (w : World)
    (line : string) (rest : list string) :
  stdin w = line :: rest ->
  PyStr.strip line = "YES" ->
  fst (choose_interface env (set_stdin rest w)) = Ok None ->
  let w' := snd (stealth_mode env w) in
  fst (stealth_mode env w) = Ok tt /\
  (exists cmds, trace w' = trace w ++ cmds /\ forallb is_inventory cmds = true) /\
  state_file w' = state_file w.
Proof.
  intros I Y C. cbn zeta. unfold stealth_mode.
  rewrite (bind_ok _ _ _ _ _ (load_state_eq env w)).
  rewrite (bind_ok _ _ _ _ _ (input_eq line rest (set_disk _ _ w) I)).
  rewrite Y. change (String.eqb "YES" "YES") with true. cbn [negb].
  set (w1 := set_stdin rest (set_disk _ _ w)).
  destruct (choose_interface_local env w1 (set_stdin rest w) eq_refl eq_refl)
    as (E1 & _ & _ & E4).
  rewrite C in E1.
  destruct (choose_interface_issues_inventory env w1) as (cmds & Tc & Ic).
  unfold bind. destruct (choose_interface env w1) as [r w2]. cbn in *.
  subst r. cbn. split; [ reflexivity | ]. split; [ | exact E4 ].
  exists cmds. split; [ exact Tc | exact Ic ].
Qed.

Lemma stealth_mode_without_selection_witness :
  fst (stealth_mode Sample.name_kept_env (Sample.world None ["YES"; "2"]))
  = Ok tt /\
  (exists cmds,
     trace (snd (stealth_mode Sample.name_kept_env
                   (Sample.world None ["YES"; "2"]))) = [] ++ cmds /\
     forallb is_inventory cmds = true) /\
  state_file (snd (stealth_mode Sample.name_kept_env
                     (Sample.world None ["YES"; "2"]))) = NoFile.
Proof.
  apply (stealth_mode_without_selection Sample.name_kept_env
           (Sample.world None ["YES"; "2"]) "YES" ["2"] eq_refl eq_refl).
  reflexivity.
Defined.

Lemma py_setitem_non_object v k x :
  (forall m, v <> JObj m) -> py_setitem v k x = Raise TypeError.
Proof. intros N. destruct v; try reflexivity. now destruct (N m). Qed.

Lemma py_get_non_object v k d :
  (forall m, v <> JObj m) -> py_get v k d = Raise AttributeError.
Proof. intros N. destruct v; try reflexivity. now destruct (N m). Qed.

Lemma stealth_mode_on_non_object_eq env v iface w :
  (forall m, v <> JObj m) ->
  exists e w',
    stealth_mode_on env v iface w = (Raise e, w') /\
    state_file w' = state_file w /\
    (forall before,
       enumerate env (trace w) = Ok before ->
       exists cmds,
         trace w'
         = (trace w ++ enumerate_cmds env (trace w)) ++ SystemctlStop :: cmds).
Proof.
  intros N.
  pose proof (fun k x => py_setitem_non_object v k x N) as S.
  unfold stealth_mode_on. unfold bind at 1.
  rewrite detect_wireless_interfaces_eq.
  destruct (enumerate env (trace w)) as [before | e].
  2: { exists e. eexists. split; [ reflexivity | ].
       split; [ reflexivity | discriminate ]. }
  unfold bind at 1. rewrite run_eq. cbn [trace set_trace].
  set (tr1 := trace w ++ enumerate_cmds env (trace w)).
  destruct (host env tr1 SystemctlStop) as [out | ].
  { unfold bind, lift. rewrite S. exists TypeError. eexists.
    split; [ reflexivity | ]. split; [ reflexivity | ].
    intros _ _. now exists []. }
  unfold bind at 1, ret at 1.
  destruct (which env "airmon-ng").
  - unfold bind at 1 2, run at 1, ret at 1. cbn [trace set_trace].
    unfold bind at 1, run at 1. cbn [trace set_trace].
    unfold bind at 1, run at 1. cbn [trace set_trace].
    unfold bind at 1. rewrite detect_wireless_interfaces_eq.
    cbn [trace set_trace].
    destruct (enumerate env _) as [after | e].
    + unfold bind, lift. rewrite S. exists TypeError. eexists.
      split; [ reflexivity | ]. split; [ reflexivity | ].
      intros _ _. cbn [trace set_trace]. rewrite <- !app_assoc. cbn [app].
      eexists. reflexivity.
    + exists e. eexists. split; [ reflexivity | ]. split; [ reflexivity | ].
      intros _ _. cbn [trace set_trace]. rewrite <- !app_assoc. cbn [app].
      eexists. reflexivity.
  - unfold bind at 1 2, ret at 1, run at 1. cbn [trace set_trace].
    unfold bind at 1, run at 1. cbn [trace set_trace].
    unfold bind at 1, run at 1. cbn [trace set_trace].
    unfold bind, lift. rewrite S. exists TypeError. eexists.
    split; [ reflexivity | ]. split; [ reflexivity | ].
    intros _ _. cbn [trace set_trace]. rewrite <- !app_assoc. cbn [app].
    eexists. reflexivity.
Qed.

(** X13.  [stealth_mode] from its first enumeration on, for a loaded
    record that is not a dict (a state file that holds another JSON value):
    it raises and writes nothing, and when the enumeration succeeds the stop
    of NetworkManager has been issued by then, so the host is changed and
    the record does not say so. *)
Theorem stealth_mode_on_non_object (env : Env) (v : json) (iface : string)
    (w : World) :
  (forall m, v <> JObj m) ->
  let r := stealth_mode_on env v iface w in
  (exists e, fst r = Raise e) /\
  state_file (snd r) = state_file w /\
  (forall before,
     fst (detect_wireless_interfaces env w) = Ok before ->
     exists cmds,
       trace (snd r)
       = trace (snd (detect_wireless_interfaces env w)) ++ SystemctlStop :: cmds).
Proof.
  intros N. cbn zeta.
  destruct (stealth_mode_on_non_object_eq env v iface w N)
    as (e & w' & E & F & T).
  rewrite E, detect_wireless_interfaces_eq. cbn [fst snd trace set_trace].
  split; [ now exists e | ]. split; [ exact F | exact T ].
Qed.

Lemma stealth_mode_on_non_object_witness :
  let r := stealth_mode_on Sample.name_kept_env JNull "wlan0"
             (Sample.world (Some JNull) []) in
  (exists e, fst r = Raise e) /\
  state_file (snd r) = File (Sample.dumps JNull) /\
  (forall before,
     fst (detect_wireless_interfaces Sample.name_kept_env
            (Sample.world (Some JNull) [])) = Ok before ->
     exists cmds,
       trace (snd r)
       = trace (snd (detect_wireless_interfaces Sample.name_kept_env
                       (Sample.world (Some JNull) [])))
         ++ SystemctlStop :: cmds).
Proof.
  apply (stealth_mode_on_non_object Sample.name_kept_env JNull "wlan0"
           (Sample.world (Some JNull) [])).
  discriminate.
Defined.

Lemma mac_spoof_on_non_object env v iface w :
  (forall m, v <> JObj m) ->
  mac_spoof_on env v iface w = (Raise TypeError, w).
Proof.
  intros N. unfold mac_spoof_on, bind, lift.
  destruct v as [ | b | n | s | l | m]; cbn [py_in]; try reflexivity.
  - destruct (PyStr.contains "original_macs" s); reflexivity.
  - destruct (existsb (is_str "original_macs") l); reflexivity.
  - now destruct (N m).
Qed.

(** X14.  [mac_spoof] on a record that is not a dict, when the operator
    names the interface: [TypeError] is raised before any command is
    issued, and the state file is as it was. *)
Theorem mac_spoof_non_object (env : Env) (w : World) (line : string)
    (rest : list string) :
  (forall m, stored env (state_file w) <> JObj m) ->
  stdin w = line :: rest ->
  PyStr.strip line <> EmptyString ->
  let w' := snd (mac_spoof env w) in
  fst (mac_spoof env w) = Raise TypeError /\
  trace w' = trace w /\
  state_file w' = state_file w.
Proof.
  intros N I S. cbn zeta. unfold mac_spoof.
  rewrite (bind_ok _ _ _ _ _ (load_state_eq env w)).
  rewrite (bind_ok _ _ _ _ _ (input_eq line rest (set_disk _ _ w) I)).
  apply String.eqb_neq in S. rewrite S.
  rewrite mac_spoof_on_non_object by exact N. repeat split.
Qed.

Lemma mac_spoof_non_object_witness :
  let w := Sample.world (Some (JArr [JStr "original_macs"])) ["wlan0"] in
  fst (mac_spoof Sample.bare_env w) = Raise TypeError /\
  trace (snd (mac_spoof Sample.bare_env w)) = [] /\
  state_file (snd (mac_spoof Sample.bare_env w)) = state_file w.
Proof.
  apply (mac_spoof_non_object Sample.bare_env
           (Sample.world (Some (JArr [JStr "original_macs"])) ["wlan0"])
           "wlan0" []).
  - intros m. vm_compute. discriminate.
  - reflexivity.
  - vm_compute. discriminate.
Defined.

(** X15.  The two restore operations on a record that is not a dict: when
    the value is falsy they return at once, when it is truthy they raise
    [AttributeError]; in both cases they issue no command and, in
    particular, never remove the state file, which stays as it is. *)
Theorem restore_non_object (env : Env) (w : World) :
  (forall m, stored env (state_file w) <> JObj m) ->
  let v := stored env (state_file w) in
  let expected := if py_truthy v then Raise AttributeError else Ok tt in
  fst (restore_changes env w) = expected /\
  fst (restore_monitor_only env w) = expected /\
  trace (snd (restore_changes env w)) = trace w /\
  trace (snd (restore_monitor_only env w)) = trace w /\
  state_file (snd (restore_changes env w)) = state_file w /\
  state_file (snd (restore_monitor_only env w)) = state_file w.
Proof.
  intros N. cbn zeta.
  unfold restore_changes, restore_monitor_only, restore_macs.
  rewrite !(bind_ok _ _ _ _ _ (load_state_eq env w)).
  destruct (py_truthy (stored env (state_file w))); cbn [negb].
  - unfold bind, lift. rewrite !py_get_non_object by exact N. repeat split.
  - repeat split.
Qed.

Lemma restore_non_object_witness :
  let w := Sample.world (Some (JArr [JNum 1])) ["y"] in
  fst (restore_changes Sample.airmon_env w) = Raise AttributeError /\
  fst (restore_monitor_only Sample.airmon_env w) = Raise AttributeError /\
  trace (snd (restore_changes Sample.airmon_env w)) = [] /\
  trace (snd (restore_monitor_only Sample.airmon_env w)) = [] /\
  state_file (snd (restore_changes Sample.airmon_env w)) = state_file w /\
  state_file (snd (restore_monitor_only Sample.airmon_env w)) = state_file w.
Proof.
  apply (restore_non_object Sample.airmon_env
           (Sample.world (Some (JArr [JNum 1])) ["y"])).
  intros m. vm_compute. discriminate.
Defined.

(** X16.  [restore_changes] on a record whose [spoofed_macs] is not a
    dict: [AttributeError] is raised by [spoofed.items()] before any command
    is issued and before the operator is asked; the state file is as it
    was. *)
Theorem restore_changes_malformed_table (env : Env) (w : World)
    (m : list (string * json)) (v : json) :
  stored env (state_file w) = JObj m ->
  dict_get "spoofed_macs" m = Some v ->
  (forall t, v <> JObj t) ->
  let w' := snd (restore_changes env w) in
  fst (restore_changes env w) = Raise AttributeError /\
  trace w' = trace w /\
  stdin w' = stdin w /\
  state_file w' = state_file w.
Proof.
  intros S G N. cbn zeta. unfold restore_changes, restore_macs.
  rewrite !(bind_ok _ _ _ _ _ (load_state_eq env w)), S.
  assert (T : py_truthy (JObj m) = true) by (destruct m; [ discriminate G | reflexivity ]).
  rewrite T. cbn [negb]. unfold bind, lift, py_get. rewrite G.
  assert (I : py_items v = Raise AttributeError).
  { destruct v; try reflexivity. now destruct (N m0). }
  rewrite I. repeat split.
Qed.

Lemma restore_changes_malformed_table_witness :
  let w := Sample.world (Some (JObj [("spoofed_macs", JArr [])])) [] in
  fst (restore_changes Sample.airmon_env w) = Raise AttributeError /\
  trace (snd (restore_changes Sample.airmon_env w)) = [] /\
  stdin (snd (restore_changes Sample.airmon_env w)) = [] /\
  state_file (snd (restore_changes Sample.airmon_env w)) = state_file w.
Proof.
  apply (restore_changes_malformed_table Sample.airmon_env
           (Sample.world (Some (JObj [("spoofed_macs", JArr [])])) [])
           [("spoofed_macs", JArr [])] (JArr [])).
  - vm_compute. reflexivity.
  - reflexivity.
  - discriminate.
Defined.

Lemma restore_changes_end_of_input_eq env w m :
  stored env (state_file w) = JObj m ->
  tables_ok m = true ->
  py_truthy (field "monitor_interface" m) = true ->
  stdin w = [] ->
  exists w',
    restore_changes env w = (Raise EOFError, w') /\
    trace w' = trace w ++ restore_macs_cmds env m /\
    state_file w' = state_file w.
Proof.
  intros S T Mn I. unfold restore_changes.
  rewrite (bind_ok _ _ _ _ _ (load_state_eq env w)), S.
  assert (Tr : py_truthy (JObj m) = true).
  { destruct m; [ discriminate Mn | reflexivity ]. }
  rewrite Tr. cbn [negb].
  rewrite (bind_ok _ _ _ _ _ (restore_macs_eq env m _ T)).
  unfold lift, py_get, bind at 1 2. fold (field "monitor_interface" m).
  rewrite Mn. unfold bind, input. cbn [stdin set_trace set_disk]. rewrite I.
  eexists. split; [ reflexivity | ]. split; reflexivity.
Qed.

(** X17.  [restore_changes] when a monitor interface is recorded and the
    input of the operator has ended: the addresses have been restored by
    then, [input] raises [EOFError], and the state file is as it was, so
    that the record survives for a later run. *)
Theorem restore_changes_end_of_input (env : Env) (w : World)
    (m : list (string * json)) :
  stored env (state_file w) = JObj m ->
  tables_ok m = true ->
  py_truthy (field "monitor_interface" m) = true ->
  stdin w = [] ->
  let w' := snd (restore_changes env w) in
  fst (restore_changes env w) = Raise EOFError /\
  trace w' = trace w ++ restore_macs_cmds env m /\
  state_file w' = state_file w.
Proof.
  intros S T Mn I. cbn zeta.
  destruct (restore_changes_end_of_input_eq env w m S T Mn I) as (w' & E & H).
  rewrite E. exact (conj eq_refl H).
Qed.

Lemma restore_changes_end_of_input_witness :
  let w := Sample.after_session [] in
  fst (restore_changes Sample.bare_env w) = Raise EOFError /\
  trace (snd (restore_changes Sample.bare_env w))
  = [IpLinkSetDown "wlan0mon";
     IpLinkSetAddress "wlan0mon" (JStr "00:11:22:33:44:55");
     IpLinkSetUp "wlan0mon"] /\
  state_file (snd (restore_changes Sample.bare_env w)) = state_file w.
Proof.
  apply (restore_changes_end_of_input Sample.bare_env (Sample.after_session [])
           Sample.full_record).
  - vm_compute. reflexivity.
  - reflexivity.
  - reflexivity.
  - reflexivity.
Defined.

(* ===================================================================== *)
(** ** What the restore operations do to the addresses *)
(* ===================================================================== *)

Lemma restore_macs_cmds_tables env m :
  tables_ok m = true ->
  restore_macs_cmds env m
  = flat_map (fun kv => restore_mac_cmds env (table "original_macs" m) (fst kv))
             (table "spoofed_macs" m).
Proof.
  unfold tables_ok, restore_macs_cmds, field, table. intros T.
  apply andb_true_iff in T as [T1 T2].
  destruct (dict_get "spoofed_macs" m) as [ [ | | | | | sp] | ];
    try discriminate T1;
    destruct (dict_get "original_macs" m) as [ [ | | | | | og] | ];
    try discriminate T2; reflexivity.
Qed.

Lemma dict_get_In k v (t : list (string * json)) :
  dict_get k t = Some v -> In (k, v) t.
Proof.
  induction t as [ | [k' v'] t IH]; cbn; [ discriminate | ].
  destruct (String.eqb_spec k k') as [-> | D].
  - intros [= ->]. now left.
  - intros H. right. exact (IH H).
Qed.

Lemma restore_macs_cmds_entry env m iface a :
  tables_ok m = true ->
  entry "spoofed_macs" iface m = Some a ->
  exists pre post,
    restore_macs_cmds env m
    = pre ++ restore_mac_cmds env (table "original_macs" m) iface ++ post.
Proof.
  intros T E. rewrite restore_macs_cmds_tables by exact T.
  apply dict_get_In, in_split in E as (l1 & l2 & ->).
  rewrite flat_map_app. cbn [flat_map fst]. eauto.
Qed.

Lemma restore_mac_cmds_original env origs iface o :
  dict_get iface origs = Some o -> py_truthy o = true ->
  restore_mac_cmds env origs iface = put_back_cmds env iface o.
Proof.
  intros G P. unfold restore_mac_cmds, put_back_cmds, field. rewrite G, P.
  now destruct (which env "macchanger").
Qed.

(** X18.  For each interface with a spoofed address and a recorded
    original address, [restore_changes] takes the link down, sets the
    recorded original address (with [macchanger -m] when that helper is
    installed, with [ip link set dev ... address] otherwise) and brings the
    link up. *)
Theorem restore_changes_puts_original_back (env : Env) (w : World)
    (m : list (string * json)) (line : string) (rest : list string)
    (iface : string) (a o : json) :
  fs_reliable env ->
  stored env (state_file w) = JObj m ->
  tables_ok m = true ->
  (py_truthy (field "monitor_interface" m) = true -> stdin w = line :: rest) ->
  entry "spoofed_macs" iface m = Some a ->
  entry "original_macs" iface m = Some o ->
  py_truthy o = true ->
  fst (restore_changes env w) = Ok tt /\
  exists pre post,
    trace (snd (restore_changes env w))
    = trace w ++ pre ++ put_back_cmds env iface o ++ post.
Proof.
  intros F S T I Es Eo P.
  destruct (restore_changes_spec env w m line rest F S T I) as (w' & R & Tr & _).
  rewrite R. split; [ reflexivity | ]. cbn [snd]. rewrite Tr.
  destruct (restore_macs_cmds_entry env m iface a T Es) as (pre & post & C).
  rewrite (restore_mac_cmds_original env _ iface o Eo P) in C.
  destruct m as [ | kv m']; [ discriminate Es | ].
  rewrite C. exists pre. eexists. rewrite <- !app_assoc. reflexivity.
Qed.

Lemma restore_changes_puts_original_back_witness :
  fst (restore_changes Sample.bare_env (Sample.after_session ["n"])) = Ok tt /\
  exists pre post,
    trace (snd (restore_changes Sample.bare_env (Sample.after_session ["n"])))
    = [] ++ pre
      ++ put_back_cmds Sample.bare_env "wlan0mon" (JStr "00:11:22:33:44:55")
      ++ post.
Proof.
  apply (restore_changes_puts_original_back Sample.bare_env
           (Sample.after_session ["n"]) Sample.full_record "n" [] "wlan0mon"
           (JStr "02:aa:bb:cc:dd:ee") (JStr "00:11:22:33:44:55")).
  - apply sample_fs_reliable.
  - vm_compute. reflexivity.
  - reflexivity.
  - reflexivity.
  - reflexivity.
  - reflexivity.
  - reflexivity.
Defined.

Lemma restore_mac_cmds_other env origs k iface :
  k <> iface ->
  forallb (fun c => negb (sets_address_of iface c)) (restore_mac_cmds env origs k)
  = true.
Proof.
  intros D. apply String.eqb_neq in D. unfold restore_mac_cmds.
  destruct (py_truthy _), (which env "macchanger"); cbn; rewrite ?D; reflexivity.
Qed.

Lemma restore_mac_cmds_none env origs iface :
  which env "macchanger" = false ->
  py_truthy (field iface origs) = false ->
  restore_mac_cmds env origs iface = [].
Proof. intros W P. unfold restore_mac_cmds. now rewrite W, P. Qed.

Lemma revert_cmds_no_address env mon orig_iface iface :
  forallb (fun c => negb (sets_address_of iface c)) (revert_cmds env mon orig_iface)
  = true.
Proof.
  unfold revert_cmds. destruct (which env "airmon-ng"); [ reflexivity | ].
  destruct (py_truthy orig_iface); reflexivity.
Qed.

Lemma restart_cmds_no_address m iface :
  forallb (fun c => negb (sets_address_of iface c)) (restart_cmds m) = true.
Proof. unfold restart_cmds. destruct (py_truthy _); reflexivity. Qed.

(** X19.  An interface with a spoofed address, no recorded original
    address and no [macchanger] on the host: [restore_changes] issues no
    command that changes the address of that interface, and still removes
    the state file, when no monitor interface is recorded or the operator
    answers yes.  The record of the spoof is lost with the address still
    spoofed. *)
Theorem restore_changes_forgets_unrecoverable (env : Env) (w : World)
    (m : list (string * json)) (line : string) (rest : list string)
    (iface : string) (a : json) :
  fs_reliable env ->
  stored env (state_file w) = JObj m ->
  tables_ok m = true ->
  (py_truthy (field "monitor_interface" m) = true ->
   stdin w = line :: rest /\ says_yes line = true) ->
  which env "macchanger" = false ->
  entry "spoofed_macs" iface m = Some a ->
  py_truthy (field iface (table "original_macs" m)) = false ->
  fst (restore_changes env w) = Ok tt /\
  (exists cmds,
     trace (snd (restore_changes env w)) = trace w ++ cmds /\
     forallb (fun c => negb (sets_address_of iface c)) cmds = true) /\
  state_file (snd (restore_changes env w)) = NoFile.
Proof.
  intros F S T I W Es Po.
  assert (I' : py_truthy (field "monitor_interface" m) = true ->
               stdin w = line :: rest) by (intros H; now destruct (I H)).
  destruct (restore_changes_spec env w m line rest F S T I')
    as (w' & R & Tr & Sf).
  rewrite R. cbn [fst snd]. split; [ reflexivity | ].
  destruct m as [ | kv m']; [ discriminate Es | ]. set (m := kv :: m') in *.
  split.
  - eexists. split; [ exact Tr | ].
    rewrite !forallb_app. apply andb_true_iff. split;
      [ | apply andb_true_iff; split;
          [ destruct (_ && _); [ apply revert_cmds_no_address | reflexivity ]
          | apply restart_cmds_no_address ] ].
    rewrite restore_macs_cmds_tables by exact T.
    apply List.forallb_forall. intros c Hc.
    apply in_flat_map in Hc as ([k x] & _ & Hc).
    cbn [fst] in Hc. destruct (String.eqb_spec k iface) as [-> | D].
    + rewrite restore_mac_cmds_none in Hc by assumption. destruct Hc.
    + pose proof (restore_mac_cmds_other env (table "original_macs" m) k iface D)
        as Hk.
      rewrite List.forallb_forall in Hk. now apply Hk.
  - rewrite Sf. destruct (py_truthy (field "monitor_interface" m)) eqn:Mn;
      [ | reflexivity ].
    destruct (I eq_refl) as [_ Y]. now rewrite Y.
Qed.

Lemma restore_changes_forgets_unrecoverable_witness :
  let w := Sample.world (Some (JObj Sample.orphan_record)) [] in
  fst (restore_changes Sample.bare_env w) = Ok tt /\
  (exists cmds,
     trace (snd (restore_changes Sample.bare_env w)) = [] ++ cmds /\
     forallb (fun c => negb (sets_address_of "wlan0" c)) cmds = true) /\
  state_file (snd (restore_changes Sample.bare_env w)) = NoFile.
Proof.
  apply (restore_changes_forgets_unrecoverable Sample.bare_env
           (Sample.world (Some (JObj Sample.orphan_record)) [])
           Sample.orphan_record "" [] "wlan0" (JStr "02:ab:d0:f5:1a:3f")).
  - apply sample_fs_reliable.
  - vm_compute. reflexivity.
  - reflexivity.
  - discriminate.
  - reflexivity.
  - reflexivity.
  - reflexivity.
Defined.

(* ===================================================================== *)
(** ** What an operation leaves in the record *)
(* ===================================================================== *)

Lemma spoof_record_other_key env tr pos iface m k :
  k <> "original_macs" -> k <> "spoofed_macs" ->
  dict_get k (spoof_record env tr pos iface m) = dict_get k m.
Proof.
  intros N1 N2. unfold spoof_record.
  rewrite dict_get_set_other by congruence.
  destruct (captured env tr iface m);
    rewrite ?dict_get_set_other by congruence;
    destruct (dict_get "original_macs" m);
    rewrite ?dict_get_set_other by congruence; reflexivity.
Qed.

Lemma spoof_record_other_interface env tr pos iface m i :
  tables_ok m = true ->
  i <> iface ->
  entry "original_macs" i (spoof_record env tr pos iface m)
  = entry "original_macs" i m /\
  entry "spoofed_macs" i (spoof_record env tr pos iface m)
  = entry "spoofed_macs" i m.
Proof.
  intros T N. unfold entry.
  rewrite table_original_spoof_record, table_spoofed_spoof_record by exact T.
  split.
  - destruct (captured env tr iface m); [ | reflexivity ].
    apply dict_get_set_other. congruence.
  - apply dict_get_set_other. congruence.
Qed.

(** X20.  [mac_spoof] changes the entries of its interface and nothing
    else in the record: every field other than the two address tables is as
    it was, the entries of the other interfaces in both tables are as they
    were, and the spoofed address of the interface is the one
    [generate_random_mac] returned. *)
Theorem mac_spoof_leaves_the_rest (env : Env) (w : World)
    (m : list (string * json)) (line : string) (rest : list string) :
  lawful_codec env ->
  fs_reliable env ->
  stored env (state_file w) = JObj m ->
  tables_ok m = true ->
  stdin w = line :: rest ->
  PyStr.strip line <> EmptyString ->
  let iface := PyStr.strip line in
  let m' := persisted env (snd (mac_spoof env w)) in
  fst (mac_spoof env w) = Ok tt /\
  (forall k, k <> "original_macs" -> k <> "spoofed_macs" ->
             dict_get k m' = dict_get k m) /\
  (forall i, i <> iface ->
             entry "original_macs" i m' = entry "original_macs" i m /\
             entry "spoofed_macs" i m' = entry "spoofed_macs" i m) /\
  (exists mac, fst (generate_random_mac env w) = Ok mac /\
               entry "spoofed_macs" iface m' = Some (JStr mac)).
Proof.
  intros C F S T I N iface m'. subst m'.
  destruct (mac_spoof_spec env w m line rest C F S T I N)
    as (w' & R & S' & _).
  rewrite R. cbn [fst snd]. rewrite (persisted_of_stored _ _ _ S').
  split; [ reflexivity | ].
  split; [ intros; now apply spoof_record_other_key | ].
  split; [ intros; now apply spoof_record_other_interface | ].
  exists (mac_at env (rng_pos w)). rewrite generate_random_mac_eq.
  split; [ reflexivity | apply spoof_record_spoofed ].
Qed.

Lemma mac_spoof_leaves_the_rest_witness :
  let w := Sample.after_session ["wlan1"] in
  let m' := persisted Sample.reader_env (snd (mac_spoof Sample.reader_env w)) in
  fst (mac_spoof Sample.reader_env w) = Ok tt /\
  (forall k, k <> "original_macs" -> k <> "spoofed_macs" ->
             dict_get k m' = dict_get k Sample.full_record) /\
  (forall i, i <> "wlan1" ->
             entry "original_macs" i m' = entry "original_macs" i Sample.full_record /\
             entry "spoofed_macs" i m' = entry "spoofed_macs" i Sample.full_record) /\
  (exists mac, fst (generate_random_mac Sample.reader_env w) = Ok mac /\
               entry "spoofed_macs" "wlan1" m' = Some (JStr mac)).
Proof.
  apply (mac_spoof_leaves_the_rest Sample.reader_env
           (Sample.after_session ["wlan1"]) Sample.full_record "wlan1" []).
  - apply sample_codec_lawful.
  - apply sample_fs_reliable.
  - vm_compute. reflexivity.
  - reflexivity.
  - reflexivity.
  - vm_compute. discriminate.
Defined.

Lemma stealth_record_other_key stopped mon iface m k :
  k <> "networkmanager_stopped" -> k <> "monitor_interface" ->
  k <> "original_interface" ->
  dict_get k (stealth_record stopped mon iface m) = dict_get k m.
Proof.
  intros N1 N2 N3. unfold stealth_record.
  rewrite !dict_get_set_other by congruence.
  destruct stopped; [ apply dict_get_set_other; congruence | reflexivity ].
Qed.

(** [stealth_mode_on] on a record that is a dict: the record it leaves,
    with the name [mon] it records for the monitor interface. *)
Lemma stealth_mode_on_spec env m iface w before :
  lawful_codec env ->
  fs_reliable env ->
  wf_json (JObj m) = true ->
  iface <> EmptyString ->
  enumerate env (trace w) = Ok before ->
  let tr1 := trace w ++ enumerate_cmds env (trace w) in
  let tr2 := tr1 ++ stealth_cmds_airmon iface in
  (which env "airmon-ng" = true -> exists after, enumerate env tr2 = Ok after) ->
  exists w' mon,
    stealth_mode_on env (JObj m) iface w = (Ok tt, w') /\
    stored env (state_file w')
    = JObj (stealth_record (succeeded (host env tr1 SystemctlStop)) mon iface m) /\
    String.eqb mon EmptyString = false /\
    exists cmds, trace w' = tr1 ++ SystemctlStop :: cmds.
Proof.
  intros C F W N B tr1 tr2 A.
  destruct (which env "airmon-ng") eqn:Ew.
  - destruct (A eq_refl) as [after Af].
    destruct (stealth_mode_on_airmon env m iface w before after F Ew B Af)
      as (w' & E & Hf & Ht).
    exists w', (monitor_name (first_new before after) iface).
    split; [ exact E | ]. rewrite Hf.
    split; [ apply stored_dumps; [ exact C | now apply wf_stealth_record ] | ].
    split.
    + unfold monitor_name. destruct (first_new before after) as [a | ].
      * destruct (String.eqb a EmptyString) eqn:Ea; [ | exact Ea ].
        now destruct iface.
      * now destruct iface.
    + rewrite Ht. fold tr1. fold tr2. unfold tr2, stealth_cmds_airmon.
      rewrite <- (app_assoc tr1). cbn [app]. eexists. reflexivity.
  - destruct (stealth_mode_on_manual env m iface w before F Ew B)
      as (w' & E & Hf & Ht).
    exists w', iface. split; [ exact E | ]. rewrite Hf.
    split; [ apply stored_dumps; [ exact C | now apply wf_stealth_record ] | ].
    split; [ now apply String.eqb_neq | ].
    rewrite Ht. fold tr1. unfold stealth_cmds_manual. eexists. reflexivity.
Qed.

Lemma detect_enumerate env w l :
  fst (detect_wireless_interfaces env w) = Ok l -> enumerate env (trace w) = Ok l.
Proof. now rewrite detect_wireless_interfaces_eq. Qed.

(** X21.  [stealth_mode], from its first enumeration on, keeps what else
    the record holds: every field other than [networkmanager_stopped],
    [monitor_interface] and [original_interface] is as it was (the address
    tables among them), and when the stop of the service fails an earlier
    [networkmanager_stopped] stays. *)
Theorem stealth_mode_on_leaves_the_rest (env : Env) (m : list (string * json))
    (iface : string) (w : World) (before : list string) :
  lawful_codec env ->
  fs_reliable env ->
  wf_json (JObj m) = true ->
  iface <> EmptyString ->
  fst (detect_wireless_interfaces env w) = Ok before ->
  let w1 := snd (detect_wireless_interfaces env w) in
  (which env "airmon-ng" = true ->
   exists after,
     enumerate env (trace w1 ++ stealth_cmds_airmon iface) = Ok after) ->
  let m' := persisted env (snd (stealth_mode_on env (JObj m) iface w)) in
  fst (stealth_mode_on env (JObj m) iface w) = Ok tt /\
  (forall k, k <> "networkmanager_stopped" -> k <> "monitor_interface" ->
             k <> "original_interface" -> dict_get k m' = dict_get k m) /\
  (host env (trace w1) SystemctlStop = None ->
   dict_get "networkmanager_stopped" m' = dict_get "networkmanager_stopped" m).
Proof.
  intros C F W N B w1 A m'. subst m' w1.
  rewrite detect_wireless_interfaces_eq in A. cbn [snd trace set_trace] in A.
  rewrite detect_wireless_interfaces_eq. cbn [snd trace set_trace].
  destruct (stealth_mode_on_spec env m iface w before C F W N
              (detect_enumerate _ _ _ B) A) as (w' & mon & E & S & _).
  rewrite E. cbn [fst snd]. rewrite (persisted_of_stored _ _ _ S).
  split; [ reflexivity | ].
  split; [ intros; now apply stealth_record_other_key | ].
  intros H. rewrite H. apply stealth_record_stopped.
Qed.

Lemma stealth_mode_on_leaves_the_rest_witness :
  let w := Sample.after_session [] in
  let env := Sample.env [] Sample.no_service in
  let m' := persisted env
              (snd (stealth_mode_on env (JObj Sample.full_record) "wlan0" w)) in
  fst (stealth_mode_on env (JObj Sample.full_record) "wlan0" w) = Ok tt /\
  (forall k, k <> "networkmanager_stopped" -> k <> "monitor_interface" ->
             k <> "original_interface" ->
             dict_get k m' = dict_get k Sample.full_record) /\
  (host env (trace (snd (detect_wireless_interfaces env w))) SystemctlStop
   = None ->
   dict_get "networkmanager_stopped" m'
   = dict_get "networkmanager_stopped" Sample.full_record).
Proof.
  apply (stealth_mode_on_leaves_the_rest (Sample.env [] Sample.no_service)
           Sample.full_record "wlan0" (Sample.after_session []) ["wlan0"]).
  - apply sample_codec_lawful.
  - apply sample_fs_reliable.
  - reflexivity.
  - discriminate.
  - reflexivity.
  - discriminate.
Defined.

(* ===================================================================== *)
(** ** One operation after another *)
(* ===================================================================== *)

Lemma restore_monitor_allowed_no_address cmds :
  forallb restore_monitor_allowed cmds = true ->
  forallb (fun c => negb (is_address_change c)) cmds = true.
Proof.
  intros H. rewrite List.forallb_forall in *. intros c I. specialize (H c I).
  now destruct c.
Qed.

(** X22.  [restore_monitor_only] on a record that holds a spoofed address:
    it issues no command that changes an address and clears the record, so
    that a [restore_changes] run afterwards finds nothing to restore and
    issues no command. *)
Theorem restore_monitor_only_discards_addresses (env : Env) (w : World)
    (m : list (string * json)) (iface : string) (a : json) :
  fs_reliable env ->
  stored env (state_file w) = JObj m ->
  entry "spoofed_macs" iface m = Some a ->
  let w1 := snd (restore_monitor_only env w) in
  fst (restore_monitor_only env w) = Ok tt /\
  (exists cmds,
     trace w1 = trace w ++ cmds /\
     forallb (fun c => negb (is_address_change c)) cmds = true) /\
  fst (load_state env w1) = Ok (JObj []) /\
  fst (restore_changes env w1) = Ok tt /\
  trace (snd (restore_changes env w1)) = trace w1.
Proof.
  intros F S E w1. subst w1.
  destruct (restore_monitor_only_issues env w) as (cmds & Tc & Ac).
  destruct (restore_monitor_only_spec env w m F S) as (w1 & R & _ & Sf).
  rewrite R in *. cbn [fst snd] in *.
  destruct m as [ | kv m']; [ discriminate E | ].
  assert (S1 : stored env (state_file w1) = JObj []) by now rewrite Sf.
  split; [ reflexivity | ].
  split; [ exists cmds; split;
           [ exact Tc | now apply restore_monitor_allowed_no_address ] | ].
  split; [ rewrite load_state_eq; cbn [fst]; now rewrite S1 | ].
  destruct (restore_changes_spec env w1 [] "" [] F S1 eq_refl)
    as (w2 & R2 & T2 & _); [ discriminate | ].
  rewrite R2. cbn [fst snd]. split; [ reflexivity | ].
  rewrite T2. apply app_nil_r.
Qed.

Lemma restore_monitor_only_discards_addresses_witness :
  let w1 := snd (restore_monitor_only Sample.bare_env (Sample.after_session [])) in
  fst (restore_monitor_only Sample.bare_env (Sample.after_session [])) = Ok tt /\
  (exists cmds,
     trace w1 = [] ++ cmds /\
     forallb (fun c => negb (is_address_change c)) cmds = true) /\
  fst (load_state Sample.bare_env w1) = Ok (JObj []) /\
  fst (restore_changes Sample.bare_env w1) = Ok tt /\
  trace (snd (restore_changes Sample.bare_env w1)) = trace w1.
Proof.
  apply (restore_monitor_only_discards_addresses Sample.bare_env
           (Sample.after_session []) Sample.full_record "wlan0mon"
           (JStr "02:aa:bb:cc:dd:ee")).
  - apply sample_fs_reliable.
  - vm_compute. reflexivity.
  - reflexivity.
Defined.

(** X23.  [mac_spoof] followed by [restore_changes], for an interface
    with no recorded original address and a record without monitor
    interface: the address that [restore_changes] sets is the one
    [get_current_mac] returned before the spoof, and the state file is
    removed. *)
Theorem mac_spoof_then_restore_changes (env : Env) (w : World)
    (m : list (string * json)) (line : string) (rest : list string)
    (o : string) :
  lawful_codec env ->
  fs_reliable env ->
  stored env (state_file w) = JObj m ->
  tables_ok m = true ->
  py_truthy (field "monitor_interface" m) = false ->
  stdin w = line :: rest ->
  PyStr.strip line <> EmptyString ->
  let iface := PyStr.strip line in
  entry "original_macs" iface m = None ->
  fst (get_current_mac env iface w) = Ok (Some o) ->
  let w1 := snd (mac_spoof env w) in
  let w2 := snd (restore_changes env w1) in
  fst (mac_spoof env w) = Ok tt /\
  fst (restore_changes env w1) = Ok tt /\
  (exists pre post,
     trace w2 = trace w1 ++ pre ++ put_back_cmds env iface (JStr o) ++ post) /\
  state_file w2 = NoFile.
Proof.
  intros C F S T Mn I N iface E G w1 w2. subst w1 w2.
  rewrite get_current_mac_eq in G. cbn [fst] in G. injection G as G.
  destruct (mac_spoof_spec env w m line rest C F S T I N)
    as (w1 & R1 & S1 & _).
  fold iface in S1. rewrite R1. cbn [fst snd].
  set (m1 := spoof_record env (trace w) (rng_pos w) iface m) in *.
  pose proof (tables_ok_spoof_record env (trace w) (rng_pos w) iface m T) as T1.
  fold m1 in T1.
  assert (M1 : py_truthy (field "monitor_interface" m1) = false).
  { unfold field, m1. rewrite spoof_record_other_key by discriminate. exact Mn. }
  assert (Es : entry "spoofed_macs" iface m1 = Some (JStr (mac_at env (rng_pos w))))
    by apply spoof_record_spoofed.
  assert (Eo : entry "original_macs" iface m1 = Some (JStr o))
    by now apply spoof_record_captures.
  assert (P : py_truthy (JStr o) = true).
  { cbn. now rewrite (read_mac_nonempty _ _ _ _ G). }
  destruct (restore_changes_spec env w1 m1 "" [] F S1 T1) as (w2 & R2 & T2 & Sf).
  { rewrite M1. discriminate. }
  rewrite R2. cbn [fst snd]. split; [ reflexivity | ]. split; [ reflexivity | ].
  destruct (restore_macs_cmds_entry env m1 iface _ T1 Es) as (pre & post & Cm).
  rewrite (restore_mac_cmds_original env _ iface _ Eo P) in Cm.
  destruct m1 as [ | kv m1']; [ discriminate Es | ].
  rewrite M1 in *. cbn [andb] in *. split; [ | exact Sf ].
  rewrite T2, Cm. exists pre. eexists. rewrite <- !app_assoc. reflexivity.
Qed.

Lemma mac_spoof_then_restore_changes_witness :
  let env := Sample.reader_env in
  let w := Sample.world None ["wlan0"] in
  let w1 := snd (mac_spoof env w) in
  let w2 := snd (restore_changes env w1) in
  fst (mac_spoof env w) = Ok tt /\
  fst (restore_changes env w1) = Ok tt /\
  (exists pre post,
     trace w2
     = trace w1 ++ pre
       ++ put_back_cmds env "wlan0" (JStr "00:11:22:33:44:55") ++ post) /\
  state_file w2 = NoFile.
Proof.
  apply (mac_spoof_then_restore_changes Sample.reader_env
           (Sample.world None ["wlan0"]) [] "wlan0" [] "00:11:22:33:44:55").
  - apply sample_codec_lawful.
  - apply sample_fs_reliable.
  - reflexivity.
  - reflexivity.
  - reflexivity.
  - reflexivity.
  - vm_compute. discriminate.
  - reflexivity.
  - reflexivity.
Defined.

(** X24.  [restore_monitor_only] after [stealth_mode] (from its first
    enumeration on): it stops the monitor interface that was recorded, with
    [airmon-ng stop] or, without that helper, by setting the chosen
    interface back to managed type; it starts NetworkManager when the stop
    had succeeded or was recorded before; and it removes the state file. *)
Theorem stealth_mode_then_restore_monitor_only (env : Env)
    (m : list (string * json)) (iface : string) (w : World)
    (before : list string) :
  lawful_codec env ->
  fs_reliable env ->
  wf_json (JObj m) = true ->
  iface <> EmptyString ->
  fst (detect_wireless_interfaces env w) = Ok before ->
  let w0 := snd (detect_wireless_interfaces env w) in
  (which env "airmon-ng" = true ->
   exists after,
     enumerate env (trace w0 ++ stealth_cmds_airmon iface) = Ok after) ->
  let w1 := snd (stealth_mode_on env (JObj m) iface w) in
  let w2 := snd (restore_monitor_only env w1) in
  let mon := field "monitor_interface" (persisted env w1) in
  fst (stealth_mode_on env (JObj m) iface w) = Ok tt /\
  fst (restore_monitor_only env w1) = Ok tt /\
  py_truthy mon = true /\
  trace w2
  = trace w1
    ++ (if which env "airmon-ng" then [AirmonStop mon]
        else [IpLinkSetDevDown (JStr iface); IwSetTypeManaged (JStr iface);
              IpLinkSetDevUp (JStr iface)])
    ++ (if succeeded (host env (trace w0) SystemctlStop)
           || py_truthy (field "networkmanager_stopped" m)
        then [SystemctlStart] else []) /\
  state_file w2 = NoFile.
Proof.
  intros C F W N B w0 A w1 w2 mon. subst w0 w1 w2 mon.
  rewrite detect_wireless_interfaces_eq in A. cbn [snd trace set_trace] in A.
  rewrite detect_wireless_interfaces_eq. cbn [snd trace set_trace].
  destruct (stealth_mode_on_spec env m iface w before C F W N
              (detect_enumerate _ _ _ B) A) as (w1 & mon & E & S & Nm & _).
  rewrite E. cbn [fst snd]. rewrite (persisted_of_stored _ _ _ S).
  destruct (restore_monitor_only_spec env w1 _ F S) as (w2 & R & T & Sf).
  rewrite R. cbn [fst snd].
  rewrite stealth_record_monitor, stealth_record_original in *.
  assert (P : py_truthy (JStr mon) = true) by (cbn; now rewrite Nm).
  rewrite P in T.
  split; [ reflexivity | ]. split; [ reflexivity | ]. split; [ exact P | ].
  split.
  - rewrite T. f_equal. f_equal.
    + unfold revert_cmds. destruct (which env "airmon-ng"); [ reflexivity | ].
      cbn. apply String.eqb_neq in N. now rewrite N.
    + unfold restart_cmds, field. rewrite stealth_record_stopped.
      now destruct (succeeded _).
  - rewrite Sf. unfold stealth_record. now destruct (dict_set _ _ _) eqn:D;
      [ apply dict_set_not_empty in D | ].
Qed.

Lemma stealth_mode_then_restore_monitor_only_witness :
  let env := Sample.renaming_env in
  let w := Sample.world None [] in
  let w1 := snd (stealth_mode_on env (JObj []) "wlan0" w) in
  let w2 := snd (restore_monitor_only env w1) in
  fst (stealth_mode_on env (JObj []) "wlan0" w) = Ok tt /\
  fst (restore_monitor_only env w1) = Ok tt /\
  py_truthy (JStr "mon0") = true /\
  trace w2 = trace w1 ++ [AirmonStop (JStr "mon0")] ++ [SystemctlStart] /\
  state_file w2 = NoFile.
Proof.
  pose proof (stealth_mode_then_restore_monitor_only Sample.renaming_env []
                "wlan0" (Sample.world None []) ["wlan0"]
                (sample_codec_lawful _ _) (sample_fs_reliable _ _) eq_refl
                ltac:(discriminate) eq_refl
                ltac:(intros _; exists ["wlan0"; "mon0"]; reflexivity)) as H.
  vm_compute in H. vm_compute. exact H.
Defined.

Lemma field_monitor_left k v m :
  k <> "monitor_left" -> field k (dict_set "monitor_left" v m) = field k m.
Proof. intros N. unfold field. rewrite dict_get_set_other; congruence. Qed.

(** X25.  Keeping monitor mode in [restore_changes] and running
    [restore_monitor_only] later: the first restores the addresses and
    restarts the service, the second takes the recorded interface out of
    monitor mode, issues the restart of the service once more because the
    flag was kept, and removes the state file. *)
Theorem restore_changes_keep_then_restore_monitor_only (env : Env) (w : World)
    (m : list (string * json)) (line : string) (rest : list string) :
  lawful_codec env ->
  fs_reliable env ->
  stored env (state_file w) = JObj m ->
  tables_ok m = true ->
  py_truthy (field "monitor_interface" m) = true ->
  stdin w = line :: rest ->
  says_yes line = false ->
  let w1 := snd (restore_changes env w) in
  let w2 := snd (restore_monitor_only env w1) in
  fst (restore_changes env w) = Ok tt /\
  fst (restore_monitor_only env w1) = Ok tt /\
  trace w1 = trace w ++ restore_macs_cmds env m ++ restart_cmds m /\
  trace w2
  = trace w1
    ++ revert_cmds env (field "monitor_interface" m)
         (field "original_interface" m)
    ++ restart_cmds m /\
  state_file w2 = NoFile.
Proof.
  intros C F S T Mn I Y w1 w2. subst w1 w2.
  destruct (restore_changes_spec env w m line rest F S T (fun _ => I))
    as (w1 & R1 & T1 & Sf1).
  assert (Wm : wf_json (JObj m) = true) by (rewrite <- S; now apply stored_wf).
  destruct m as [ | kv m']; [ discriminate Mn | ]. set (m := kv :: m') in *.
  rewrite Mn, Y in *. cbn [andb negb app] in *.
  assert (S1 : stored env (state_file w1)
               = JObj (dict_set "monitor_left" (JBool true) m)).
  { rewrite Sf1. apply stored_dumps; [ exact C | ].
    apply wf_dict_set; [ exact Wm | reflexivity ]. }
  destruct (restore_monitor_only_spec env w1 _ F S1) as (w2 & R2 & T2 & Sf2).
  rewrite !field_monitor_left, restart_cmds_monitor_left, Mn in T2
    by discriminate.
  rewrite R1. cbn [fst snd]. rewrite R2. cbn [fst snd].
  split; [ reflexivity | ]. split; [ reflexivity | ]. split; [ exact T1 | ].
  split; [ exact T2 | ].
  rewrite Sf2. destruct (dict_set _ _ _) eqn:D; [ | reflexivity ].
  now apply dict_set_not_empty in D.
Qed.

Lemma restore_changes_keep_then_restore_monitor_only_witness :
  let env := Sample.airmon_env in
  let w := Sample.after_session ["n"] in
  let w1 := snd (restore_changes env w) in
  let w2 := snd (restore_monitor_only env w1) in
  fst (restore_changes env w) = Ok tt /\
  fst (restore_monitor_only env w1) = Ok tt /\
  trace w1
  = [IpLinkSetDown "wlan0mon";
     IpLinkSetAddress "wlan0mon" (JStr "00:11:22:33:44:55");
     IpLinkSetUp "wlan0mon"; SystemctlStart] /\
  trace w2 = trace w1 ++ [AirmonStop (JStr "wlan0mon"); SystemctlStart] /\
  state_file w2 = NoFile.
Proof.
  pose proof (restore_changes_keep_then_restore_monitor_only Sample.airmon_env
                (Sample.after_session ["n"]) Sample.full_record "n" []
                (sample_codec_lawful _ _) (sample_fs_reliable _ _)
                ltac:(vm_compute; reflexivity) eq_refl eq_refl eq_refl eq_refl)
    as H.
  vm_compute in H. vm_compute. exact H.
Defined.

(* ===================================================================== *)
(** ** Clearing the logs *)
(* ===================================================================== *)

Lemma on_core_input line rest s :
  stdin (core s) = line :: rest ->
  on_core input s = (Returns line, set_core (set_stdin rest (core s)) s).
Proof. intros I. unfold on_core. now rewrite (input_eq line rest _ I). Qed.

(** X26.  Unless the operator types [CLEAR_LOGS], [clear_logs] returns
    with every file and the journal untouched; it has read the one line. *)
Theorem clear_logs_needs_confirmation (h : Host) (s : Machine) (line : string)
    (rest : list string) :
  stdin (core s) = line :: rest ->
  PyStr.strip line <> "CLEAR_LOGS" ->
  clear_logs h s = (Returns tt, set_core (set_stdin rest (core s)) s).
Proof.
  intros I N. unfold clear_logs, pbind. rewrite (on_core_input _ _ _ I).
  apply String.eqb_neq in N. now rewrite N.
Qed.

Lemma truncate_loop h l s :
  exists s',
    pfor l (fun lf =>
              pbind (path_exists lf)
                (fun present =>
                   if present then ptry (truncate h lf) (pret tt) else pret tt)) s
    = (Returns tt, s') /\
    core s' = core s /\
    journal s' = journal s /\
    forall p, logs s' !! p = truncated h l (logs s) p.
Proof.
  revert s. induction l as [ | lf l IH]; intros s.
  - exists s. cbn. repeat split. intros p. unfold truncated.
    now destruct (logs s !! p).
  - cbn [pfor]. unfold pbind at 1 2, path_exists at 1.
    destruct (logs s !! lf) as [t | ] eqn:E.
    + unfold ptry, truncate, pret at 1.
      destruct (open_fails h lf) eqn:O.
      * destruct (IH s) as (s' & R & Hc & Hj & Hl). exists s'.
        split; [ exact R | ]. split; [ exact Hc | ]. split; [ exact Hj | ].
        intros p. rewrite Hl. unfold truncated. destruct (logs s !! p); [ | easy ].
        cbn [existsb]. destruct (String.eqb_spec p lf) as [-> | D]; [ | easy ].
        rewrite O. cbn. now rewrite andb_false_r.
      * destruct (IH (set_logs (<[lf := EmptyString]> (logs s)) s))
          as (s' & R & Hc & Hj & Hl).
        exists s'. split; [ exact R | ]. split; [ exact Hc | ].
        split; [ exact Hj | ].
        intros p. rewrite Hl. unfold truncated. cbn [logs set_logs existsb].
        destruct (String.eqb_spec p lf) as [-> | D].
        -- rewrite lookup_insert_eq, E, O. cbn.
           now destruct (existsb _ l).
        -- rewrite lookup_insert_ne by congruence. reflexivity.
    + unfold pret at 1. destruct (IH s) as (s' & R & Hc & Hj & Hl). exists s'.
      split; [ exact R | ]. split; [ exact Hc | ]. split; [ exact Hj | ].
      intros p. rewrite Hl. unfold truncated.
      destruct (logs s !! p) eqn:Ep; [ | reflexivity ]. cbn [existsb].
      destruct (String.eqb_spec p lf) as [-> | D]; [ congruence | reflexivity ].
Qed.

(** X27.  Once confirmed, [clear_logs] returns normally whatever fails:
    a file is emptied exactly when its path is one of [LOG_FILES], it exists
    and it can be opened; every other file keeps its content and no file is
    created; the journal is rotated and vacuumed when [journalctl] is
    installed; the world of the operations is untouched but for the line
    that was read. *)
Theorem clear_logs_truncates (h : Host) (s : Machine) (line : string)
    (rest : list string) :
  stdin (core s) = line :: rest ->
  PyStr.strip line = "CLEAR_LOGS" ->
  exists s',
    clear_logs h s = (Returns tt, s') /\
    core s' = set_stdin rest (core s) /\
    (forall p,
       logs s' !! p
       = match logs s !! p with
         | Some t =>
             Some (if existsb (String.eqb p) LOG_FILES && negb (open_fails h p)
                   then EmptyString else t)
         | None => None
         end) /\
    journal s'
    = journal s ++
      (if which (tools h) "journalctl"
       then [(length (trace (core s)), JournalRotate);
             (length (trace (core s)), JournalVacuum)]
       else []).
Proof.
  intros I Y. unfold clear_logs. unfold pbind at 1.
  rewrite (on_core_input _ _ _ I), Y.
  change (String.eqb "CLEAR_LOGS" "CLEAR_LOGS") with true. cbn [negb].
  destruct (truncate_loop h LOG_FILES (set_core (set_stdin rest (core s)) s))
    as (s1 & R & Hc & Hj & Hl).
  unfold pbind at 1. rewrite R.
  destruct (which (tools h) "journalctl").
  - eexists. split; [ reflexivity | ]. cbn. rewrite Hc, Hj. cbn.
    split; [ reflexivity | ]. split; [ exact Hl | ].
    now rewrite <- app_assoc.
  - exists s1. split; [ reflexivity | ]. split; [ exact Hc | ].
    split; [ exact Hl | ]. rewrite Hj. cbn. now rewrite app_nil_r.
Qed.

Lemma clear_logs_needs_confirmation_witness :
  clear_logs Sample.root_host (Sample.machine ["clear_logs"; "0"])
  = (Returns tt, Sample.machine ["0"]).
Proof.
  apply (clear_logs_needs_confirmation Sample.root_host
           (Sample.machine ["clear_logs"; "0"]) "clear_logs" ["0"] eq_refl).
  vm_compute. discriminate.
Defined.

Lemma clear_logs_truncates_witness :
  exists s',
    clear_logs Sample.root_host (Sample.machine [" CLEAR_LOGS "]) = (Returns tt, s') /\
    core s' = Sample.world None [] /\
    (forall p,
       logs s' !! p
       = match logs (Sample.machine [" CLEAR_LOGS "]) !! p with
         | Some t =>
             Some (if existsb (String.eqb p) LOG_FILES
                      && negb (open_fails Sample.root_host p)
                   then EmptyString else t)
         | None => None
         end) /\
    journal s' = [] ++ [(0, JournalRotate); (0, JournalVacuum)].
Proof.
  apply (clear_logs_truncates Sample.root_host
           (Sample.machine [" CLEAR_LOGS "]) " CLEAR_LOGS " [] eq_refl).
  vm_compute. reflexivity.
Defined.

(** On the sample machine: the log that can be opened is emptied, the one
    that cannot and the file that is not a log are left, and no file is
    created. *)
Example clear_logs_scenario :
  let s' := snd (clear_logs Sample.root_host (Sample.machine ["CLEAR_LOGS"])) in
  logs s' !! "/var/log/syslog" = Some "" /\
  logs s' !! "/var/log/wtmp" = Some "logins" /\
  logs s' !! "/var/log/other" = Some "kept" /\
  logs s' !! "/var/log/auth.log" = None.
Proof. vm_compute. repeat split. Qed.

(* ===================================================================== *)
(** ** The menu *)
(* ===================================================================== *)

Lemma on_core_reads {A} (c : M A) s r s' :
  keeps reads_on c ->
  on_core c s = (r, s') ->
  length (stdin (core s')) <= length (stdin (core s)) /\
  (forall code, r <> Exits code).
Proof.
  intros K. unfold on_core. specialize (K (core s)).
  destruct (c (core s)) as [[a | e] w']; intros [= <- <-]; cbn in *;
    (split; [ now apply reads_on_length | discriminate ]).
Qed.

Lemma clear_logs_reads h s r s' :
  clear_logs h s = (r, s') ->
  length (stdin (core s')) <= length (stdin (core s)) /\
  (forall code, r <> Exits code).
Proof.
  unfold clear_logs, pbind at 1.
  destruct (stdin (core s)) as [ | line rest] eqn:I.
  - unfold on_core, input. rewrite I.
    intros [= <- <-]. cbn. rewrite I. split; [ reflexivity | discriminate ].
  - rewrite (on_core_input _ _ _ I).
    destruct (String.eqb (PyStr.strip line) "CLEAR_LOGS"); cbn [negb].
    + destruct (truncate_loop h LOG_FILES (set_core (set_stdin rest (core s)) s))
        as (s1 & R & Hc & _).
      unfold pbind at 1. rewrite R.
      destruct (which (tools h) "journalctl"); intros [= <- <-]; cbn;
        rewrite Hc; cbn; (split; [ lia | discriminate ]).
    + intros [= <- <-]. cbn. split; [ lia | discriminate ].
Qed.

Lemma menu_turn_reads h s r s' :
  menu_turn h s = (r, s') ->
  length (stdin (core s')) <= length (stdin (core s)) /\
  (r = Returns tt -> length (stdin (core s')) < length (stdin (core s))) /\
  (forall code, r = Exits code -> code = 0%Z).
Proof.
  unfold menu_turn, pbind at 1.
  destruct (stdin (core s)) as [ | line rest] eqn:I.
  - unfold on_core, input. rewrite I. intros [= <- <-]. cbn. rewrite I.
    split; [ reflexivity | ]. split; discriminate.
  - rewrite (on_core_input _ _ _ I).
    set (s1 := set_core (set_stdin rest (core s)) s).
    assert (L : length (stdin (core s1)) = length rest) by reflexivity.
    assert (G : forall c : P unit,
               (forall r s', c s1 = (r, s') ->
                  length (stdin (core s')) <= length (stdin (core s1)) /\
                  (forall code, r <> Exits code)) ->
               c s1 = (r, s') ->
               length (stdin (core s')) <= S (length rest) /\
               (r = Returns tt -> length (stdin (core s')) < S (length rest)) /\
               (forall code, r = Exits code -> code = 0%Z)).
    { intros c Hc E. destruct (Hc _ _ E) as [Hl Hx]. rewrite L in Hl.
      split; [ lia | ]. split; [ lia | ]. intros code ->. now destruct (Hx code). }
    cbn [length].
    destruct (String.eqb _ "1");
      [ apply G; intros ? ?; apply on_core_reads, stealth_mode_reads | ].
    destruct (String.eqb _ "2");
      [ apply G; intros ? ?; apply on_core_reads, mac_spoof_reads | ].
    destruct (String.eqb _ "3"); [ apply G; intros ? ?; apply clear_logs_reads | ].
    destruct (String.eqb _ "4");
      [ apply G; intros ? ?; apply on_core_reads, restore_changes_reads | ].
    destruct (String.eqb _ "5");
      [ apply G; intros ? ?; apply on_core_reads, restore_monitor_only_reads | ].
    destruct (String.eqb _ "0").
    + intros [= <- <-]. cbn. split; [ lia | ]. split; [ discriminate | ].
      now intros code [= <-].
    + intros [= <- <-]. cbn. split; [ lia | ]. split; [ lia | discriminate ].
Qed.

Lemma menu_loop_ends h fuel : forall s,
  length (stdin (core s)) < fuel ->
  exists r s',
    menu_loop h fuel s = Some (r, s') /\
    (r = Exits 0 \/ exists e, r = Fails e).
Proof.
  induction fuel as [ | fuel IH]; intros s L; [ lia | ].
  cbn [menu_loop].
  destruct (menu_turn h s) as [r s1] eqn:E.
  destruct (menu_turn_reads h s r s1 E) as (_ & Hr & Hx).
  destruct r as [[] | e | code].
  - apply IH. specialize (Hr eq_refl). lia.
  - exists (Fails e), s1. split; [ reflexivity | right; now exists e ].
  - rewrite (Hx code eq_refl). exists (Exits 0), s1. split; [ reflexivity | now left ].
Qed.

(** X28.  The menu ends.  Started by a user other than root it leaves at
    once with exit status 1, having read and changed nothing.  Started by
    root, with more turns allowed than the operator has lines to type, it
    does not run out of turns: it ends with exit status 0 or with an
    exception that no operation caught. *)
Theorem menu_ends (h : Host) (s : Machine) (fuel : nat) :
  (euid h <> 0%Z -> menu h fuel s = Some (Exits 1, s)) /\
  (euid h = 0%Z ->
   length (stdin (core s)) < fuel ->
   exists r s',
     menu h fuel s = Some (r, s') /\
     (r = Exits 0 \/ exists e, r = Fails e)).
Proof.
  unfold menu, check_root. split.
  - intros N. apply Z.eqb_neq in N. now rewrite N.
  - intros ->. cbn. apply menu_loop_ends.
Qed.

Lemma menu_ends_witness :
  menu Sample.user_host 1 (Sample.machine ["1"; "YES"])
  = Some (Exits 1, Sample.machine ["1"; "YES"]).
Proof.
  apply (menu_ends Sample.user_host (Sample.machine ["1"; "YES"]) 1).
  discriminate.
Defined.

Lemma menu_loop_unknown h junk : forall s tail fuel,
  Forall (fun l => unknown_choice l = true) junk ->
  stdin (core s) = junk ++ tail ->
  menu_loop h (length junk + fuel) s
  = menu_loop h fuel (set_core (set_stdin tail (core s)) s).
Proof.
  induction junk as [ | line junk IH]; intros s tail fuel U I.
  - cbn in *. f_equal. destruct s as [[] ? ?]. cbn in *. now subst.
  - inversion U as [ | ? ? U1 U2 ]; subst.
    cbn [length Nat.add menu_loop]. unfold menu_turn, pbind.
    rewrite (on_core_input line (junk ++ tail) s I).
    unfold unknown_choice in U1. cbn [existsb] in U1.
    apply negb_true_iff in U1. rewrite !orb_false_iff in U1.
    destruct U1 as (-> & -> & -> & -> & -> & -> & _).
    unfold pret.
    rewrite (IH (set_core (set_stdin (junk ++ tail) (core s)) s) tail fuel U2
               eq_refl).
    reflexivity.
Qed.

(** X29.  Lines that select no entry of the menu are skipped without any
    effect, and the choice [0] leaves with exit status 0: the machine is as
    it was, but for the lines that were read. *)
Theorem menu_exit (h : Host) (s : Machine) (junk : list string)
    (line : string) (rest : list string) (fuel : nat) :
  euid h = 0%Z ->
  Forall (fun l => unknown_choice l = true) junk ->
  stdin (core s) = junk ++ line :: rest ->
  PyStr.strip line = "0" ->
  length junk < fuel ->
  menu h fuel s = Some (Exits 0, set_core (set_stdin rest (core s)) s).
Proof.
  intros R U I E0 L. unfold menu, check_root. rewrite R. cbn.
  replace fuel with (length junk + S (fuel - S (length junk))) by lia.
  rewrite (menu_loop_unknown h junk s (line :: rest) _ U I).
  cbn [menu_loop]. unfold menu_turn, pbind.
  rewrite (on_core_input line rest
             (set_core (set_stdin (line :: rest) (core s)) s) eq_refl), E0.
  reflexivity.
Qed.

Lemma menu_exit_witness :
  menu Sample.root_host 3 (Sample.machine ["9"; ""; " 0 "; "1"])
  = Some (Exits 0, Sample.machine ["1"]).
Proof.
  apply (menu_exit Sample.root_host (Sample.machine ["9"; ""; " 0 "; "1"])
           ["9"; ""] " 0 " ["1"] 3 eq_refl).
  - repeat constructor.
  - reflexivity.
  - vm_compute. reflexivity.
  - cbn. lia.
Defined.

(** X30.  When the operator's lines select no entry and the input ends,
    the menu fails with the [EOFError] of [input], which nothing catches;
    the machine is as it was, but for the lines that were read. *)
Theorem menu_end_of_input (h : Host) (s : Machine) (fuel : nat) :
  euid h = 0%Z ->
  Forall (fun l => unknown_choice l = true) (stdin (core s)) ->
  length (stdin (core s)) < fuel ->
  menu h fuel s = Some (Fails EOFError, set_core (set_stdin [] (core s)) s).
Proof.
  intros R U L. unfold menu, check_root. rewrite R. cbn.
  replace fuel with (length (stdin (core s))
                     + S (fuel - S (length (stdin (core s))))) by lia.
  rewrite (menu_loop_unknown h _ s [] _ U (eq_sym (app_nil_r _))).
  cbn [menu_loop]. reflexivity.
Qed.

Lemma menu_end_of_input_witness :
  menu Sample.root_host 3 (Sample.machine ["exit"; "q"])
  = Some (Fails EOFError, Sample.machine []).
Proof.
  apply (menu_end_of_input Sample.root_host (Sample.machine ["exit"; "q"]) 3
           eq_refl).
  - repeat constructor.
  - cbn. lia.
Defined.

(** A session through the menu on a host without helpers: an address is
    spoofed, the logs are cleared, the changes are restored, and the
    operator leaves. *)
Example menu_scenario :
  match menu Sample.root_host 5
          (Sample.machine ["2"; "wlan0"; "3"; "CLEAR_LOGS"; "4"; "0"]) with
  | Some (r, s') =>
      r = Exits 0 /\
      trace (core s')
      = [IpLinkShow "wlan0"; IpLinkSetDown "wlan0";
         IpLinkSetAddress "wlan0" (JStr "02:ab:d0:f5:1a:3f");
         IpLinkSetUp "wlan0"; IpLinkSetDown "wlan0";
         IpLinkSetAddress "wlan0" (JStr "00:11:22:33:44:55");
         IpLinkSetUp "wlan0"] /\
      journal s' = [(4, JournalRotate); (4, JournalVacuum)] /\
      state_file (core s') = NoFile /\
      logs s' !! "/var/log/syslog" = Some ""
  | None => False
  end.
Proof. vm_compute. repeat split. Qed.
